(** * TTCom: a shallow embedding of the protocol core and its checked properties

    The development follows the Python sources module by module:
    - [PyStr]      the [str] methods the sources call (Python built-ins);
    - [Shlex]      [shlex.split] in POSIX mode, as [ParmLine.splitline] calls it;
    - [PyDict]     insertion-ordered dictionaries;
    - [AttrDict]   tt_attrdict.py;
    - [Parmline]   parmline.py ([Parser], the typed parameters, [ParmLine]);
    - [Ttapi]      ttapi.py (connection pinger, server session, correlator);
    - [Triggers]   triggers.py (the address match);
    - [TTComCmd]   TTComCmd.py ([MyTeamtalkServer.outputFromEvent]).

    Text is modelled by [string]: every [ascii] stands for the Unicode code
    point of the same number, so the model covers text whose code points are
    below 256 and classifies those code points as Python does.  Python [int]
    is [Z].  Exceptions are values of [PyExc]; a call that may raise returns
    an [Outcome]. *)

From Stdlib Require Import String Ascii List Bool Arith ZArith QArith Lia DecimalString.
From Stdlib Require DecimalZ DecimalPos.
Import ListNotations.

Local Close Scope Q_scope.
Local Open Scope list_scope.
Local Open Scope string_scope.

Set Implicit Arguments.

(** ** Exceptions and outcomes

    [OutOfFuel] is no exception of Python: it marks a loop of the source that
    the bound given to its model cut short. *)

Inductive PyExc : Type :=
| KeyError
| AttributeError
| ValueError
| IndexError
| TypeError
| IOError
| CommandError
| StopIteration
| OutOfFuel.

Inductive Outcome (A : Type) : Type :=
| Returned (a : A)
| Raised (e : PyExc).

Arguments Returned {A} a.
Arguments Raised {A} e.

Definition obind {A B : Type} (o : Outcome A) (k : A -> Outcome B) : Outcome B :=
match o with
| Returned a => k a
| Raised e => Raised e
end.

Declare Scope outcome_scope.
Delimit Scope outcome_scope with outcome.

Notation "x <- c1 ;; c2" := (obind c1 (fun x => c2))
  (at level 61, c1 at next level, right associativity) : outcome_scope.

(** The double quote, which a string literal cannot hold here, and the other
    characters the sources name. *)
Definition dquote : ascii := ascii_of_nat 34.
Definition squote : ascii := ascii_of_nat 39.
Definition backslash : ascii := ascii_of_nat 92.
Definition LF : ascii := ascii_of_nat 10.
Definition CR : ascii := ascii_of_nat 13.
Definition TAB : ascii := ascii_of_nat 9.
Definition chr (c : ascii) : string := String c EmptyString.

(** ** Python [str] methods *)

Module PyStr.

Definition code (c : ascii) : nat := nat_of_ascii c.

Definition between (lo hi : nat) (c : ascii) : bool :=
(lo <=? code c)%nat && (code c <=? hi)%nat.

(** [str.isspace] on one character: TAB, LF, VT, FF, CR, FS, GS, RS, US,
    space, NEL and NBSP are the code points below 256 that Python strips. *)
Definition isspace_char (c : ascii) : bool :=
between 9 13 c || between 28 32 c || (code c =? 133)%nat || (code c =? 160)%nat.

(** Unicode letters below 256 (general categories Lu, Ll, Lo). *)
Definition isalpha_char (c : ascii) : bool :=
between 65 90 c || between 97 122 c
|| (code c =? 170)%nat || (code c =? 181)%nat || (code c =? 186)%nat
|| between 192 214 c || between 216 246 c || between 248 255 c.

(** [str.isdigit] accepts the decimal digits and, below 256, the
    superscripts two, three and one. *)
Definition isdigit_char (c : ascii) : bool :=
between 48 57 c || (code c =? 178)%nat || (code c =? 179)%nat || (code c =? 185)%nat.

(** The class [\d] of [re] on [str] patterns: decimal digits only. *)
Definition re_digit (c : ascii) : bool := between 48 57 c.

Definition all_chars (p : ascii -> bool) (s : string) : bool :=
forallb p (list_ascii_of_string s).

(** [s.isalpha()] and [s.isdigit()]: every character qualifies and there is
    at least one. *)
Definition isalpha (s : string) : bool :=
negb (s =? EmptyString) && all_chars isalpha_char s.

Definition isdigit (s : string) : bool :=
negb (s =? EmptyString) && all_chars isdigit_char s.

Definition lower_char (c : ascii) : ascii :=
if between 65 90 c || between 192 214 c || between 216 222 c
then ascii_of_nat (code c + 32)
else c.

Fixpoint lower (s : string) : string :=
match s with
| EmptyString => EmptyString
| String c r => String (lower_char c) (lower r)
end.

Definition startswith (s p : string) : bool := prefix p s.

Fixpoint contains (sub s : string) : bool :=
prefix sub s ||
match s with
| EmptyString => false
| String _ r => contains sub r
end.

Fixpoint has_char (c : ascii) (s : string) : bool :=
match s with
| EmptyString => false
| String d r => (d =? c)%char || has_char c r
end.

Fixpoint lstrip (s : string) : string :=
match s with
| EmptyString => EmptyString
| String c r => if isspace_char c then lstrip r else s
end.

Fixpoint rstrip (s : string) : string :=
match s with
| EmptyString => EmptyString
| String c r =>
    match rstrip r with
    | EmptyString => if isspace_char c then EmptyString else chr c
    | r' => String c r'
    end
end.

Definition strip (s : string) : string := rstrip (lstrip s).

Fixpoint drop (n : nat) (s : string) : string :=
match n, s with
| O, _ => s
| S k, EmptyString => EmptyString
| S k, String _ r => drop k r
end.

(** [s.replace(old, new)]: left to right, occurrences that do not overlap.
    [skip] counts the characters of a matched occurrence still to be passed. *)
Fixpoint replace_from (old new : string) (skip : nat) (s : string) : string :=
match s with
| EmptyString => EmptyString
| String c r =>
    match skip with
    | S k => replace_from old new k r
    | O =>
        if prefix old s
        then new ++ replace_from old new (String.length old - 1) r
        else String c (replace_from old new 0 r)
    end
end.

Fixpoint interleave (new s : string) : string :=
match s with
| EmptyString => new
| String c r => new ++ String c (interleave new r)
end.

Definition replace (old new s : string) : string :=
match old with
| EmptyString => interleave new s
| _ => replace_from old new 0 s
end.

(** [s.split(sep)] for a one-character separator. *)
Fixpoint split_char (sep : ascii) (s : string) : list string :=
match s with
| EmptyString => [EmptyString]
| String c r =>
    if (c =? sep)%char then EmptyString :: split_char sep r
    else match split_char sep r with
         | h :: t => String c h :: t
         | [] => [chr c]
         end
end.

(** [s.split(sep, 1)] when [sep] occurs in [s]: the text before the first
    separator and the text after it. *)
Fixpoint partition_char (sep : ascii) (s : string) : string * string :=
match s with
| EmptyString => (EmptyString, EmptyString)
| String c r =>
    if (c =? sep)%char then (EmptyString, r)
    else let (a, b) := partition_char sep r in (String c a, b)
end.

(** [sep.join(parts)]. *)
Definition join (sep : string) (parts : list string) : string := String.concat sep parts.

(** [str(n)] and [format(n, "0d")] for an [int]. *)
Definition of_int (n : Z) : string := NilEmpty.string_of_int (Z.to_int n).

Definition digit_value (c : ascii) : Z := Z.of_nat (code c - 48).

Fixpoint digits_value (acc : Z) (s : string) : Z :=
match s with
| EmptyString => acc
| String c r => digits_value (10 * acc + digit_value c)%Z r
end.

(** [int(s)] on the texts the parser hands it: an optional minus sign, then
    decimal digits; anything else raises [ValueError]. *)
Definition to_int (s : string) : Outcome Z :=
match s with
| String c r =>
    if (c =? "-")%char
    then if negb (r =? EmptyString) && all_chars re_digit r
         then Returned (- digits_value 0 r)%Z else Raised ValueError
    else if all_chars re_digit s then Returned (digits_value 0 s) else Raised ValueError
| EmptyString => Raised ValueError
end.

End PyStr.

(** ** [shlex.split(s)]: POSIX mode, [whitespace_split], no comment characters

    The lexer of the Python library, one character at a time.  Its state is
    [' '] (between tokens), ['a'] (inside a word), a quote character (inside a
    quoted part) or the escape character (after a backslash, remembering the
    state to return to). *)

Module Shlex.

Inductive state : Type :=
| Blank
| Word
| Quoted (q : ascii)
| Escaped (back : state).

Definition is_whitespace (c : ascii) : bool :=
(c =? " ")%char || (c =? TAB)%char || (c =? CR)%char || (c =? LF)%char.

Definition is_quote (c : ascii) : bool := (c =? squote)%char || (c =? dquote)%char.

Definition is_escape (c : ascii) : bool := (c =? backslash)%char.

(** Only the double quote is in [escapedquotes]. *)
Definition escapes_inside (q : ascii) : bool := (q =? dquote)%char.

Definition snoc (tok : string) (c : ascii) : string := tok ++ chr c.

(** [tokens st tok rest]: the tokens read from [rest], [tok] being the token
    under construction.  A token is emitted at unquoted whitespace and at the
    end of the text; in state [Word] the token is either non-empty or comes
    from a quoted part, so it is always emitted. *)
Fixpoint tokens (st : state) (tok : string) (rest : string) : Outcome (list string) :=
match rest with
| EmptyString =>
    match st with
    | Blank => Returned []
    | Word => Returned [tok]
    | Quoted _ => Raised ValueError
    | Escaped _ => Raised ValueError
    end
| String c r =>
    match st with
    | Blank =>
        if is_whitespace c then tokens Blank tok r
        else if is_escape c then tokens (Escaped Word) tok r
        else if is_quote c then tokens (Quoted c) tok r
        else tokens Word (chr c) r
    | Word =>
        if is_whitespace c
        then obind (tokens Blank EmptyString r) (fun ts => Returned (tok :: ts))
        else if is_quote c then tokens (Quoted c) tok r
        else if is_escape c then tokens (Escaped Word) tok r
        else tokens Word (snoc tok c) r
    | Quoted q =>
        if (c =? q)%char then tokens Word tok r
        else if is_escape c && escapes_inside q then tokens (Escaped (Quoted q)) tok r
        else tokens (Quoted q) (snoc tok c) r
    | Escaped back =>
        match back with
        | Quoted q =>
            if negb (is_escape c) && negb (c =? q)%char
            then tokens back (snoc (snoc tok backslash) c) r
            else tokens back (snoc tok c) r
        | _ => tokens back (snoc tok c) r
        end
    end
end.

Definition split (s : string) : Outcome (list string) := tokens Blank EmptyString s.

End Shlex.

(** ** Python values stored in the records *)

Inductive PyVal : Type :=
| VNone
| VStr (s : string)
| VInt (n : Z)
| VBool (b : bool)
| VFloat (q : Q)
| VObj.

(** [v == s] for a string [s]. *)
Definition val_is_str (v : PyVal) (s : string) : bool :=
match v with
| VStr t => t =? s
| _ => false
end.

(** Truth value of a Python object. *)
Definition truthy (v : PyVal) : bool :=
match v with
| VNone => false
| VStr s => negb (s =? EmptyString)
| VInt n => negb (n =? 0)%Z
| VBool b => b
| VFloat q => negb (Qeq_bool q 0)
| VObj => true
end.

(** ** Insertion-ordered dictionaries ([dict]) *)

Module PyDict.

Section Dict.
Variable V : Type.

Definition t : Type := list (string * V).

Fixpoint lookup (k : string) (d : t) : option V :=
match d with
| [] => None
| (k', v) :: r => if k' =? k then Some v else lookup k r
end.

Definition mem (k : string) (d : t) : bool :=
match lookup k d with
| Some _ => true
| None => false
end.

(** [d[k] = v]: a present key keeps its place, a new key goes last. *)
Fixpoint store (k : string) (v : V) (d : t) : t :=
match d with
| [] => [(k, v)]
| (k', v') :: r => if k' =? k then (k, v) :: r else (k', v') :: store k v r
end.

Fixpoint remove (k : string) (d : t) : t :=
match d with
| [] => []
| (k', v') :: r => if k' =? k then remove k r else (k', v') :: remove k r
end.

(** [d.update(other)]: plain [dict.update], item by item. *)
Definition update (d other : t) : t :=
fold_left (fun acc kv => store (fst kv) (snd kv) acc) other d.

Definition keys (d : t) : list string := map fst d.

End Dict.

End PyDict.

(** ** tt_attrdict.py: [AttrDict]

    A [dict] subclass.  The methods below are the overriding ones; [mem],
    [update], [keys] and the constructor are inherited from [dict] and act on
    the stored keys as they are. *)

Module AttrDict.

Import PyStr.

Definition t : Type := PyDict.t PyVal.

Definition empty : t := [].

(** [k in d], inherited from [dict]: the exact stored key. *)
Definition mem (k : string) (d : t) : bool := PyDict.mem k d.

(** The swap both [__getitem__] and [get] make after a miss. *)
Definition alias (k : string) : string :=
if k =? "channelid" then "chanid"
else if k =? "chanid" then "channelid"
else k.

(** [__setitem__]: the key is stored in lower case, nothing else. *)
Definition __setitem__ (d : t) (fieldname : string) (fieldval : PyVal) : t :=
PyDict.store (lower fieldname) fieldval d.

(** [__getitem__]: the lower-cased key, then its alias; [KeyError] when
    neither is stored. *)
Definition __getitem__ (d : t) (fieldname : string) : Outcome PyVal :=
match PyDict.lookup (lower fieldname) d with
| Some v => Returned v
| None =>
    match PyDict.lookup (alias (lower fieldname)) d with
    | Some v => Returned v
    | None => Raised KeyError
    end
end.

(** [__getattr__], called for a name that is no attribute of the object. *)
Definition __getattr__ (d : t) (fieldname : string) : Outcome PyVal :=
match __getitem__ d fieldname with
| Returned v => Returned v
| Raised KeyError =>
    if startswith fieldname "_" then Raised AttributeError
    else if fieldname =? "channelid" then
      match __getitem__ d "chanid" with
      | Returned v => Returned v
      | Raised KeyError => Returned VNone
      | Raised e => Raised e
      end
    else if fieldname =? "chanid" then
      match __getitem__ d "channelid" with
      | Returned v => Returned v
      | Raised KeyError => Returned VNone
      | Raised e => Raised e
      end
    else Returned VNone
| Raised e => Raised e
end.

(** [__delitem__]. *)
Definition __delitem__ (d : t) (k : string) : Outcome t :=
let k := lower k in
if PyDict.mem k d then Returned (PyDict.remove k d)
else
  let k := alias k in
  if PyDict.mem k d then Returned (PyDict.remove k d) else Raised KeyError.

(** [__setattr__].  A name that starts with an underscore becomes an
    attribute of the object and leaves the mapping alone; [None] deletes the
    field; otherwise the field is stored, under the alias when the alias is
    the key already present. *)
Definition __setattr__ (d : t) (fieldname : string) (fieldval : PyVal) : t :=
if startswith fieldname "_" then d
else
  match fieldval with
  | VNone =>
      match __delitem__ d fieldname with
      | Returned d' => d'
      | Raised _ => d
      end
  | _ =>
      let fieldname :=
        if (fieldname =? "channelid") && mem "chanid" d then "chanid"
        else if (fieldname =? "chanid") && mem "channelid" d then "channelid"
        else fieldname in
      __setitem__ d fieldname fieldval
  end.

(** [get(k, d=None)]. *)
Definition get (d : t) (k : string) (default : PyVal) : PyVal :=
let k := lower k in
match PyDict.lookup k d with
| Some v => v
| None =>
    match PyDict.lookup (alias k) d with
    | Some v => v
    | None => default
    end
end.

(** [pop(k, d=None)]. *)
Definition pop (d : t) (k : string) (default : PyVal) : PyVal * t :=
let k := lower k in
match PyDict.lookup k d with
| Some v => (v, PyDict.remove k d)
| None =>
    match PyDict.lookup (alias k) d with
    | Some v => (v, PyDict.remove (alias k) d)
    | None => (default, d)
    end
end.

(** [__delattr__]: a stored field is deleted; otherwise [dict.__delattr__]
    finds no such attribute. *)
Definition __delattr__ (d : t) (fieldname : string) : Outcome t :=
if PyDict.mem (lower fieldname) d then Returned (PyDict.remove (lower fieldname) d)
else Raised AttributeError.

(** The two spellings of the channel id are not both stored. *)
Definition one_channel_key (d : t) : Prop :=
~ (mem "chanid" d = true /\ mem "channelid" d = true).

End AttrDict.

(** ** parmline.py *)

Module Parmline.

Import PyStr.
Local Open Scope outcome_scope.

(** *** Typed parameters ([KeywordParm], [IntParm], [StringParm], [ListParm])

    Each object is a [str] (its protocol text, [txt]) carrying [name] and
    [value]. *)

Inductive ParmValue : Type :=
| NoValue
| IntValue (n : Z)
| StrValue (raw : string)
| ListValue (items : list string).

Inductive ParmKind : Type := Keyword | Int | Str | List.

Record TTParm : Type := mkParm {
  kind : ParmKind;
  txt : string;
  name : string;
  value : ParmValue
}.

Definition KeywordParm (kw : string) : TTParm :=
mkParm Keyword kw kw NoValue.

(** [IntParm(kw, val)]: [val] is given as text; [int(val)] may raise. *)
Definition IntParm (kw val : string) : Outcome TTParm :=
n <- to_int val ;;
Returned (mkParm Int (kw ++ "=" ++ val) kw (IntValue n)).

(** The two directions of [StringParm.__new__]. *)
Definition encode (raw : string) : string :=
replace (chr CR) (String backslash "r")
  (replace (chr LF) (String backslash "n")
    (replace (chr backslash) (String backslash (chr backslash)) raw)).

Definition decode (encoded : string) : string :=
replace (String backslash "n") (chr LF)
  (replace (String backslash "r") (chr CR)
    (replace (String backslash (chr backslash)) (chr backslash) encoded)).

Definition StringParm (kw val : string) (rawValue : bool) : TTParm :=
let raw := if rawValue then val else decode val in
let encoded := if rawValue then encode val else val in
mkParm Str (kw ++ "=" ++ chr dquote ++ encoded ++ chr dquote) kw (StrValue raw).

(** [val[1:-1]]. *)
Definition inner (val : string) : string :=
substring 1 (String.length val - 2) val.

Definition ListParm (kw val : string) : TTParm :=
mkParm List (kw ++ "=" ++ val) kw (ListValue (split_char "," (inner val))).

(** [TTParms.__str__]. *)
Definition TTParms_str (parms : list TTParm) : string := join " " (map txt parms).

(** *** [Parser] *)

Definition kw_start (c : ascii) : bool :=
between 65 90 c || between 97 122 c || (c =? "_")%char.

Definition kw_char (c : ascii) : bool :=
kw_start c || between 48 57 c || (c =? "-")%char.

(** The longest prefix of [s] made of characters in [p], and the rest. *)
Fixpoint span (p : ascii -> bool) (s : string) : string * string :=
match s with
| EmptyString => (EmptyString, EmptyString)
| String c r =>
    if p c then let (a, b) := span p r in (String c a, b)
    else (EmptyString, s)
end.

(** [re.match(r'^[a-zA-Z_][a-zA-Z0-9_-]*', line)]. *)
Definition match_keyword (line : string) : option (string * string) :=
match line with
| String c r => if kw_start c then let (a, b) := span kw_char r in Some (String c a, b) else None
| EmptyString => None
end.

(** The loop of [_nextString]. *)
Fixpoint _nextString_loop (quoting : bool) (val line : string) : Outcome (string * string) :=
match line with
| EmptyString => Returned (val, EmptyString)
| String ch rest =>
    if (ch =? backslash)%char then
      match rest with
      | EmptyString => Raised IndexError
      | String c2 rest2 => _nextString_loop quoting (val ++ chr ch ++ chr c2) rest2
      end
    else if quoting then
      if (ch =? dquote)%char then Returned (val, rest)
      else _nextString_loop quoting (val ++ chr ch) rest
    else if Shlex.is_whitespace ch then Returned (val, line)
    else _nextString_loop quoting (val ++ chr ch) rest
end.

Definition _nextString (line : string) : Outcome (string * string) :=
match line with
| EmptyString => Raised IndexError
| String c r =>
    if (c =? dquote)%char then _nextString_loop true EmptyString r
    else _nextString_loop false EmptyString line
end.

(** [re.match(r'^\[[^]]*\]', line)]: the text up to the first closing
    bracket; no match raises on [.group()]. *)
Fixpoint upto_bracket (s : string) : option (string * string) :=
match s with
| EmptyString => None
| String c r =>
    if (c =? "]")%char then Some (chr c, r)
    else match upto_bracket r with
         | Some (a, b) => Some (String c a, b)
         | None => None
         end
end.

(** [Parser.next]: the next parameter and the rest of the line. *)
Definition next (relaxed : bool) (line0 : string) : Outcome (TTParm * string) :=
let line := strip line0 in
if line =? EmptyString then Raised StopIteration else
kwl <- match match_keyword line with
       | Some r => Returned r
       | None => if relaxed then _nextString line else Raised ValueError
       end ;;
let (kw, line) := (kwl : string * string) in
match line with
| EmptyString => Returned (KeywordParm kw, line)
| String c line =>
    if negb (c =? "=")%char then Returned (KeywordParm kw, String c line) else
    match line with
    | EmptyString => Raised IndexError
    | String c1 _ =>
        if (c1 =? "[")%char then
          match upto_bracket line with
          | Some (val, rest) => Returned (ListParm kw val, rest)
          | None => Raised AttributeError
          end
        else if (c1 =? "-")%char || between 48 57 c1 then
          let (val, rest) :=
            match line with
            | String d r => let (a, b) := span re_digit r in (String d a, b)
            | EmptyString => (EmptyString, EmptyString)
            end in
          p <- IntParm kw val ;;
          Returned (p, rest)
        else
          vl <- _nextString line ;;
          Returned (StringParm kw (fst vl) false, snd vl)
    end
end.

(** [Parser.getParms]: [next] until the line is empty.  Every call of
    [next] shortens the line, so its length bounds the number of rounds. *)
Fixpoint getParms_loop (fuel : nat) (relaxed : bool) (line : string) : Outcome (list TTParm) :=
match fuel with
| O => Returned []
| S fuel' =>
    if line =? EmptyString then Returned [] else
    pl <- next relaxed line ;;
    ps <- getParms_loop fuel' relaxed (snd pl) ;;
    Returned (fst pl :: ps)
end.

Definition getParms (relaxed : bool) (line : string) : Outcome (list TTParm) :=
getParms_loop (S (String.length line)) relaxed line.

(** [TTParms(init, relaxed)] for a text [init]. *)
Definition TTParms (init : string) (relaxed : bool) : Outcome (list TTParm) :=
getParms relaxed init.

(** *** [ParmLine] *)

Record ParmLine : Type := mkParmLine {
  initLine : string;
  initParms : AttrDict.t;
  event : option string;
  parms : AttrDict.t;
  line : option string
}.

(** The loop of [splitline] over the parts after the event keyword. *)
Fixpoint split_parts (parts : list string) (acc : AttrDict.t) : AttrDict.t :=
match parts with
| [] => acc
| part :: rest =>
    let kv := if has_char "=" part
              then let (k, v) := partition_char "=" part in (k, VStr v)
              else (part, VNone) in
    split_parts rest (AttrDict.__setitem__ acc (fst kv) (snd kv))
end.

Definition splitline (line : string) : Outcome (option string * AttrDict.t) :=
parts <- Shlex.split (strip line) ;;
match parts with
| [] => Returned (None, AttrDict.empty)
| event :: parts =>
    if has_char "=" event then Raised ValueError
    else Returned (Some event, split_parts parts AttrDict.empty)
end.

(** [_fixParm(parm, quoteStrings)].  Only a text of digits and [None] pass
    unchanged; a value that is no [str] has no [replace] method. *)
Definition _fixParm (parm : PyVal) (quoteStrings : bool) : Outcome string :=
match parm with
| VStr s =>
    if isdigit s && negb (has_char " " s) then Returned s
    else
      let s := replace (String backslash (chr squote)) (chr squote)
                 (replace (chr dquote) (String backslash (chr dquote)) s) in
      Returned (if quoteStrings then chr dquote ++ s ++ chr dquote else s)
| VInt n => if (0 <=? n)%Z then Returned (of_int n) else Raised AttributeError
| VNone => Returned (if quoteStrings then chr dquote ++ chr dquote else EmptyString)
| VBool _ | VFloat _ | VObj => Raised AttributeError
end.

(** [makeline(event, parms)]: appending to an absent event raises. *)
Fixpoint makeline_loop (line : option string) (items : list (string * PyVal)) : Outcome (option string) :=
match items with
| [] => Returned line
| (k, v) :: rest =>
    v' <- _fixParm v true ;;
    match line with
    | None => Raised TypeError
    | Some l => makeline_loop (Some (l ++ " " ++ k ++ "=" ++ v')) rest
    end
end.

Definition makeline (event : option string) (parms : AttrDict.t) : Outcome (option string) :=
makeline_loop event parms.

(** [ParmLine(line, parms)]. *)
Definition new (line : string) (parms0 : AttrDict.t) : Outcome ParmLine :=
ep <- splitline line ;;
let parms1 := PyDict.update (snd ep) parms0 in
l <- makeline (fst ep) parms1 ;;
Returned (mkParmLine line parms0 (fst ep) parms1 l).

(** [ParmLine(line)]. *)
Definition of_line (line : string) : Outcome ParmLine := new line AttrDict.empty.

End Parmline.

(** ** ttapi.py *)

Module Ttapi.

Import PyStr.
Import Parmline.

(** [ServerState.states]. *)
Inductive ServerState : Type :=
| disconnected
| connecting
| connected
| loggingIn
| loginError
| loggingOut
| loggedIn.

(** *** [TeamTalkServerConnection]: the fields the session reads

    [callback] records whether the callback is still set: [terminate] and
    [disconnect] clear it. *)
Record Conn : Type := mkConn {
  shuttingDown : bool;
  callback : bool;
  disconnectReason : string;
  usertimeout : Z;
  curid : option string
}.

(** [pinger]: the pause after a ping, from [usertimeout].  [float] values
    are modelled by the rationals they denote: [float(n)] is exact for the
    integers a server sends, and the constants are those of the source. *)
Definition pingtime (usertimeout : Z) : Q :=
let t := inject_Z usertimeout in
if Qlt_le_dec t 1 then (3 # 10)%Q
else if Qlt_le_dec t (3 # 2) then (1 # 2)%Q
else (t * (3 # 4))%Q.

(** What a call leaves outside the session object.  [EHandler] is a ghost
    record: [processLine] called the event method of that name. *)
Inductive Effect : Type :=
| EWrite (text : string)
| EWriteEvent (text : string)
| ELog (name data : string)
| EPlay (path : string) (volume : Z)
| ETimerLogin (seconds : Z) (background : bool)
| ESockSend (data : string)
| ESockClose
| ESleep (seconds : Q)
| EHandler (name : string) (parms : AttrDict.t).

(** One round of the [pinger] loop: the thread ends when the connection shuts
    down; a failed [sock.send] ends it through [disconnect] with the reason
    given; otherwise the ping is sent and the thread sleeps. *)
Inductive PingerStep : Type :=
| PingerEnds
| PingerDisconnects (reason : string)
| PingerSleeps (sent : string) (seconds : Q).

Definition pinger_round (c : Conn) (send_error : option string) : PingerStep :=
if shuttingDown c then PingerEnds
else
  match send_error with
  | Some e => PingerDisconnects ("Error during ping: " ++ e)
  | None => PingerSleeps ("ping" ++ String CR (chr LF)) (pingtime (usertimeout c))
  end.

(** *** [TeamtalkServer]

    [users], [channels] and [files] are keyed by the id texts of the
    protocol; [me] names the entry of [users] it refers to. *)
Record Session : Type := mkSession {
  conn : option Conn;
  ev_loggedIn : bool;
  ev_loggedOut : bool;
  ev_idblockDone : bool;
  manualCM : bool;
  lastError : option string;
  curID : Z;
  waitID : Z;
  soundsdir : string;
  sound_volume : Z;
  play_sounds : Z;
  maxID : Z;
  _collecting : Z;
  _outputCollection : list ParmLine;
  host : string;
  tcpport : Z;
  encrypted : bool;
  shortname : string;
  autoLogin : Z;
  loginParms : AttrDict.t;
  state : ServerState;
  info : AttrDict.t;
  channels : PyDict.t AttrDict.t;
  users : PyDict.t AttrDict.t;
  files : PyDict.t AttrDict.t;
  me : option string;
  effects : list Effect
}.

Definition set_conn (v : option Conn) (s : Session) : Session :=
mkSession v (ev_loggedIn s) (ev_loggedOut s) (ev_idblockDone s) (manualCM s) (lastError s)
  (curID s) (waitID s) (soundsdir s) (sound_volume s) (play_sounds s) (maxID s)
  (_collecting s) (_outputCollection s) (host s) (tcpport s) (encrypted s) (shortname s)
  (autoLogin s) (loginParms s) (state s) (info s) (channels s) (users s) (files s) (me s)
  (effects s).

Definition set_ev_loggedIn (v : bool) (s : Session) : Session :=
mkSession (conn s) v (ev_loggedOut s) (ev_idblockDone s) (manualCM s) (lastError s)
  (curID s) (waitID s) (soundsdir s) (sound_volume s) (play_sounds s) (maxID s)
  (_collecting s) (_outputCollection s) (host s) (tcpport s) (encrypted s) (shortname s)
  (autoLogin s) (loginParms s) (state s) (info s) (channels s) (users s) (files s) (me s)
  (effects s).

Definition set_ev_loggedOut (v : bool) (s : Session) : Session :=
mkSession (conn s) (ev_loggedIn s) v (ev_idblockDone s) (manualCM s) (lastError s)
  (curID s) (waitID s) (soundsdir s) (sound_volume s) (play_sounds s) (maxID s)
  (_collecting s) (_outputCollection s) (host s) (tcpport s) (encrypted s) (shortname s)
  (autoLogin s) (loginParms s) (state s) (info s) (channels s) (users s) (files s) (me s)
  (effects s).

Definition set_ev_idblockDone (v : bool) (s : Session) : Session :=
mkSession (conn s) (ev_loggedIn s) (ev_loggedOut s) v (manualCM s) (lastError s)
  (curID s) (waitID s) (soundsdir s) (sound_volume s) (play_sounds s) (maxID s)
  (_collecting s) (_outputCollection s) (host s) (tcpport s) (encrypted s) (shortname s)
  (autoLogin s) (loginParms s) (state s) (info s) (channels s) (users s) (files s) (me s)
  (effects s).

Definition set_manualCM (v : bool) (s : Session) : Session :=
mkSession (conn s) (ev_loggedIn s) (ev_loggedOut s) (ev_idblockDone s) v (lastError s)
  (curID s) (waitID s) (soundsdir s) (sound_volume s) (play_sounds s) (maxID s)
  (_collecting s) (_outputCollection s) (host s) (tcpport s) (encrypted s) (shortname s)
  (autoLogin s) (loginParms s) (state s) (info s) (channels s) (users s) (files s) (me s)
  (effects s).

Definition set_curID (v : Z) (s : Session) : Session :=
mkSession (conn s) (ev_loggedIn s) (ev_loggedOut s) (ev_idblockDone s) (manualCM s) (lastError s)
  v (waitID s) (soundsdir s) (sound_volume s) (play_sounds s) (maxID s)
  (_collecting s) (_outputCollection s) (host s) (tcpport s) (encrypted s) (shortname s)
  (autoLogin s) (loginParms s) (state s) (info s) (channels s) (users s) (files s) (me s)
  (effects s).

Definition set_waitID (v : Z) (s : Session) : Session :=
mkSession (conn s) (ev_loggedIn s) (ev_loggedOut s) (ev_idblockDone s) (manualCM s) (lastError s)
  (curID s) v (soundsdir s) (sound_volume s) (play_sounds s) (maxID s)
  (_collecting s) (_outputCollection s) (host s) (tcpport s) (encrypted s) (shortname s)
  (autoLogin s) (loginParms s) (state s) (info s) (channels s) (users s) (files s) (me s)
  (effects s).

Definition set_collecting (v : Z) (s : Session) : Session :=
mkSession (conn s) (ev_loggedIn s) (ev_loggedOut s) (ev_idblockDone s) (manualCM s) (lastError s)
  (curID s) (waitID s) (soundsdir s) (sound_volume s) (play_sounds s) (maxID s)
  v (_outputCollection s) (host s) (tcpport s) (encrypted s) (shortname s)
  (autoLogin s) (loginParms s) (state s) (info s) (channels s) (users s) (files s) (me s)
  (effects s).

Definition set_outputCollection (v : list ParmLine) (s : Session) : Session :=
mkSession (conn s) (ev_loggedIn s) (ev_loggedOut s) (ev_idblockDone s) (manualCM s) (lastError s)
  (curID s) (waitID s) (soundsdir s) (sound_volume s) (play_sounds s) (maxID s)
  (_collecting s) v (host s) (tcpport s) (encrypted s) (shortname s)
  (autoLogin s) (loginParms s) (state s) (info s) (channels s) (users s) (files s) (me s)
  (effects s).

Definition set_effects (v : list Effect) (s : Session) : Session :=
mkSession (conn s) (ev_loggedIn s) (ev_loggedOut s) (ev_idblockDone s) (manualCM s) (lastError s)
  (curID s) (waitID s) (soundsdir s) (sound_volume s) (play_sounds s) (maxID s)
  (_collecting s) (_outputCollection s) (host s) (tcpport s) (encrypted s) (shortname s)
  (autoLogin s) (loginParms s) (state s) (info s) (channels s) (users s) (files s) (me s)
  v.

(** The part of the session that [clear] resets besides the counters. *)
Definition set_model (st : ServerState) (i : AttrDict.t) (ch us fs : PyDict.t AttrDict.t)
  (m : option string) (s : Session) : Session :=
mkSession (conn s) (ev_loggedIn s) (ev_loggedOut s) (ev_idblockDone s) (manualCM s) (lastError s)
  (curID s) (waitID s) (soundsdir s) (sound_volume s) (play_sounds s) (maxID s)
  (_collecting s) (_outputCollection s) (host s) (tcpport s) (encrypted s) (shortname s)
  (autoLogin s) (loginParms s) st i ch us fs m
  (effects s).

Definition emit (e : Effect) (s : Session) : Session :=
set_effects (effects s ++ [e])%list s.

(** [conf.version], set by ttcom.py. *)
Definition conf_version : string := "4.0.0".

(** [d.setdefault(k, v)] on a plain [dict]. *)
Definition setdefault (k : string) (v : PyVal) (d : AttrDict.t) : AttrDict.t :=
if PyDict.mem k d then d else PyDict.store k v d.

(** [TeamtalkServer.__init__(host, tcpport, shortname, parms)], whose last
    step, [disconnect()], finds no connection and clears the object. *)
Definition __init__ (host : string) (tcpport : Z) (shortname : string) (parms : AttrDict.t) : Session :=
let parms := PyDict.store "version" (VStr conf_version) (PyDict.store "clientname" (VStr "TTCom") parms) in
let parms := setdefault "nickname" (VStr EmptyString) (setdefault "udpport" (VInt tcpport) parms) in
mkSession None false false false false None 0 0 "default" 0 0 127 0 []
  host tcpport false (if shortname =? EmptyString then host else shortname) 0 parms
  disconnected AttrDict.empty [] [] [] None [].

(** Methods of the session: state in, state and outcome out.  An exception
    keeps the state reached when it was raised. *)
Definition M (A : Type) : Type := Session -> Session * Outcome A.

Definition ret {A : Type} (a : A) : M A := fun s => (s, Returned a).

Definition raise {A : Type} (e : PyExc) : M A := fun s => (s, Raised e).

Definition bind {A B : Type} (m : M A) (k : A -> M B) : M B :=
fun s =>
  match m s with
  | (s', Returned a) => k a s'
  | (s', Raised e) => (s', Raised e)
  end.

Definition lift {A : Type} (o : Outcome A) : M A := fun s => (s, o).

Definition gets {A : Type} (f : Session -> A) : M A := fun s => (s, Returned (f s)).

Definition modify (f : Session -> Session) : M unit := fun s => (f s, Returned tt).

(** [try: m  except Exception: h; raise]. *)
Definition on_exception {A : Type} (m : M A) (h : M unit) : M A :=
fun s =>
  match m s with
  | (s', Returned a) => (s', Returned a)
  | (s', Raised e) =>
      match h s' with
      | (s'', Returned _) => (s'', Raised e)
      | (s'', Raised e') => (s'', Raised e')
      end
  end.

(** [try: m  finally: f]. *)
Definition finally {A : Type} (m : M A) (f : M unit) : M A :=
fun s =>
  let (s', o) := m s in
  match f s' with
  | (s'', Returned _) => (s'', o)
  | (s'', Raised e') => (s'', Raised e')
  end.

Declare Scope session_scope.
Delimit Scope session_scope with session.

Notation "x <- m ;; k" := (bind m (fun x => k))
  (at level 61, m at next level, right associativity) : session_scope.
Notation "m ;;; k" := (bind m (fun _ => k))
  (at level 61, right associativity) : session_scope.

Section Server.

Local Open Scope session_scope.

(** [str(x)] of a [float] and of the server object are left to the
    interpreter: the development holds for every rendering. *)
Variable float_str : Q -> string.
Variable object_str : string.

(** ["%s" % (v)]. *)
Definition py_str (v : PyVal) : string :=
match v with
| VNone => "None"
| VStr s => s
| VInt n => of_int n
| VBool true => "True"
| VBool false => "False"
| VFloat q => float_str q
| VObj => object_str
end.

(** [a + b] where [a] is a text: [b] must be one too. *)
Definition as_str (v : PyVal) : Outcome string :=
match v with
| VStr s => Returned s
| _ => Raised TypeError
end.

(** mplib/log.py [log(name, data)]: nothing for an empty or blank text. *)
Definition log_log (name data : string) : M unit :=
if (data =? EmptyString) || (data =? " ") then ret tt
else modify (emit (ELog name data)).

(** [output(line, raw, fromEvent)]: event output turns into ordinary output
    while a command waits for its result. *)
Definition output (line : string) (raw fromEvent : bool) : M unit :=
s <- gets (fun s => s) ;;
let text := if raw then line else "[" ++ shortname s ++ "] " ++ line in
if fromEvent && (waitID s =? 0)%Z
then modify (emit (EWriteEvent text))
else modify (emit (EWrite text)).

(** [TeamtalkServer.outputFromEvent(line, raw=False)]. *)
Definition outputFromEvent (line : string) (raw : bool) : M unit :=
sn <- gets shortname ;;
log_log "ttcom" (sn ++ ": " ++ line) ;;;
log_log sn line ;;;
output line raw true.

(** [errorFromEvent(line, raw=False)]. *)
Definition errorFromEvent (line : string) (raw : bool) : M unit :=
output line raw true.

(** [play(soundname)]. *)
Definition play (soundname : string) : M unit :=
s <- gets (fun s => s) ;;
if (play_sounds s =? 1)%Z
then modify (emit (EPlay ("sounds/" ++ soundsdir s ++ "/" ++ soundname) (sound_volume s)))
else ret tt.

(** [clear()]. *)
Definition clear : M unit :=
modify (fun s =>
  set_model disconnected AttrDict.empty [] [] [] None
    (set_ev_loggedOut false (set_ev_loggedIn false
      (set_curID 0 (set_waitID 0 (set_conn None s)))))).

(** [_handleRecycling(force=False)]: the timer runs [login(True)] after
    five seconds. *)
Definition _handleRecycling (force : bool) : M unit :=
s <- gets (fun s => s) ;;
if force || (negb (autoLogin s =? 0)%Z && negb (manualCM s))
then outputFromEvent "Reconnecting" false ;;;
     modify (emit (ETimerLogin 5 true))
else ret tt.

(** The argument of [nonEmptyNickname]: a user id or a user record. *)
Inductive UserArg : Type :=
| UVal (v : PyVal)
| URecord (u : AttrDict.t).

(** [re.sub(r'^\d+@facebook.com', 'Facebook', username)]: the dot stands for
    any character but a line feed. *)
Definition shorten_facebook (username : string) : string :=
let (ds, r) := span re_digit username in
if negb (ds =? EmptyString) && prefix "@facebook" r then
  match drop 9 r with
  | String c r' =>
      if negb (c =? LF)%char && prefix "com" r' then "Facebook" ++ drop 3 r' else username
  | EmptyString => username
  end
else username.

(** [s.rsplit(":", 1)[0]]: the text before the last colon, all of it when
    there is none. *)
Fixpoint before_last_colon (s : string) : string :=
match s with
| EmptyString => EmptyString
| String c r =>
    if has_char ":" r then String c (before_last_colon r)
    else if (c =? ":")%char then EmptyString
    else s
end.

(** [v >= "5.3"] for a value already known to be true. *)
Definition ge_5_3 (v : PyVal) : Outcome bool :=
match v with
| VStr s => Returned (String.leb "5.3" s)
| _ => Raised TypeError
end.

(** [ip.startswith("0.0.0.0")] for a value already known to be true. *)
Definition starts_null_ip (v : PyVal) : Outcome bool :=
match v with
| VStr s => Returned (startswith s "0.0.0.0")
| _ => Raised AttributeError
end.

Local Open Scope outcome_scope.

Definition nickname_of_record (s : Session) (user : AttrDict.t)
  (forceDetails includeUserType shortenFacebook : bool) : Outcome string :=
let nickname := AttrDict.get user "nickname" VNone in
let username := AttrDict.get user "username" VNone in
username <-
  (if shortenFacebook then
     let sver := AttrDict.get (info s) "version" VNone in
     let uver := AttrDict.get user "version" VNone in
     if truthy sver && truthy uver then
       a <- ge_5_3 sver ;;
       if (a : bool) then
         b <- ge_5_3 uver ;;
         if (b : bool) then
           match username with
           | VStr u => Returned (VStr (shorten_facebook u))
           | _ => Raised TypeError
           end
         else Returned username
       else Returned username
     else Returned username
   else Returned username) ;;
userid <- AttrDict.__getattr__ user "userid" ;;
named <-
  (if truthy nickname then
     n <- as_str nickname ;;
     let name := chr dquote ++ n ++ chr dquote in
     if truthy username then
       u <- as_str username ;;
       Returned (name ++ " (" ++ u ++ ")", forceDetails, false)
     else Returned (name, forceDetails, false)
   else if truthy username then
     u <- as_str username ;;
     Returned ("(" ++ u ++ ")", forceDetails, false)
   else Returned ("<nameless user " ++ py_str userid ++ ">", true, true)) ;;
let '(name, forceDetails, idIncluded) := (named : string * bool * bool) in
name <-
  (if includeUserType then
     utype <- AttrDict.__getattr__ user "usertype" ;;
     let utype := if val_is_str utype "1" then "User"
                  else if val_is_str utype "2" then "Admin"
                  else "UserType" ++ py_str utype in
     Returned (utype ++ " " ++ name)
   else Returned name) ;;
if negb forceDetails then Returned name else
let ip := AttrDict.get user "ipaddr" VNone in
null1 <- (if truthy ip then starts_null_ip ip else Returned true) ;;
ip <-
  (if (null1 : bool) then
     let ip := AttrDict.get user "udpaddr" VNone in
     null2 <- (if truthy ip then starts_null_ip ip else Returned true) ;;
     if (null2 : bool) then Returned EmptyString
     else s <- as_str ip ;; Returned ("UDP " ++ before_last_colon s)
   else as_str ip) ;;
let ip := if ip =? EmptyString then ip else "from " ++ ip in
let name := if ip =? EmptyString then name else name ++ " " ++ ip in
Returned (if idIncluded then name else name ++ " (userid " ++ py_str userid ++ ")").

(** [nonEmptyNickname(user, forceDetails, includeUserType, shortenFacebook)].
    An [int] is turned into its text; a text is looked up in [users], and an
    unknown id is all that can be said; anything else must be a record. *)
Definition nonEmptyNickname (s : Session) (user : UserArg)
  (forceDetails includeUserType shortenFacebook : bool) : Outcome string :=
let by_id (id : string) :=
  match PyDict.lookup id (users s) with
  | Some u => nickname_of_record s u forceDetails includeUserType shortenFacebook
  | None => Returned ("<userid " ++ id ++ ">")
  end in
match user with
| UVal (VInt n) => by_id (of_int n)
| UVal (VBool b) => by_id (py_str (VBool b))
| UVal (VStr id) => by_id id
| UVal _ => Raised AttributeError
| URecord u => nickname_of_record s u forceDetails includeUserType shortenFacebook
end.

Local Close Scope outcome_scope.

(** *** The correlator: [_startCollecting], [_stopCollecting], [_handleCollection] *)

Definition _startCollecting (id : Z) : M unit :=
modify (fun s =>
  set_collecting 1 (set_outputCollection [] (set_waitID id (set_ev_idblockDone false s)))).

Definition _stopCollecting : M (list ParmLine) :=
lines <- gets _outputCollection ;;
modify (fun s => set_outputCollection [] (set_collecting 0 s)) ;;;
ret lines.

(** [parmline.event == name]. *)
Definition event_is (p : ParmLine) (name : string) : bool :=
match event p with
| Some e => e =? name
| None => false
end.

(** [parmline.parms.id == str(self.waitID)]. *)
Definition id_is_waitID (p : ParmLine) (s : Session) : Outcome bool :=
match AttrDict.__getattr__ (parms p) "id" with
| Returned v => Returned (val_is_str v (of_int (waitID s)))
| Raised e => Raised e
end.

(** [_handleCollection(parmline)]: true when the line is consumed. *)
Definition _handleCollection (parmline : ParmLine) : M bool :=
let isConnect := event_is parmline "_connected_" in
let isDisconnect := event_is parmline "_disconnected_" in
s <- gets (fun s => s) ;;
if (_collecting s =? 0)%Z then ret false
else if (_collecting s =? 1)%Z then
  ours <- (if event_is parmline "begin" then lift (id_is_waitID parmline s) else ret false) ;;
  if (ours : bool) then
    modify (fun s => set_ev_idblockDone false (set_collecting 2 (set_outputCollection [] s))) ;;;
    ret true
  else if isConnect || isDisconnect then
    errorFromEvent "Output collection aborted by server connection interruption" false ;;;
    modify (fun s => set_ev_idblockDone true (set_waitID 0 (set_collecting 0 s))) ;;;
    ret false
  else ret false
else
  ending <- (if isConnect || isDisconnect then ret true
             else if event_is parmline "end" then lift (id_is_waitID parmline s)
             else ret false) ;;
  if (ending : bool) then
    modify (fun s => set_waitID 0 (set_collecting 0 s)) ;;;
    if isConnect || isDisconnect then
      errorFromEvent "Output collection truncated by server connection interruption" false ;;;
      modify (set_ev_idblockDone true) ;;;
      ret false
    else
      modify (set_ev_idblockDone true) ;;;
      ret true
  else
    modify (fun s => set_outputCollection (_outputCollection s ++ [parmline])%list s) ;;;
    ret true.

(** *** Event methods

    The methods [event_<name>] of the class, by name. *)
Inductive Handler : Type :=
| h_connected | h_disconnected | h_begin | h_end | h_welcome | h_ok | h_accepted
| h_loggedin | h_serverupdate | h_addchannel | h_removechannel | h_updatechannel
| h_adduser | h_removeuser | h_loggedout | h_updateuser | h_messagedeliver
| h_joined | h_left | h_addfile | h_removefile | h_kicked | h_stats
| h_useraccount | h_userbanned | h_pong | h_error.

Definition handler_name (h : Handler) : string :=
match h with
| h_connected => "_connected_" | h_disconnected => "_disconnected_"
| h_begin => "begin" | h_end => "end" | h_welcome => "welcome" | h_ok => "ok"
| h_accepted => "accepted" | h_loggedin => "loggedin" | h_serverupdate => "serverupdate"
| h_addchannel => "addchannel" | h_removechannel => "removechannel"
| h_updatechannel => "updatechannel" | h_adduser => "adduser" | h_removeuser => "removeuser"
| h_loggedout => "loggedout" | h_updateuser => "updateuser"
| h_messagedeliver => "messagedeliver" | h_joined => "joined" | h_left => "left"
| h_addfile => "addfile" | h_removefile => "removefile" | h_kicked => "kicked"
| h_stats => "stats" | h_useraccount => "useraccount" | h_userbanned => "userbanned"
| h_pong => "pong" | h_error => "error"
end.

Definition all_handlers : list Handler :=
[h_connected; h_disconnected; h_begin; h_end; h_welcome; h_ok; h_accepted;
 h_loggedin; h_serverupdate; h_addchannel; h_removechannel; h_updatechannel;
 h_adduser; h_removeuser; h_loggedout; h_updateuser; h_messagedeliver;
 h_joined; h_left; h_addfile; h_removefile; h_kicked; h_stats;
 h_useraccount; h_userbanned; h_pong; h_error].

(** [eval("self.event_" + name)] reads the name as an identifier, which the
    interpreter normalises (NFKC): below 256 the ordinal indicators become
    the letters a and o. *)
Definition nfkc_char (c : ascii) : ascii :=
if (code c =? 170)%nat then "a"%char
else if (code c =? 186)%nat then "o"%char
else c.

Fixpoint nfkc (s : string) : string :=
match s with
| EmptyString => EmptyString
| String c r => String (nfkc_char c) (nfkc r)
end.

Definition find_handler (name : string) : option Handler :=
find (fun h => handler_name h =? nfkc name) all_handlers.

(** The event methods that are not spelled out below: they may do anything
    to the session and return, or raise. *)
Variable event_other : Handler -> AttrDict.t -> M bool.

(** [event__connected_]. *)
Definition event__connected_ (parms : AttrDict.t) : M bool :=
outputFromEvent "Connected" false ;;;
ret true.

(** [event__disconnected_]: the reason comes from the connection, if any. *)
Definition event__disconnected_ (parms : AttrDict.t) : M bool :=
c <- gets conn ;;
let reason := match c with Some c => disconnectReason c | None => EmptyString end in
let buf := if reason =? EmptyString then "Disconnected"
           else "Disconnected" ++ " (" ++ reason ++ ")" in
outputFromEvent buf false ;;;
clear ;;;
_handleRecycling false ;;;
ret true.

(** [parms.get("id") == str(self.waitID)] with [self.waitID] not zero. *)
Definition is_waited_id (parms : AttrDict.t) (s : Session) : bool :=
negb (waitID s =? 0)%Z && val_is_str (AttrDict.get parms "id" VNone) (of_int (waitID s)).

(** [event_begin]. *)
Definition event_begin (parms : AttrDict.t) : M bool :=
s <- gets (fun s => s) ;;
ret (is_waited_id parms s).

(** [event_end]. *)
Definition event_end (parms : AttrDict.t) : M bool :=
s <- gets (fun s => s) ;;
if is_waited_id parms s then
  modify (fun s => set_ev_idblockDone true (set_waitID 0 s)) ;;;
  ret true
else ret false.

(** [event_pong]. *)
Definition event_pong (parms : AttrDict.t) : M bool := ret false.

(** [event_kicked]. *)
Definition event_kicked (parms : AttrDict.t) : M bool :=
kickerid <- lift (AttrDict.__getattr__ parms "kickerid") ;;
s <- gets (fun s => s) ;;
kicker <- lift (nonEmptyNickname s (UVal kickerid) false false false) ;;
outputFromEvent (kicker ++ " has kicked you from the server") false ;;;
modify (fun s => set_manualCM (negb (autoLogin s =? 2)%Z) s) ;;;
ret true.

Definition run_handler (h : Handler) (parms : AttrDict.t) : M bool :=
match h with
| h_connected => event__connected_ parms
| h_disconnected => event__disconnected_ parms
| h_begin => event_begin parms
| h_end => event_end parms
| h_pong => event_pong parms
| h_kicked => event_kicked parms
| _ => event_other h parms
end.

(** [hookEvents] of this class does nothing. *)
Definition hookEvents (parmline : ParmLine) (afterDispatch : bool) : M unit := ret tt.

(** [parmline.event.replace("_", "").isalpha()]; an absent event has no
    [replace]. *)
Definition event_is_alpha (p : ParmLine) : Outcome bool :=
match event p with
| Some e => Returned (isalpha (replace "_" EmptyString e))
| None => Raised AttributeError
end.

(** [processLine(line)]. *)
Definition processLine (line : string) : M unit :=
parmline <- lift (Parmline.of_line line) ;;
consumed <- _handleCollection parmline ;;
if (consumed : bool) then ret tt else
s <- gets (fun s => s) ;;
isOurBlockMarker <-
  (if (0 <? waitID s)%Z && (event_is parmline "begin" || event_is parmline "end")
   then lift (id_is_waitID parmline s) else ret false) ;;
(if (isOurBlockMarker : bool) then ret tt else hookEvents parmline false) ;;;
alpha <- lift (event_is_alpha parmline) ;;
if negb alpha then errorFromEvent ("Invalid line:  " ++ line) false else
match find_handler (match event parmline with Some e => e | None => EmptyString end) with
| None => errorFromEvent ("Unrecognized line:  " ++ line) false
| Some h =>
    finally
      (on_exception
         (modify (emit (EHandler (handler_name h) (parms parmline))) ;;;
          handled <- run_handler h (parms parmline) ;;
          if (handled : bool) then ret tt else outputFromEvent (rstrip line) false)
         (errorFromEvent ("Event dispatch failure: " ++ line) false))
      (if isOurBlockMarker then ret tt else hookEvents parmline true)
end.

(** *** Sending

    [TeamTalkServerConnection.disconnect(reason)] on the session's
    connection: the owner is told through the callback, which is
    [processLine]; the socket is closed; then the method asks the connection
    for [play], which that class does not define. *)
Definition conn_disconnect (reason : string) : M unit :=
c <- gets conn ;;
match c with
| None => raise AttributeError
| Some c =>
    if negb (callback c) then ret tt else
    modify (set_conn (Some (mkConn (shuttingDown c) (callback c) reason (usertimeout c) (curid c)))) ;;;
    processLine "_disconnected_" ;;;
    modify (emit ESockClose) ;;;
    raise AttributeError
end.

Definition CRLF : string := String CR (chr LF).

(** [TeamtalkServer.send(line)] over [TeamTalkServerConnection.send]:
    [sock_ok] tells whether the socket takes the bytes. *)
Definition send (line : string) (sock_ok : bool) : M unit :=
c <- gets conn ;;
match c with
| None => raise AttributeError
| Some _ =>
    if sock_ok then modify (emit (ESockSend (rstrip line ++ CRLF)))
    else conn_disconnect "Error during send" ;;; raise IOError
end.

(** [TeamtalkServer.disconnect()]. *)
Definition disconnect : M unit :=
c <- gets conn ;;
(match c with Some _ => conn_disconnect EmptyString | None => ret tt end) ;;;
c <- gets conn ;;
(match c with
 | Some c => modify (set_conn (Some (mkConn true false (disconnectReason c) (usertimeout c) (curid c))))
 | None => ret tt
 end) ;;;
clear.

(** One line read by [watcher]: the legacy welcome keyword is rewritten, the
    id block is tracked, a pong outside an id block is dropped, and the line
    goes to [processLine]. *)
Definition watcher_line (line : string) : M unit :=
c <- gets conn ;;
match c with
| None => ret tt
| Some c =>
    if line =? EmptyString then conn_disconnect "EOF encountered during read" else
    let line := if startswith line "teamtalk " then "welcome " ++ drop 9 line else line in
    if shuttingDown c then conn_disconnect "Shutting down" else
    let ll := lower (rstrip line) in
    let with_curid v := modify (set_conn (Some (mkConn (shuttingDown c) (callback c) (disconnectReason c) (usertimeout c) v))) in
    if startswith ll "begin id=" then
      with_curid (Some (nth 1 (split_char "=" ll) EmptyString)) ;;;
      (if callback c then processLine line else ret tt)
    else if startswith ll "end id=" then
      with_curid None ;;;
      (if callback c then processLine line else ret tt)
    else if (match curid c with None => true | Some i => i =? EmptyString end) && (ll =? "pong")
    then ret tt
    else if callback c then processLine line else ret tt
end.

(** What the waiting caller of [waitOn(ev_idblockDone, 8)] sees: the lines
    [watcher] handles until the event is set; the wait times out when they
    run out first.  An exception in [watcher] ends that thread, not the
    caller. *)
Fixpoint await (arrivals : list string) : M bool :=
match arrivals with
| [] => gets ev_idblockDone
| line :: rest =>
    fun s =>
      if ev_idblockDone s then (s, Returned true)
      else match watcher_line line s with
           | (s', Returned _) => await rest s'
           | (s', Raised _) => (s', Returned (ev_idblockDone s'))
           end
end.

(** [line.split(None, 1)[0]] for a text that is not blank. *)
Definition first_word (line : string) : string :=
fst (span (fun c => negb (isspace_char c)) (lstrip line)).

(** [sendWithWait(line, returnResults)].  [sock_ok] and [arrivals] are what
    the socket and the server do during the call. *)
Definition sendWithWait (line : string) (returnResults : bool)
  (sock_ok : bool) (arrivals : list string) : M (option (list ParmLine)) :=
modify (fun s => set_curID (curID s + 1)%Z s) ;;;
modify (fun s => if (maxID s <? curID s)%Z then set_curID 1 s else s) ;;;
id <- gets curID ;;
let line := rstrip line ++ " id=" ++ of_int id in
modify (set_ev_idblockDone false) ;;;
(if returnResults then _startCollecting id else modify (set_waitID id)) ;;;
(fun s =>
   match send line sock_ok s with
   | (s', Raised IOError) =>
       match disconnect s' with
       | (s'', Returned _) => (s'', Raised IOError)
       | (s'', Raised e) => (s'', Raised e)
       end
   | r => r
   end) ;;;
done <- await arrivals ;;
(if (done : bool) then ret tt
 else errorFromEvent ("Timeout on " ++ first_word line ++ " command") false ;;;
      modify (set_waitID 0)) ;;;
if returnResults then lines <- _stopCollecting ;; ret (Some lines) else ret None.

(** *** [updateParms]

    The record to update is an object held by the session, so it is named by
    its place: [info], or an entry of [users], [channels] or [files]. *)
Inductive Target : Type :=
| T_info
| T_users (k : string)
| T_channels (k : string)
| T_files (k : string).

Definition read_target (t : Target) (s : Session) : Outcome AttrDict.t :=
match t with
| T_info => Returned (info s)
| T_users k => match PyDict.lookup k (users s) with Some r => Returned r | None => Raised KeyError end
| T_channels k => match PyDict.lookup k (channels s) with Some r => Returned r | None => Raised KeyError end
| T_files k => match PyDict.lookup k (files s) with Some r => Returned r | None => Raised KeyError end
end.

Definition write_target (t : Target) (r : AttrDict.t) (s : Session) : Session :=
match t with
| T_info => set_model (state s) r (channels s) (users s) (files s) (me s) s
| T_users k => set_model (state s) (info s) (channels s) (PyDict.store k r (users s)) (files s) (me s) s
| T_channels k => set_model (state s) (info s) (PyDict.store k r (channels s)) (users s) (files s) (me s) s
| T_files k => set_model (state s) (info s) (channels s) (users s) (PyDict.store k r (files s)) (me s) s
end.

(** The loop of [_updateChannelValue]: from [c] up the parents to the root,
    collecting the names.  [self.channels[c.parentid]] finds entries by
    their text keys only. *)
Fixpoint channel_path (fuel : nat) (chans : PyDict.t AttrDict.t) (c : AttrDict.t) (path : string)
  : Outcome string :=
match fuel with
| O => Raised OutOfFuel
| S fuel' =>
    match AttrDict.__getattr__ c "parentid", AttrDict.__getattr__ c "name" with
    | Returned parentid, Returned name =>
        if truthy parentid && negb (val_is_str parentid "0") then
          match parentid with
          | VStr k =>
              match PyDict.lookup k chans with
              | Some c' => channel_path fuel' chans c' ("/" ++ py_str name ++ path)
              | None => Raised KeyError
              end
          | _ => Raised KeyError
          end
        else Returned path
    | Raised e, _ => Raised e
    | _, Raised e => Raised e
    end
end.

(** [_updateChannelValue(chan)] for the record at [t]. *)
Definition _updateChannelValue (fuel : nat) (t : Target) : M unit :=
s <- gets (fun s => s) ;;
chan <- lift (read_target t s) ;;
path <- lift (channel_path fuel (channels s) chan "/") ;;
modify (write_target t (AttrDict.__setitem__ chan "channel" (VStr path))).

(** [for k in preserve: parms[k] = oldParms[k]] on the emptied record. *)
Fixpoint keep_preserved (preserve : list string) (oldParms acc : AttrDict.t) : AttrDict.t * Outcome unit :=
match preserve with
| [] => (acc, Returned tt)
| k :: rest =>
    match PyDict.lookup k oldParms with
    | Some v => keep_preserved rest oldParms (AttrDict.__setitem__ acc k v)
    | None => (acc, Raised KeyError)
    end
end.

(** The status lines of [updateParms]: [now] is [time.time()]. *)
Definition stamp_status (now : Q) (newParms parms : AttrDict.t) : AttrDict.t :=
if (AttrDict.mem "statusmode" newParms || AttrDict.mem "statusmsg" newParms)
   && negb (AttrDict.mem "statustime" parms)
then AttrDict.__setitem__ parms "statustime" (VFloat now)
else parms.

(** [updateParms(category, parms, newParms, silent=True, preserve)]: the
    method up to its [if silent: return]; the report that a call with
    [silent=False] goes on to print is not part of this model. *)
Definition updateParms_silent (fuel : nat) (now : Q) (t : Target)
  (newParms : AttrDict.t) (preserve : list string) : M unit :=
s <- gets (fun s => s) ;;
oldParms <- lift (read_target t s) ;;
(match preserve with
 | [] => ret tt
 | _ =>
     let (kept, o) := keep_preserved preserve oldParms AttrDict.empty in
     modify (write_target t kept) ;;; lift o
 end) ;;;
s <- gets (fun s => s) ;;
parms <- lift (read_target t s) ;;
modify (write_target t (PyDict.update parms newParms)) ;;;
(if (AttrDict.mem "parentid" newParms && AttrDict.mem "chanid" oldParms)
    || AttrDict.mem "name" newParms
 then _updateChannelValue fuel t else ret tt) ;;;
s <- gets (fun s => s) ;;
parms <- lift (read_target t s) ;;
modify (write_target t (stamp_status now newParms parms)).

End Server.

End Ttapi.

(** ** triggers.py: the address match *)

Module Triggers.

Import PyStr.

(** [re.findall(r'^\[(.*?)]', addr)]: after an opening bracket at the very
    start, the shortest text up to a closing bracket; the dot does not pass
    a line feed.  [None] is the empty result list. *)
Fixpoint upto_closing (s : string) : option string :=
match s with
| EmptyString => None
| String c r =>
    if (c =? "]")%char then Some EmptyString
    else if (c =? LF)%char then None
    else match upto_closing r with
         | Some a => Some (String c a)
         | None => None
         end
end.

Definition bracket_content (addr : string) : option string :=
match addr with
| String c r => if (c =? "[")%char then upto_closing r else None
| EmptyString => None
end.

(** [re.sub(r'^(?i)::ffff:', '', addr)]: the flag in the middle of the
    pattern is read as a flag of the whole pattern, with a deprecation
    warning, by the interpreters the program was written for (Python 3.10 and
    earlier). *)
Definition strip_ffff (addr : string) : string :=
if prefix "::ffff:" (lower (substring 0 7 addr)) then drop 7 addr else addr.

(** The text is a port to the end: digits, then nothing or one last line
    feed (where [$] also matches). *)
Definition port_to_end (s : string) : bool :=
let (ds, rest) := Parmline.span re_digit s in
negb (ds =? EmptyString) && ((rest =? EmptyString) || (rest =? chr LF)).

(** [re.sub(r':\d+$', '', addr)]. *)
Fixpoint strip_port (addr : string) : string :=
match addr with
| EmptyString => EmptyString
| String c r =>
    if (c =? ":")%char && port_to_end r
    then snd (Parmline.span re_digit r)
    else String c (strip_port r)
end.

(** [_matchAddress(matchval, addr)]. *)
Definition _matchAddress (matchval addr : string) : Outcome bool :=
match (if has_char "[" addr && has_char "]" addr
       then match bracket_content addr with
            | Some a => Returned a
            | None => Raised IndexError
            end
       else Returned addr) with
| Raised e => Raised e
| Returned addr =>
    let addr := if negb (startswith matchval ":") then strip_ffff addr else addr in
    let addr := strip_port addr in
    let matchval := if (List.length (split_char "." matchval) <? 4)%nat
                    then matchval ++ "." else matchval in
    Returned (startswith addr matchval)
end.

End Triggers.

(** ** TTComCmd.py: event output of [MyTeamtalkServer] *)

Module TTComCmd.

Import Ttapi.

(** A [MyTeamtalkServer]: the session of the base class and the fields the
    subclass adds. *)
Record MyTeamtalkServer : Type := mkMyServer {
  base : Session;
  silent : Z;
  hidden : Z
}.

(** The command processor, as far as event output looks at it. *)
Record Parent : Type := mkParent {
  _curShortname : string;
  servers : PyDict.t MyTeamtalkServer
}.

(** The property [curServer]. *)
Definition curServer (p : Parent) : Outcome MyTeamtalkServer :=
if _curShortname p =? EmptyString then Raised CommandError
else match PyDict.lookup (_curShortname p) (servers p) with
     | Some srv => Returned srv
     | None => Raised CommandError
     end.

Definition with_base (self : MyTeamtalkServer) (r : Session * Outcome unit)
  : MyTeamtalkServer * Outcome unit :=
(mkMyServer (fst r) (silent self) (hidden self), snd r).

(** [MyTeamtalkServer.outputFromEvent(line, raw=False)]. *)
Definition outputFromEvent (parent : Parent) (line : string) (raw : bool)
  (self : MyTeamtalkServer) : MyTeamtalkServer * Outcome unit :=
if (1 <? silent self)%Z then (self, Returned tt)
else if negb (silent self =? 0)%Z then
  match curServer parent with
  | Raised e => (self, Raised e)
  | Returned cur =>
      if negb (shortname (base self) =? shortname (base cur)) then (self, Returned tt)
      else with_base self (Ttapi.outputFromEvent line raw (base self))
  end
else with_base self (Ttapi.outputFromEvent line raw (base self)).

End TTComCmd.

(** ** ttapi.py: further methods of [TeamtalkServer]

    Methods that read the session or nothing at all.  [int(secs + 0.5)] on a
    [float] is left to the interpreter, as [str] of a [float] is. *)

Module TeamtalkServer.

Import PyStr.
Local Open Scope outcome_scope.

(** [is5()]: the first character of the server's version. *)
Definition is5 (s : Ttapi.Session) : Outcome bool :=
ver <- AttrDict.__getattr__ (Ttapi.info s) "version" ;;
if negb (truthy ver) then Returned false else
match ver with
| VStr (String c _) => Returned (c =? "5")%char
| VStr EmptyString => Returned false
| _ => Raised TypeError
end.

(** [subBitNames()]. *)
Definition subBitNames (s : Ttapi.Session) : Outcome (list string) :=
five <- is5 s ;;
Returned
  (if (five : bool)
   then ["user messages"; "channel messages"; "broadcast messages"; "notUsed";
         "audio"; "video"; "desktop"; "desktopAccess"; "stream"]
   else ["user messages"; "channel messages"; "broadcast messages";
         "audio"; "video"; "desktop"; "desktopAccess"]).

(** [channelname(id, isRawName, preserveRootName)].  The loop that would
    rebuild a missing path calls [str.join] with two arguments, which
    raises before anything is joined. *)
Definition channelname (s : Ttapi.Session) (id : PyVal) (isRawName preserveRootName : bool)
  : Outcome PyVal :=
name <-
  (if isRawName then Returned id else
   ch <- match id with
         | VStr k =>
             match PyDict.lookup k (Ttapi.channels s) with
             | Some ch => Returned ch
             | None => Raised KeyError
             end
         | _ => Raised KeyError
         end ;;
   let name := match AttrDict.__getattr__ ch "channel" with
               | Returned v => v
               | Raised _ => VNone
               end in
   if negb (truthy name) then Raised TypeError else Returned name) ;;
if val_is_str name "/" && negb preserveRootName
then Returned (VStr "the root channel")
else Returned name.

(** [s.split(sep, 1)] when [sep] occurs in [s], for a separator of any
    length: the text before its first occurrence and the text after it. *)
Fixpoint partition_str (sep s : string) : string * string :=
if prefix sep s then (EmptyString, drop (String.length sep) s)
else match s with
     | EmptyString => (EmptyString, EmptyString)
     | String c r => let (a, b) := partition_str sep r in (String c a, b)
     end.

(** [addrAndPort(udpaddr)]: without a colon the two-name assignment fails. *)
Definition addrAndPort (udpaddr : PyVal) : Outcome (string * string) :=
if negb (truthy udpaddr) then Returned (EmptyString, EmptyString) else
match udpaddr with
| VStr s =>
    if contains "]:" s then
      let (addr, port) := partition_str "]:" s in
      Returned (replace "[" EmptyString addr, port)
    else if has_char ":" s then Returned (partition_char ":" s)
    else Raised ValueError
| _ => Raised TypeError
end.

(** [format(n, "02d")]: at least two characters, padded with a zero. *)
Definition format_02d (n : Z) : string :=
let s := of_int n in
if (String.length s <? 2)%nat then "0" ++ s else s.

Section SecsToTime.

(** [int(secs + 0.5)] for a [float]. *)
Variable round_half : Q -> Z.

(** [secsToTime(secs)]: [divmod] rounds down. *)
Definition secsToTime (secs : PyVal) : Outcome string :=
secs <- match secs with
        | VFloat q => Returned (round_half q)
        | VInt n => Returned n
        | VBool b => Returned (if b then 1 else 0)%Z
        | _ => Raised TypeError
        end ;;
let mm := (secs / 60)%Z in
let ss := (secs mod 60)%Z in
let hh := (mm / 60)%Z in
let mm := (mm mod 60)%Z in
Returned (format_02d hh ++ ":" ++ format_02d mm ++ ":" ++ format_02d ss).

End SecsToTime.

(** *** Flag words: [collectBits] and [doFlagBits] *)

(** The loop of [collectBits]; it ends when [bits0] has been shifted down
    to zero, which a negative [bits0] never is. *)
Fixpoint collectBits_loop (fuel : nat) (bits0 oldval0 newval0 bits oldval newval newbit cnt : Z)
  : Outcome (Z * Z * Z * Z) :=
match fuel with
| O => Raised OutOfFuel
| S fuel' =>
    if (bits0 =? 0)%Z then Returned (bits, oldval, newval, cnt)
    else if negb (Z.land bits0 1 =? 0)%Z then
      collectBits_loop fuel' (Z.shiftr bits0 1) (Z.shiftr oldval0 1) (Z.shiftr newval0 1)
        (Z.lor bits newbit)
        (if negb (Z.land oldval0 1 =? 0)%Z then Z.lor oldval newbit else oldval)
        (if negb (Z.land newval0 1 =? 0)%Z then Z.lor newval newbit else newval)
        (Z.shiftl newbit 1) (cnt + 1)%Z
    else
      collectBits_loop fuel' (Z.shiftr bits0 1) (Z.shiftr oldval0 1) (Z.shiftr newval0 1)
        bits oldval newval newbit cnt
end.

(** [collectBits(bits0, oldval0, newval0)]: [(bits, oldval, newval, cnt)]. *)
Definition collectBits (fuel : nat) (bits0 oldval0 newval0 : Z) : Outcome (Z * Z * Z * Z) :=
collectBits_loop fuel bits0 oldval0 newval0 0 0 0 1 0.

(** A name for a bit: a text, or a pair [(offName, onName)]. *)
Inductive BitName : Type :=
| Name (name : string)
| OffOn (off on : string).

(** [default_bitnames]. *)
Definition default_bitnames : list BitName :=
map (fun bit => OffOn ("off" ++ of_int (Z.of_nat bit + 1)) ("on" ++ of_int (Z.of_nat bit + 1)))
    (seq 0 32).

(** [lst[i]] with Python's negative indices. *)
Definition index {A : Type} (lst : list A) (i : Z) : Outcome A :=
let n := Z.of_nat (length lst) in
let j := if (i <? 0)%Z then (i + n)%Z else i in
if (0 <=? j)%Z && (j <? n)%Z
then match nth_error lst (Z.to_nat j) with
     | Some a => Returned a
     | None => Raised IndexError
     end
else Raised IndexError.

(** The loop of [doFlagBits] over the bits named one by one. *)
Fixpoint doFlagBits_loop (rounds : nat) (i : nat) (names : list BitName) (oldval newval : Z)
  (changes : list BitName) : Outcome (list BitName) :=
match rounds with
| O => Returned changes
| S rounds' =>
    name <- (if (i <? length names)%nat then index names (Z.of_nat i)
             else index default_bitnames (Z.of_nat i)) ;;
    let (off, on) := match name with
                     | Name n => (EmptyString, n)
                     | OffOn off on => (off, on)
                     end in
    let o := negb (Z.land oldval 1 =? 0)%Z in
    let n := negb (Z.land newval 1 =? 0)%Z in
    let name := if n && negb o then on
                else if o && negb n then off
                else EmptyString in
    doFlagBits_loop rounds' (S i) names (Z.shiftr oldval 1) (Z.shiftr newval 1)
      (if name =? EmptyString then changes else changes ++ [Name name])
end.

(** [doFlagBits(oldval, newval, bits, names)]; [names=None] is the empty
    list. *)
Definition doFlagBits (fuel : nat) (oldval newval : Z) (bits : option Z) (names : list BitName)
  : Outcome (list BitName) :=
let default := match bits with
               | None => true
               | Some b => (b =? 0)%Z
               end in
c <- (if default then Returned (4294967295, oldval, newval, 32)%Z
      else collectBits fuel (match bits with Some b => b | None => 0%Z end) oldval newval) ;;
let '(bits, oldval, newval, cnt) := (c : Z * Z * Z * Z) in
if (Z.of_nat (length names) =? bits + 1)%Z then
  if negb (Z.land oldval bits =? Z.land newval bits)%Z
  then name <- index names newval ;; Returned [name]
  else Returned []
else doFlagBits_loop (Z.to_nat cnt) 0 names oldval newval [].

End TeamtalkServer.

(** * Vocabulary of the statements *)

Unset Implicit Arguments.

Import PyStr.

(** What [TeamtalkServer.outputFromEvent] leaves behind: log entries, then
    the line itself, as event output unless a command is waiting. *)
Definition written_line (line : string) (raw : bool) (s : Ttapi.Session) : Ttapi.Effect :=
let text := if raw then line else "[" ++ Ttapi.shortname s ++ "] " ++ line in
if (Ttapi.waitID s =? 0)%Z then Ttapi.EWriteEvent text else Ttapi.EWrite text.

Definition line_written (line : string) (raw : bool) (before after : Ttapi.Session) : Prop :=
exists logs,
  Forall (fun e => exists n d, e = Ttapi.ELog n d) logs /\
  after = Ttapi.set_effects (Ttapi.effects before ++ logs ++ [written_line line raw before])%list before.

(** [updateParms]: the incoming parameters carry a status field. *)
Definition status_given (newParms : AttrDict.t) : bool :=
AttrDict.mem "statusmode" newParms || AttrDict.mem "statusmsg" newParms.

(** [updateParms]: the record that the incoming parameters are merged over,
    which is the old record, or what [preserve] keeps of it. *)
Definition kept_record (preserve : list string) (old : AttrDict.t) : option AttrDict.t :=
match preserve with
| [] => Some old
| _ => match Ttapi.keep_preserved preserve old AttrDict.empty with
       | (kept, Returned _) => Some kept
       | (_, Raised _) => None
       end
end.

(** A field differs between two versions of a record. *)
Definition field_changed (k : string) (old new : AttrDict.t) : Prop :=
PyDict.lookup k old <> PyDict.lookup k new.

(** ** Sample values, to run the model on concrete inputs *)

(** A rendering of floats and of the server object. *)
Definition float_str0 (q : Q) : string := "0.0".
Definition object_str0 : string := "<ttapi.TeamtalkServer object>".

(** The event methods left abstract, all taken to return [True]. *)
Definition event_other0 (h : Ttapi.Handler) (parms : AttrDict.t) : Ttapi.M bool :=
Ttapi.ret true.

(** A session named [srv], connected, with [usertimeout] 60. *)
Definition session0 : Ttapi.Session :=
Ttapi.set_conn (Some (Ttapi.mkConn false true EmptyString 60 None))
  (Ttapi.__init__ "example.org" 10333 "srv" []).

(** [session0] knowing user 5, whose record has a status but no time. *)
Definition session_with_user5 : Ttapi.Session :=
Ttapi.set_model Ttapi.loggedIn AttrDict.empty [] [("5", [("userid", VStr "5"); ("statusmode", VStr "0")])] [] None
  session0.

(** ** The address match in the words of the specification

    These definitions follow the sentence of the specification step by step;
    they are what [Triggers._matchAddress] is compared with. *)

(** The text after the last [sep] of a text that has one. *)
Fixpoint after_last (sep : ascii) (s : string) : string :=
match s with
| EmptyString => EmptyString
| String c r => if has_char sep r then after_last sep r else if (c =? sep)%char then r else s
end.

(** The text before the last [sep] of a text that has one. *)
Fixpoint before_last (sep : ascii) (s : string) : string :=
match s with
| EmptyString => EmptyString
| String c r =>
    if has_char sep r then String c (before_last sep r)
    else if (c =? sep)%char then EmptyString else s
end.

Fixpoint count_char (c : ascii) (s : string) : nat :=
match s with
| EmptyString => 0
| String d r => (if (d =? c)%char then 1 else 0) + count_char c r
end.

(** "strip [[...]:port] wrapper": of a text that opens with a bracket and
    closes it, the part between the two. *)
Definition unwrap_brackets (addr : string) : string :=
match addr with
| String c r =>
    if (c =? "[")%char && has_char "]" r then hd EmptyString (split_char "]" r) else addr
| EmptyString => addr
end.

(** "strip leading [::ffff:]", letter for letter. *)
Definition strip_leading (p addr : string) : string :=
if prefix p addr then drop (String.length p) addr else addr.

(** The same in any letter case. *)
Definition strip_leading_nocase (p addr : string) : string :=
if prefix p (lower addr) then drop (String.length p) addr else addr.

Definition is_port (s : string) : bool :=
negb (s =? EmptyString) && all_chars re_digit s.

(** "strip trailing [:port]". *)
Definition strip_trailing_port (addr : string) : string :=
if has_char ":" addr && is_port (after_last ":" addr) then before_last ":" addr else addr.

(** "if [re] has fewer than 4 dotted components, append [.]". *)
Definition complete_dots (re : string) : string :=
if (count_char "." re + 1 <? 4)%nat then re ++ "." else re.

(** The algorithm of the specification as it is worded. *)
Definition address_match_as_stated (re addr : string) : bool :=
let addr := unwrap_brackets addr in
let addr := if startswith re ":" then addr else strip_leading "::ffff:" addr in
let addr := strip_trailing_port addr in
startswith addr (complete_dots re).

(** The same with the IPv4-in-IPv6 prefix taken in any letter case. *)
Definition address_match (re addr : string) : bool :=
let addr := unwrap_brackets addr in
let addr := if startswith re ":" then addr else strip_leading_nocase "::ffff:" addr in
let addr := strip_trailing_port addr in
startswith addr (complete_dots re).

(** Brackets, when the address has both kinds, open the address. *)
Definition brackets_lead (addr : string) : Prop :=
has_char "[" addr = true -> has_char "]" addr = true -> startswith addr "[" = true.

(** Two servers of one command processor, [srv] silenced at level 1 and
    [other] selected. *)
Definition my_srv : TTComCmd.MyTeamtalkServer := TTComCmd.mkMyServer session0 1 0.

Definition my_other : TTComCmd.MyTeamtalkServer :=
TTComCmd.mkMyServer (Ttapi.__init__ "example.net" 10333 "other" []) 0 0.

Definition parent0 : TTComCmd.Parent :=
TTComCmd.mkParent "other" [("srv", my_srv); ("other", my_other)].

(** ** The correlator and the dispatch, in the words of the specification *)

(** A character that an event name may hold: a letter or an underscore. *)
Definition name_char (c : ascii) : bool := isalpha_char c || (c =? "_")%char.

(** The event name holds a character that is neither. *)
Definition has_foreign_char (e : string) : bool := negb (all_chars name_char e).

(** The line is the marker [end id=<waitID>] of the block being collected. *)
Definition is_end_marker (p : Parmline.ParmLine) (s : Ttapi.Session) : bool :=
Ttapi.event_is p "end"
&& val_is_str (AttrDict.get (Parmline.parms p) "id" VNone) (of_int (Ttapi.waitID s)).

(** The line is one of the two events the connection itself reports. *)
Definition is_connection_event (p : Parmline.ParmLine) : bool :=
Ttapi.event_is p "_connected_" || Ttapi.event_is p "_disconnected_".

(** No effect of the list starts a timer. *)
Definition no_timer (es : list Ttapi.Effect) : Prop :=
forall n b, ~ In (Ttapi.ETimerLogin n b) es.

(** No effect of the list records the call of an event method. *)
Definition no_handler (es : list Ttapi.Effect) : Prop :=
forall h parms, ~ In (Ttapi.EHandler h parms) es.

(** [session0] in the middle of collecting the answer to request 1. *)
Definition session_collecting : Ttapi.Session :=
Ttapi.set_collecting 2 (Ttapi.set_waitID 1 (Ttapi.set_curID 1 session0)).

(** [session0] with automatic login at level 1. *)
Definition session_autologin : Ttapi.Session :=
Ttapi.mkSession (Ttapi.conn session0) false false false false None 0 0 "default" 0 0 127 0 []
  "example.org" 10333 false "srv" 1 (Ttapi.loginParms session0)
  Ttapi.loggedIn AttrDict.empty [] [] [] None [].

(** What the session prints when the connection breaks in the middle of a
    collected answer. *)
Definition truncated : string :=
"Output collection truncated by server connection interruption".

(** ** Vocabulary of the request counter *)

(** The id the next [sendWithWait] gives its request. *)
Definition next_id (s : Ttapi.Session) : Z :=
if (Ttapi.maxID s <? Ttapi.curID s + 1)%Z then 1%Z else (Ttapi.curID s + 1)%Z.

(** The session holds a connection object. *)
Definition alive (s : Ttapi.Session) : Prop := Ttapi.conn s <> None.

(** What every step other than the start of a [sendWithWait] does to the
    counter: [maxID] stays, the effects only grow, and [curID] stays unless
    the session has lost its connection ([clear] sets it back to 0). *)
Definition keeps_counter (s s' : Ttapi.Session) : Prop :=
Ttapi.maxID s' = Ttapi.maxID s /\
(alive s' -> alive s /\ Ttapi.curID s' = Ttapi.curID s) /\
exists es, Ttapi.effects s' = (Ttapi.effects s ++ es)%list.

Definition quiet {A : Type} (m : Ttapi.M A) : Prop :=
forall s, keeps_counter s (fst (m s)).

(** One call of [sendWithWait] by a client, with what the socket and the
    server do during the call. *)
Record Request : Type := mkRequest
  { req_line : string; req_results : bool; req_sock : bool; req_arrivals : list string }.

(** A client making the calls one after the other; an exception ends it. *)
Fixpoint sends (fs : Q -> string) (os : string)
  (other : Ttapi.Handler -> AttrDict.t -> Ttapi.M bool) (reqs : list Request) : Ttapi.M unit :=
match reqs with
| [] => Ttapi.ret tt
| r :: rest =>
    Ttapi.bind
      (Ttapi.sendWithWait fs os other (req_line r) (req_results r) (req_sock r) (req_arrivals r))
      (fun _ => sends fs os other rest)
end.

(** The id of request number [k] (from 0) when the counter stood at [c]
    before the first. *)
Definition id_at (c : Z) (k : nat) : Z := ((c + Z.of_nat k) mod 127 + 1)%Z.

(** The bytes of a request with its id. *)
Definition frame (line : string) (id : Z) : string :=
rstrip line ++ " id=" ++ of_int id ++ Ttapi.CRLF.

(** The effects hold the frames of the requests in their order, request
    number [k] first, each followed by whatever else happened before the
    next. *)
Inductive sent_in_order (c : Z) : nat -> list Request -> list Ttapi.Effect -> Prop :=
| sent_none (k : nat) : sent_in_order c k [] []
| sent_next (k : nat) (r : Request) (reqs : list Request) (es rest : list Ttapi.Effect) :
    sent_in_order c (S k) reqs rest ->
    sent_in_order c k (r :: reqs)
      (Ttapi.ESockSend (frame (req_line r) (id_at c k)) :: es ++ rest)%list.

(** Request number [k] of a client: every third one times out, the others
    are answered by their id block; every other one collects its answer. *)
Definition answered (k : nat) : Request :=
let id := of_int (id_at 0 k) in
mkRequest "ping" (Nat.even k) true
  (if (k mod 3 =? 0)%nat then [] else ["begin id=" ++ id; "pong"; "end id=" ++ id]).

Definition three_hundred : list Request := map answered (seq 0 300).

(** ** Vocabulary of the codec *)

(** The raw text holds no backslash that is followed by the letter n or r. *)
Fixpoint plain (s : string) : bool :=
match s with
| EmptyString => true
| String c r =>
    (if (c =? backslash)%char
     then match r with
          | String d _ => negb ((d =? "n")%char || (d =? "r")%char)
          | EmptyString => true
          end
     else true) && plain r
end.

(** A text rewritten character by character. *)
Fixpoint each (f : ascii -> string) (s : string) : string :=
match s with
| EmptyString => EmptyString
| String c r => f c ++ each f r
end.

(** What the encoder writes for a character: [bs], [lf] and [cr] tell which
    of the three escapes are in force. *)
Definition escape (bs lf cr : bool) (c : ascii) : string :=
if bs && (c =? backslash)%char then String backslash (chr backslash)
else if lf && (c =? LF)%char then String backslash "n"
else if cr && (c =? CR)%char then String backslash "r"
else chr c.

(** The text starts with the character. *)
Definition starts (x : ascii) (s : string) : bool :=
match s with
| String e _ => (e =? x)%char
| EmptyString => false
end.

(** ** Vocabulary of the flag words *)

(** What [doFlagBits] reports for bit [i] (from 0) under the default
    names. *)
Definition bit_change (oldval newval : Z) (i : nat) : list TeamtalkServer.BitName :=
let o := Z.testbit oldval (Z.of_nat i) in
let n := Z.testbit newval (Z.of_nat i) in
if n && negb o then [TeamtalkServer.Name ("on" ++ of_int (Z.of_nat i + 1))]
else if o && negb n then [TeamtalkServer.Name ("off" ++ of_int (Z.of_nat i + 1))]
else [].

(** [session0] logged in, knowing the root channel and a channel below it. *)
Definition session_with_root : Ttapi.Session :=
Ttapi.set_model Ttapi.loggedIn AttrDict.empty
  [("1", [("channelid", VStr "1"); ("channel", VStr "/")]);
   ("2", [("channelid", VStr "2"); ("parentid", VStr "1"); ("name", VStr "Lobby");
          ("channel", VStr "/Lobby/")])]
  [] [] None session0.

(** ** Vocabulary of the answers to a request *)

(** What [watcher] hands to [processLine] for a line it has read. *)
Definition normalise (line : string) : string :=
if startswith line "teamtalk " then "welcome " ++ drop 9 line else line.

(** A line of the answer to request [id] that the collector keeps and that
    leaves the id block of [watcher] as it is: it parses to [p], is no
    connection event and is not the marker that ends the answer. *)
Definition collectable (id : Z) (line : string) (p : Parmline.ParmLine) : Prop :=
line <> EmptyString /\
startswith (lower (rstrip (normalise line))) "begin id=" = false /\
startswith (lower (rstrip (normalise line))) "end id=" = false /\
Parmline.of_line (normalise line) = Returned p /\
is_connection_event p = false /\
Ttapi.event_is p "end" && val_is_str (AttrDict.get (Parmline.parms p) "id" VNone) (of_int id)
= false.

(** The session can send: it holds a live connection that reports to it,
    and its request counter is as [__init__] and [sendWithWait] leave it. *)
Definition ready (s : Ttapi.Session) : Prop :=
(exists c, Ttapi.conn s = Some c /\ Ttapi.callback c = true /\ Ttapi.shuttingDown c = false) /\
Ttapi.maxID s = 127%Z /\ (0 <= Ttapi.curID s <= 127)%Z.

(** The two lines that frame the answer to request [id]. *)
Definition block_line (word : string) (id : Z) : string := word ++ " id=" ++ of_int id.

(** The connection once [watcher] has read the end of an id block. *)
Definition close_block (c : Ttapi.Conn) : Ttapi.Conn :=
Ttapi.mkConn (Ttapi.shuttingDown c) (Ttapi.callback c) (Ttapi.disconnectReason c)
  (Ttapi.usertimeout c) None.

(** The session a collecting [sendWithWait line] leaves when its answer has
    come: the request was sent under the next id, nothing is awaited or
    collected any more, and the id block is done. *)
Definition after_answer (line : string) (s : Ttapi.Session) : Ttapi.Session :=
Ttapi.set_conn (option_map close_block (Ttapi.conn s))
  (Ttapi.set_ev_idblockDone true
     (Ttapi.set_waitID 0
        (Ttapi.set_collecting 0
           (Ttapi.set_outputCollection []
              (Ttapi.emit (Ttapi.ESockSend (frame line (next_id s)))
                 (Ttapi.set_curID (next_id s) s)))))).

(** What a request that gets no answer writes. *)
Definition timeout_text (line : string) (s : Ttapi.Session) : string :=
"[" ++ Ttapi.shortname s ++ "] Timeout on "
++ Ttapi.first_word (rstrip line ++ " id=" ++ of_int (next_id s)) ++ " command".

(** The session [sendWithWait line] leaves when no answer has come. *)
Definition after_timeout (line : string) (returnResults : bool) (s : Ttapi.Session)
  : Ttapi.Session :=
let st :=
  Ttapi.set_waitID 0
    (Ttapi.emit (Ttapi.EWrite (timeout_text line s))
       (Ttapi.emit (Ttapi.ESockSend (frame line (next_id s)))
          (Ttapi.set_ev_idblockDone false (Ttapi.set_curID (next_id s) s)))) in
if returnResults then Ttapi.set_outputCollection [] (Ttapi.set_collecting 0 st) else st.

(** The session a [sendWithWait line] that does not collect leaves when the
    two lines of its id block have come: [event_begin] and [event_end] have
    run, in this order. *)
Definition after_block (line : string) (s : Ttapi.Session) : Ttapi.Session :=
let parms := [("id", VStr (of_int (next_id s)))] in
Ttapi.set_conn (option_map close_block (Ttapi.conn s))
  (Ttapi.set_ev_idblockDone true
     (Ttapi.set_waitID 0
        (Ttapi.emit (Ttapi.EHandler "end" parms)
           (Ttapi.emit (Ttapi.EHandler "begin" parms)
              (Ttapi.emit (Ttapi.ESockSend (frame line (next_id s)))
                 (Ttapi.set_curID (next_id s) s)))))).

(** ** Vocabulary of the lines that read back *)

(** A character that [shlex] takes into a word as it is and that [strip]
    leaves at either end. *)
Definition word_char (c : ascii) : bool :=
negb (isspace_char c) && negb (Shlex.is_quote c) && negb (Shlex.is_escape c).

(** An event keyword: a word without an equals sign. *)
Definition plain_event (e : string) : Prop :=
e <> EmptyString /\ all_chars (fun c => word_char c && negb (c =? "=")%char) e = true.

(** A parameter name as [AttrDict] stores it: such a word, in lower case. *)
Definition plain_key (k : string) : bool :=
all_chars (fun c => word_char c && negb (c =? "=")%char && (lower_char c =? c)%char) k.

(** A parameter value without double quote and backslash. *)
Definition plain_value (v : string) : bool :=
all_chars (fun c => negb (c =? dquote)%char && negb (c =? backslash)%char) v.

(** Parameters with distinct plain names and plain texts as values. *)
Definition plain_parms (parms : AttrDict.t) : Prop :=
NoDup (map fst parms) /\
Forall (fun kv => plain_key (fst kv) = true /\
                  exists v, snd kv = VStr v /\ plain_value v = true) parms.

(** What [makeline] writes for a plain value: digits as they are, any other
    text between double quotes. *)
Definition quoted (v : string) : string :=
if isdigit v && negb (has_char " " v) then v else chr dquote ++ v ++ chr dquote.

Definition text_of (v : PyVal) : string :=
match v with
| VStr s => s
| _ => EmptyString
end.

(** What [makeline] appends for the parameters, and the parts [shlex]
    makes of it. *)
Fixpoint items_text (parms : AttrDict.t) : string :=
match parms with
| [] => EmptyString
| (k, v) :: rest => " " ++ k ++ "=" ++ quoted (text_of v) ++ items_text rest
end.

Definition part_of (kv : string * PyVal) : string := fst kv ++ "=" ++ text_of (snd kv).

(** ** Vocabulary of the disconnection *)

(** The session holds nothing of a server any more: what [clear] leaves. *)
Definition cleared (s : Ttapi.Session) : Prop :=
Ttapi.conn s = None /\ Ttapi.state s = Ttapi.disconnected /\
Ttapi.curID s = 0%Z /\ Ttapi.waitID s = 0%Z /\
Ttapi.ev_loggedIn s = false /\ Ttapi.ev_loggedOut s = false /\
Ttapi.info s = AttrDict.empty /\ Ttapi.channels s = [] /\ Ttapi.users s = [] /\
Ttapi.files s = [] /\ Ttapi.me s = None.

(** What [disconnect] returns or raises, by the connection it finds. *)
Definition disconnect_outcome (s : Ttapi.Session) : Outcome unit :=
match Ttapi.conn s with
| Some c => if Ttapi.callback c then Raised AttributeError else Returned tt
| None => Returned tt
end.

(** ** Vocabulary of the typed parameters *)

(** A keyword of the protocol: what [Parser.next] takes as a name. *)
Definition identifier (kw : string) : bool :=
match kw with
| String c r => Parmline.kw_start c && all_chars Parmline.kw_char r
| EmptyString => false
end.

(** * Checked properties *)

(** ** Text lemmas *)

Lemma append_nil_r (s : string) : s ++ EmptyString = s.
Proof. induction s as [|c s IH]; simpl; [reflexivity | now rewrite IH]. Qed.

Lemma append_assoc (a b c : string) : (a ++ b) ++ c = a ++ (b ++ c).
Proof. induction a as [|x a IH]; simpl; [reflexivity | now rewrite IH]. Qed.

Lemma prefix_append (p s : string) : prefix p (p ++ s) = true.
Proof.
  induction p as [|c p IH]; simpl.
  - now destruct s.
  - destruct (ascii_dec c c) as [_|n]; [exact IH | now elim n].
Qed.

(** ** Event output of the base class *)

Lemma set_effects_effects (s : Ttapi.Session) : Ttapi.set_effects (Ttapi.effects s) s = s.
Proof. now destruct s. Qed.

Lemma emit_emit (e1 : Ttapi.Effect) (es : list Ttapi.Effect) (s : Ttapi.Session) :
  Ttapi.emit e1 (Ttapi.set_effects es s) = Ttapi.set_effects (es ++ [e1]) s.
Proof. reflexivity. Qed.

Lemma log_log_spec (n d : string) (s : Ttapi.Session) :
  exists logs,
    Forall (fun e => exists n d, e = Ttapi.ELog n d) logs /\
    Ttapi.log_log n d s = (Ttapi.set_effects (Ttapi.effects s ++ logs) s, Returned tt).
Proof.
  unfold Ttapi.log_log.
  destruct ((d =? EmptyString) || (d =? " ")).
  - exists []. split; [constructor|].
    unfold Ttapi.ret. now rewrite app_nil_r, set_effects_effects.
  - exists [Ttapi.ELog n d]. split; [repeat constructor; eauto | reflexivity].
Qed.

Lemma output_event_spec (line : string) (raw : bool) (s : Ttapi.Session) :
  Ttapi.output line raw true s = (Ttapi.emit (written_line line raw s) s, Returned tt).
Proof.
  unfold Ttapi.output, Ttapi.bind, Ttapi.gets, written_line. cbn [andb].
  now destruct (Ttapi.waitID s =? 0)%Z.
Qed.

Lemma outputFromEvent_written (line : string) (raw : bool) (s : Ttapi.Session) :
  snd (Ttapi.outputFromEvent line raw s) = Returned tt /\
  line_written line raw s (fst (Ttapi.outputFromEvent line raw s)).
Proof.
  unfold Ttapi.outputFromEvent, Ttapi.bind, Ttapi.gets.
  destruct (log_log_spec "ttcom" (Ttapi.shortname s ++ ": " ++ line) s) as (l1 & F1 & ->).
  destruct (log_log_spec (Ttapi.shortname s) line
              (Ttapi.set_effects (Ttapi.effects s ++ l1) s)) as (l2 & F2 & ->).
  rewrite output_event_spec. cbn [fst snd]. split; [reflexivity|].
  exists (l1 ++ l2)%list. split; [now apply Forall_app|].
  unfold Ttapi.emit. cbn. now rewrite <- !app_assoc.
Qed.

(** ** C8: the pause between keep-alive pings *)

(** C8.  For every [usertimeout] the pinger sleeps 0.3 s when
    [usertimeout < 1], 0.5 s when [1 <= usertimeout < 1.5] and
    [0.75 * usertimeout] seconds otherwise; [usertimeout = 60] gives 45 s.  A
    round of the pinger on a live connection sends the bare ping and sleeps
    exactly that long. *)
Theorem C8_pinger_cadence (usertimeout : Z) :
  ((inject_Z usertimeout < 1)%Q -> Ttapi.pingtime usertimeout = (3 # 10)%Q) /\
  ((1 <= inject_Z usertimeout)%Q -> (inject_Z usertimeout < 3 # 2)%Q ->
     Ttapi.pingtime usertimeout = (1 # 2)%Q) /\
  ((3 # 2 <= inject_Z usertimeout)%Q ->
     Ttapi.pingtime usertimeout = (inject_Z usertimeout * (3 # 4))%Q) /\
  (Ttapi.pingtime 60 == 45)%Q /\
  (forall c : Ttapi.Conn,
     Ttapi.shuttingDown c = false -> Ttapi.usertimeout c = usertimeout ->
     Ttapi.pinger_round c None
     = Ttapi.PingerSleeps ("ping" ++ String CR (chr LF)) (Ttapi.pingtime usertimeout)).
Proof.
  unfold Ttapi.pingtime.
  split; [|split; [|split; [|split]]].
  - intros H. destruct (Qlt_le_dec (inject_Z usertimeout) 1) as [_|H1]; [reflexivity|].
    exfalso. exact (Qlt_not_le _ _ H H1).
  - intros H1 H2.
    destruct (Qlt_le_dec (inject_Z usertimeout) 1) as [H|_].
    + exfalso. exact (Qlt_not_le _ _ H H1).
    + destruct (Qlt_le_dec (inject_Z usertimeout) (3 # 2)) as [_|H3]; [reflexivity|].
      exfalso. exact (Qlt_not_le _ _ H2 H3).
  - intros H.
    destruct (Qlt_le_dec (inject_Z usertimeout) 1) as [H1|_].
    + exfalso. apply (Qlt_not_le _ _ H1). apply Qle_trans with (3 # 2)%Q; [discriminate | exact H].
    + destruct (Qlt_le_dec (inject_Z usertimeout) (3 # 2)) as [H2|_]; [|reflexivity].
      exfalso. exact (Qlt_not_le _ _ H2 H).
  - reflexivity.
  - intros c Hs Hu. unfold Ttapi.pinger_round. now rewrite Hs, Hu.
Qed.

(** ** C10: silent levels of [MyTeamtalkServer] *)

(** C10.  Event output of a server session: with [silent >= 2] the line is
    dropped whatever the command processor holds; with [silent = 1] it is
    dropped when the currently selected server carries another short name and
    written when it carries this session's; with [silent = 0] it is written.
    Dropped: the session is unchanged and nothing is written. *)
Theorem C10_silent_levels (parent : TTComCmd.Parent) (line : string) (raw : bool)
  (self : TTComCmd.MyTeamtalkServer) :
  ((2 <= TTComCmd.silent self)%Z ->
     TTComCmd.outputFromEvent parent line raw self = (self, Returned tt)) /\
  (TTComCmd.silent self = 1%Z ->
     forall cur, TTComCmd.curServer parent = Returned cur ->
       (Ttapi.shortname (TTComCmd.base cur) <> Ttapi.shortname (TTComCmd.base self) ->
          TTComCmd.outputFromEvent parent line raw self = (self, Returned tt)) /\
       (Ttapi.shortname (TTComCmd.base cur) = Ttapi.shortname (TTComCmd.base self) ->
          snd (TTComCmd.outputFromEvent parent line raw self) = Returned tt /\
          line_written line raw (TTComCmd.base self)
            (TTComCmd.base (fst (TTComCmd.outputFromEvent parent line raw self))))) /\
  (TTComCmd.silent self = 0%Z ->
     snd (TTComCmd.outputFromEvent parent line raw self) = Returned tt /\
     line_written line raw (TTComCmd.base self)
       (TTComCmd.base (fst (TTComCmd.outputFromEvent parent line raw self)))).
Proof.
  unfold TTComCmd.outputFromEvent.
  split; [|split].
  - intros H. assert (E : (1 <? TTComCmd.silent self)%Z = true) by (apply Z.ltb_lt; lia).
    now rewrite E.
  - intros H cur Hc. rewrite H, Hc. cbn [Z.ltb Z.eqb Z.compare Pos.compare negb].
    split.
    + intros Hn.
      destruct (Ttapi.shortname (TTComCmd.base self) =? Ttapi.shortname (TTComCmd.base cur)) eqn:E;
        [|reflexivity].
      apply String.eqb_eq in E. congruence.
    + intros He. rewrite He, String.eqb_refl. cbn [negb TTComCmd.with_base fst snd TTComCmd.base].
      apply outputFromEvent_written.
  - intros H. rewrite H. cbn [Z.ltb Z.eqb Z.compare negb TTComCmd.with_base fst snd TTComCmd.base].
    apply outputFromEvent_written.
Qed.

(** ** Dictionary lemmas *)

Section DictFacts.
Variable V : Type.
Implicit Types (d : PyDict.t V) (k : string) (v : V).

Lemma lookup_store_eq k v d : PyDict.lookup k (PyDict.store k v d) = Some v.
Proof.
  induction d as [|[k' v'] d IH]; simpl.
  - now rewrite String.eqb_refl.
  - destruct (String.eqb_spec k' k) as [->|n]; simpl.
    + now rewrite String.eqb_refl.
    + destruct (String.eqb_spec k' k); [contradiction | exact IH].
Qed.

Lemma lookup_store_ne k k' v d :
  k <> k' -> PyDict.lookup k' (PyDict.store k v d) = PyDict.lookup k' d.
Proof.
  intros Hne. induction d as [|[k1 v1] d IH]; simpl.
  - destruct (String.eqb_spec k k'); [contradiction | reflexivity].
  - destruct (String.eqb_spec k1 k) as [->|n]; simpl.
    + destruct (String.eqb_spec k k'); [contradiction | reflexivity].
    + destruct (String.eqb_spec k1 k'); [reflexivity | exact IH].
Qed.

Lemma lookup_remove_eq k d : PyDict.lookup k (PyDict.remove k d) = None.
Proof.
  induction d as [|[k' v'] d IH]; simpl; [reflexivity|].
  destruct (String.eqb_spec k' k) as [->|n]; [exact IH|].
  simpl. destruct (String.eqb_spec k' k); [contradiction | exact IH].
Qed.

Lemma lookup_remove_ne k k' d :
  k <> k' -> PyDict.lookup k' (PyDict.remove k d) = PyDict.lookup k' d.
Proof.
  intros Hne. induction d as [|[k1 v1] d IH]; simpl; [reflexivity|].
  destruct (String.eqb_spec k1 k) as [->|n]; simpl.
  - destruct (String.eqb_spec k k'); [contradiction | exact IH].
  - destruct (String.eqb_spec k1 k'); [reflexivity | exact IH].
Qed.

Lemma mem_store_eq k v d : PyDict.mem k (PyDict.store k v d) = true.
Proof. unfold PyDict.mem. now rewrite lookup_store_eq. Qed.

Lemma mem_store_ne k k' v d :
  k <> k' -> PyDict.mem k' (PyDict.store k v d) = PyDict.mem k' d.
Proof. intros H. unfold PyDict.mem. now rewrite lookup_store_ne. Qed.

(** After [d.update(other)] a key of [other] has the value [other] gives it
    last, and any other key keeps the value of [d]. *)
Lemma lookup_update k d (other : PyDict.t V) :
  PyDict.lookup k (PyDict.update d other)
  = match PyDict.lookup k (rev other) with
    | Some v => Some v
    | None => PyDict.lookup k d
    end.
Proof.
  unfold PyDict.update. revert d.
  induction other as [|[k1 v1] other IH]; intros d; simpl; [reflexivity|].
  rewrite IH. clear IH.
  assert (L : forall (a b : PyDict.t V),
             PyDict.lookup k (a ++ b)%list
             = match PyDict.lookup k a with Some v => Some v | None => PyDict.lookup k b end).
  { intros a b. induction a as [|[ka va] a IHa]; simpl; [reflexivity|].
    destruct (ka =? k); [reflexivity | exact IHa]. }
  rewrite L. destruct (PyDict.lookup k (rev other)); [reflexivity|]. simpl.
  destruct (String.eqb_spec k1 k) as [->|n].
  - apply lookup_store_eq.
  - now apply lookup_store_ne.
Qed.

End DictFacts.

(** ** C5: the status time stamp of [updateParms] *)

Lemma stamp_status_spec (now : Q) (newParms parms : AttrDict.t) :
  (status_given newParms = true -> AttrDict.mem "statustime" parms = false ->
     PyDict.lookup "statustime" (Ttapi.stamp_status now newParms parms) = Some (VFloat now) /\
     forall k, k <> "statustime" ->
       PyDict.lookup k (Ttapi.stamp_status now newParms parms) = PyDict.lookup k parms) /\
  (status_given newParms = false \/ AttrDict.mem "statustime" parms = true ->
     Ttapi.stamp_status now newParms parms = parms).
Proof.
  unfold Ttapi.stamp_status, status_given, AttrDict.__setitem__.
  change (lower "statustime") with "statustime". split.
  - intros -> ->. cbn [andb negb]. split.
    + apply lookup_store_eq.
    + intros k Hk. apply lookup_store_ne. congruence.
  - intros [-> | ->]; [reflexivity|]. now rewrite andb_false_r.
Qed.

Lemma read_write_target (t : Ttapi.Target) (r : AttrDict.t) (s : Ttapi.Session) :
  Ttapi.read_target t (Ttapi.write_target t r s) = Returned r.
Proof.
  destruct t; cbn; [reflexivity| | |]; now rewrite lookup_store_eq.
Qed.

Lemma updateChannelValue_spec fs os fuel t s s' :
  Ttapi._updateChannelValue fs os fuel t s = (s', Returned tt) ->
  exists chan path,
    Ttapi.read_target t s = Returned chan /\
    s' = Ttapi.write_target t (AttrDict.__setitem__ chan "channel" (VStr path)) s.
Proof.
  unfold Ttapi._updateChannelValue, Ttapi.bind, Ttapi.gets, Ttapi.lift, Ttapi.modify.
  destruct (Ttapi.read_target t s) as [chan|e]; [|discriminate].
  destruct (Ttapi.channel_path fs os fuel (Ttapi.channels s) chan "/") as [path|e]; [|discriminate].
  intros H. injection H as <-. now exists chan, path.
Qed.

Lemma preserve_step (t : Ttapi.Target) (preserve : list string) (old : AttrDict.t)
  (s s1 : Ttapi.Session) :
  Ttapi.read_target t s = Returned old ->
  match preserve with
  | [] => Ttapi.ret tt
  | _ :: _ =>
      let (kept, o) := Ttapi.keep_preserved preserve old AttrDict.empty in
      Ttapi.bind (Ttapi.modify (Ttapi.write_target t kept)) (fun _ : unit => Ttapi.lift o)
  end s = (s1, Returned tt) ->
  exists kept, kept_record preserve old = Some kept /\ Ttapi.read_target t s1 = Returned kept.
Proof.
  intros Hold. unfold kept_record. destruct preserve as [|k rest].
  - intros H. injection H as <-. now exists old.
  - destruct (Ttapi.keep_preserved (k :: rest) old AttrDict.empty) as [kept o].
    unfold Ttapi.bind, Ttapi.modify, Ttapi.lift.
    destruct o as [[]|e]; [|discriminate].
    intros H. injection H as <-. exists kept. split; [reflexivity | apply read_write_target].
Qed.

Lemma channel_step fs os fuel (t : Ttapi.Target) (b : bool) (merged : AttrDict.t)
  (s2 s3 : Ttapi.Session) :
  Ttapi.read_target t s2 = Returned merged ->
  (if b then Ttapi._updateChannelValue fs os fuel t else Ttapi.ret tt) s2 = (s3, Returned tt) ->
  exists r3,
    Ttapi.read_target t s3 = Returned r3 /\
    forall k, k <> "channel" -> PyDict.lookup k r3 = PyDict.lookup k merged.
Proof.
  intros Hm. destruct b.
  - intros H. apply updateChannelValue_spec in H. destruct H as (chan & path & Hc & ->).
    rewrite Hm in Hc. injection Hc as <-.
    eexists. split; [apply read_write_target|].
    intros k Hk. unfold AttrDict.__setitem__. change (lower "channel") with "channel".
    apply lookup_store_ne. congruence.
  - intros H. injection H as <-. now exists merged.
Qed.

(** C5, as amended.  When [updateParms] returns, [statustime] of the record
    is the current time exactly when the incoming parameters carry
    [statusmode] or [statusmsg] and the merged record has no [statustime];
    otherwise the step leaves [statustime] as the merge made it.  No other
    field but [channel] differs from the merged record. *)
Theorem C5_statustime_stamp fs os fuel now t newParms preserve s s' :
  Ttapi.updateParms_silent fs os fuel now t newParms preserve s = (s', Returned tt) ->
  exists old kept result,
    Ttapi.read_target t s = Returned old /\
    kept_record preserve old = Some kept /\
    Ttapi.read_target t s' = Returned result /\
    let merged := PyDict.update kept newParms in
    (status_given newParms = true -> AttrDict.mem "statustime" merged = false ->
       PyDict.lookup "statustime" result = Some (VFloat now)) /\
    (status_given newParms = false \/ AttrDict.mem "statustime" merged = true ->
       PyDict.lookup "statustime" result = PyDict.lookup "statustime" merged) /\
    (forall k, k <> "statustime" -> k <> "channel" ->
       PyDict.lookup k result = PyDict.lookup k merged).
Proof.
  unfold Ttapi.updateParms_silent.
  unfold Ttapi.bind at 1. unfold Ttapi.gets at 1.
  unfold Ttapi.bind at 1. unfold Ttapi.lift at 1.
  destruct (Ttapi.read_target t s) as [old|e] eqn:Hold; [|discriminate].
  unfold Ttapi.bind at 1.
  match goal with |- context [match ?m s with _ => _ end] => destruct (m s) as [s1 o1] eqn:H1 end.
  destruct o1 as [[]|e]; [|discriminate].
  destruct (preserve_step _ _ _ _ _ Hold H1) as (kept & Hkept & Hr1).
  unfold Ttapi.bind at 1. unfold Ttapi.gets at 1.
  unfold Ttapi.bind at 1. unfold Ttapi.lift at 1. rewrite Hr1.
  unfold Ttapi.bind at 1. unfold Ttapi.modify at 1.
  unfold Ttapi.bind at 1.
  match goal with |- context [match ?m ?x with _ => _ end] => destruct (m x) as [s3 o3] eqn:H3 end.
  destruct o3 as [[]|e]; [|discriminate].
  destruct (channel_step _ _ _ _ _ _ _ _ (read_write_target t (PyDict.update kept newParms) s1) H3)
    as (r3 & Hr3 & Hsame).
  unfold Ttapi.bind at 1. unfold Ttapi.gets at 1.
  unfold Ttapi.bind at 1. unfold Ttapi.lift at 1. rewrite Hr3.
  unfold Ttapi.modify. intros H. injection H as <-.
  exists old, kept, (Ttapi.stamp_status now newParms r3).
  split; [reflexivity|]. split; [exact Hkept|]. split; [apply read_write_target|].
  cbv zeta.
  assert (Hmem : AttrDict.mem "statustime" r3
                 = AttrDict.mem "statustime" (PyDict.update kept newParms)).
  { unfold AttrDict.mem, PyDict.mem. rewrite Hsame; [reflexivity | discriminate]. }
  destruct (stamp_status_spec now newParms r3) as [Hset Hkeep].
  split; [|split].
  - intros Hg Ha. rewrite <- Hmem in Ha. exact (proj1 (Hset Hg Ha)).
  - intros Hc. rewrite <- Hmem in Hc. rewrite (Hkeep Hc). apply Hsame. discriminate.
  - intros k Hk1 Hk2.
    destruct (status_given newParms) eqn:Hg; [destruct (AttrDict.mem "statustime" r3) eqn:Ha|].
    + rewrite (Hkeep (or_intror eq_refl)). now apply Hsame.
    + rewrite (proj2 (Hset eq_refl eq_refl) k Hk1). now apply Hsame.
    + rewrite (Hkeep (or_introl eq_refl)). now apply Hsame.
Qed.

(** C5, the claim as stated fails: user 5 has [statusmode] 0 and no
    [statustime]; an update that repeats [statusmode=0] changes neither
    status field, and still the record is stamped. *)
Lemma C5_unchanged_status_is_stamped :
  let old := [("userid", VStr "5"); ("statusmode", VStr "0")] in
  let newParms := [("statusmode", VStr "0")] in
  let merged := PyDict.update old newParms in
  let r := Ttapi.updateParms_silent float_str0 object_str0 0 (inject_Z 1000)
             (Ttapi.T_users "5") newParms [] session_with_user5 in
  Ttapi.read_target (Ttapi.T_users "5") session_with_user5 = Returned old /\
  snd r = Returned tt /\
  ~ field_changed "statusmode" old merged /\
  ~ field_changed "statusmsg" old merged /\
  AttrDict.mem "statustime" merged = false /\
  exists result,
    Ttapi.read_target (Ttapi.T_users "5") (fst r) = Returned result /\
    PyDict.lookup "statustime" result = Some (VFloat (inject_Z 1000)) /\
    PyDict.lookup "statustime" result <> PyDict.lookup "statustime" merged.
Proof.
  cbv zeta. split; [reflexivity|]. split; [reflexivity|].
  split; [intros H; now apply H|]. split; [intros H; now apply H|].
  split; [reflexivity|].
  eexists. split; [vm_compute; reflexivity|]. split; [reflexivity | discriminate].
Qed.

Lemma C5_statustime_stamp_witness :
  exists result,
    Ttapi.read_target (Ttapi.T_users "5")
      (fst (Ttapi.updateParms_silent float_str0 object_str0 0 (inject_Z 1000)
              (Ttapi.T_users "5") [("statusmode", VStr "0")] [] session_with_user5))
    = Returned result /\
    PyDict.lookup "statustime" result = Some (VFloat (inject_Z 1000)).
Proof.
  destruct (C5_statustime_stamp float_str0 object_str0 0 (inject_Z 1000)
              (Ttapi.T_users "5") [("statusmode", VStr "0")] [] session_with_user5 _ eq_refl)
    as (old & kept & result & Ho & Hk & Hr & Hset & _).
  exists result. split; [exact Hr|].
  injection Ho as <-. injection Hk as <-.
  apply Hset; reflexivity.
Defined.

(** ** C1: the codec of string values *)

(** C1, where the code departs from it.  The raw text made of a backslash
    and the letter n is emitted with the backslash doubled, as the grammar
    asks; decoding that text, and parsing the emitted frame, give a line
    feed instead of the two characters. *)
Theorem C1_escaped_backslash_is_misread :
  let raw := String backslash "n" in
  let x := Parmline.StringParm "nickname" raw true in
  Parmline.value x = Parmline.StrValue raw /\
  Parmline.txt x = "nickname=" ++ chr dquote ++ String backslash (String backslash "n") ++ chr dquote /\
  Parmline.decode (Parmline.encode raw) = chr LF /\
  Parmline.TTParms (Parmline.TTParms_str [Parmline.KeywordParm "changenick"; x]) false
  = Returned [Parmline.KeywordParm "changenick";
              Parmline.mkParm Parmline.Str (Parmline.txt x) "nickname" (Parmline.StrValue (chr LF))].
Proof. cbv zeta. repeat split. Qed.

(** ** C4: the two spellings of the channel id *)

(** C4, where the code departs from it.  Item assignment stores either
    spelling as it is given, so a record can hold both, and then the two
    reads differ; a frame that carries both parameters builds such a record;
    attribute assignment with a capital in the name does the same. *)
Theorem C4_both_spellings_stored :
  let d := AttrDict.__setitem__ (AttrDict.__setitem__ AttrDict.empty "chanid" (VStr "1")) "channelid" (VStr "2") in
  AttrDict.mem "chanid" d = true /\
  AttrDict.mem "channelid" d = true /\
  AttrDict.__getitem__ d "chanid" = Returned (VStr "1") /\
  AttrDict.__getitem__ d "channelid" = Returned (VStr "2") /\
  AttrDict.__getattr__ d "chanid" = Returned (VStr "1") /\
  AttrDict.__getattr__ d "channelid" = Returned (VStr "2") /\
  (exists p, Parmline.of_line "adduser userid=7 chanid=1 channelid=2" = Returned p /\ Parmline.parms p = ("userid", VStr "7") :: d) /\
  AttrDict.__setattr__ (AttrDict.__setitem__ AttrDict.empty "chanid" (VStr "1")) "ChannelID" (VStr "2") = d.
Proof.
  cbv zeta. repeat split. eexists. split; [vm_compute; reflexivity | reflexivity].
Qed.

(** ** C6: the address match of the triggers *)

Lemma has_char_split_hd (r : string) :
  has_char LF r = false -> has_char "]" r = true ->
  Triggers.upto_closing r = Some (hd EmptyString (split_char "]" r)).
Proof.
  induction r as [|c r IH]; simpl; [discriminate|].
  intros Hlf Hb.
  destruct (Ascii.eqb_spec c "]") as [->|n].
  - reflexivity.
  - apply orb_false_elim in Hlf. destruct Hlf as [Hc Hlf]. simpl in Hb.
    rewrite Hc. rewrite (IH Hlf Hb).
    destruct (split_char "]" r); reflexivity.
Qed.

Lemma has_char_hd_split (c sep : ascii) (r : string) :
  has_char c r = false -> has_char c (hd EmptyString (split_char sep r)) = false.
Proof.
  induction r as [|d r IH]; simpl; [reflexivity|].
  intros H. apply orb_false_elim in H. destruct H as [Hd Hr].
  destruct (d =? sep)%char; [reflexivity|].
  specialize (IH Hr). destruct (split_char sep r); simpl in *; now rewrite Hd.
Qed.

Lemma has_char_drop (c : ascii) (n : nat) (s : string) :
  has_char c s = false -> has_char c (drop n s) = false.
Proof.
  revert s. induction n as [|n IH]; intros s H; [now destruct s|].
  destruct s as [|d r]; [reflexivity|]. simpl in H. apply orb_false_elim in H.
  simpl. apply IH. tauto.
Qed.

Lemma prefix_nil (s : string) : prefix EmptyString s = true.
Proof. now destruct s. Qed.

Lemma prefix_lower_substring (n : nat) (p a : string) :
  (String.length p <= n)%nat ->
  prefix p (lower (substring 0 n a)) = prefix p (lower a).
Proof.
  revert p a. induction n as [|n IH]; intros p a Hp.
  - destruct p; [|simpl in Hp; lia]. now destruct a.
  - destruct p as [|x p]; [now rewrite !prefix_nil|]. destruct a as [|c a]; [reflexivity|].
    simpl. destruct (ascii_dec x (lower_char c)); [|reflexivity].
    apply IH. simpl in Hp. lia.
Qed.

Lemma strip_ffff_nocase (addr : string) :
  Triggers.strip_ffff addr = strip_leading_nocase "::ffff:" addr.
Proof.
  unfold Triggers.strip_ffff, strip_leading_nocase.
  rewrite (prefix_lower_substring 7 "::ffff:" addr); [reflexivity | simpl; lia].
Qed.

Lemma span_digits_all (s : string) :
  all_chars re_digit s = true -> Parmline.span re_digit s = (s, EmptyString).
Proof.
  unfold all_chars. induction s as [|c r IH]; simpl; [reflexivity|].
  intros H. apply andb_prop in H. destruct H as [Hc Hr].
  now rewrite Hc, (IH Hr).
Qed.

Lemma span_digits_rest (s : string) :
  all_chars re_digit s = false ->
  exists c rest, snd (Parmline.span re_digit s) = String c rest /\ re_digit c = false.
Proof.
  unfold all_chars. induction s as [|c r IH]; simpl; [discriminate|].
  destruct (re_digit c) eqn:Hc; simpl.
  - intros H. destruct (IH H) as (d & rest & E & Hd).
    destruct (Parmline.span re_digit r). simpl in *. eauto.
  - intros _. exists c, r. simpl. auto.
Qed.

Lemma span_fst_nonempty (s : string) :
  negb (fst (Parmline.span re_digit s) =? EmptyString)
  = match s with String c _ => re_digit c | EmptyString => false end.
Proof.
  destruct s as [|c r]; simpl; [reflexivity|].
  destruct (re_digit c); [|reflexivity]. now destruct (Parmline.span re_digit r).
Qed.

(** Without a line feed, "digits to the end" is "a port". *)
Lemma port_to_end_is_port (r : string) :
  has_char LF r = false -> Triggers.port_to_end r = is_port r.
Proof.
  intros Hlf. unfold Triggers.port_to_end, is_port.
  destruct (all_chars re_digit r) eqn:Ha.
  - rewrite (span_digits_all r Ha). reflexivity.
  - destruct (span_digits_rest r Ha) as (c & rest & E & Hc).
    destruct (Parmline.span re_digit r) as [ds rs] eqn:Es. simpl in E. subst rs.
    rewrite andb_false_r.
    apply andb_false_intro2.
    assert (Hin : has_char c r = true).
    { clear -Es. revert ds Es. induction r as [|x r IH]; simpl; intros ds Es; [discriminate|].
      destruct (re_digit x).
      - destruct (Parmline.span re_digit r) as [a b] eqn:E. injection Es as _ Eb. subst b.
        rewrite (IH _ eq_refl). apply orb_true_r.
      - injection Es as _ Ex _. subst x. now rewrite Ascii.eqb_refl. }
    destruct (Ascii.eqb_spec c LF) as [->|n]; [congruence|].
    cbn [String.eqb chr orb]. apply andb_false_intro1.
    now apply Ascii.eqb_neq.
Qed.

Lemma is_port_no_colon (r : string) : is_port r = true -> has_char ":" r = false.
Proof.
  unfold is_port, all_chars. intros H. apply andb_prop in H. destruct H as [_ H].
  induction r as [|c r IH]; simpl in *; [reflexivity|].
  apply andb_prop in H. destruct H as [Hc Hr]. rewrite (IH Hr), orb_false_r.
  destruct (Ascii.eqb_spec c ":") as [->|n]; [discriminate | reflexivity].
Qed.

Lemma strip_port_no_colon (r : string) : has_char ":" r = false -> Triggers.strip_port r = r.
Proof.
  induction r as [|c r IH]; simpl; [reflexivity|].
  intros H. apply orb_false_elim in H. destruct H as [Hc Hr].
  now rewrite Hc, (IH Hr).
Qed.

Lemma strip_port_trailing (addr : string) :
  has_char LF addr = false -> Triggers.strip_port addr = strip_trailing_port addr.
Proof.
  unfold strip_trailing_port.
  induction addr as [|c r IH]; [reflexivity|].
  intros Hlf. simpl in Hlf. apply orb_false_elim in Hlf. destruct Hlf as [_ Hlf].
  specialize (IH Hlf). simpl.
  rewrite (port_to_end_is_port r Hlf).
  destruct (has_char ":" r) eqn:Hr.
  - rewrite orb_true_r. simpl in IH |- *.
    assert (Hp : is_port r = false).
    { destruct (is_port r) eqn:E; [|reflexivity].
      apply is_port_no_colon in E. congruence. }
    rewrite Hp, andb_false_r, IH.
    now destruct (is_port (after_last ":" r)).
  - rewrite orb_false_r. destruct (Ascii.eqb_spec c ":") as [->|n]; simpl.
    + destruct (is_port r) eqn:Hp.
      * unfold is_port in Hp. apply andb_prop in Hp.
        now rewrite (span_digits_all r (proj2 Hp)).
      * now rewrite (strip_port_no_colon r Hr).
    + now rewrite (strip_port_no_colon r Hr).
Qed.

Lemma length_split_char (sep : ascii) (s : string) :
  List.length (split_char sep s) = (count_char sep s + 1)%nat.
Proof.
  induction s as [|c r IH]; simpl; [reflexivity|].
  destruct (c =? sep)%char; simpl; [now rewrite IH|].
  destruct (split_char sep r); simpl in *; lia.
Qed.

(** C6, as amended.  For every match value [re] and every address without a
    line feed whose brackets, if it has both kinds, open it: the match keeps
    the text between the leading bracket and the first closing one; strips,
    when [re] does not start with a colon, a leading [::ffff:] in any letter
    case; strips a trailing colon and port digits; appends a dot to [re]
    when it has fewer than 4 dot-separated components; and succeeds exactly
    when the resulting address starts with the resulting [re]. *)
Theorem C6_address_match (re addr : string) :
  has_char LF addr = false -> brackets_lead addr ->
  Triggers._matchAddress re addr = Returned (address_match re addr).
Proof.
  intros Hlf Hb. unfold Triggers._matchAddress, address_match.
  assert (H1 : (if has_char "[" addr && has_char "]" addr
                then match Triggers.bracket_content addr with
                     | Some a => Returned a
                     | None => Raised IndexError
                     end
                else Returned addr) = Returned (unwrap_brackets addr)).
  { unfold unwrap_brackets, Triggers.bracket_content.
    destruct (has_char "[" addr && has_char "]" addr) eqn:E.
    - apply andb_prop in E. destruct E as [E1 E2].
      specialize (Hb E1 E2). destruct addr as [|c r]; [discriminate|].
      unfold startswith in Hb. cbn [prefix] in Hb.
      destruct (ascii_dec "[" c) as [<-|n]; [|discriminate Hb].
      simpl in E2, Hlf. simpl.
      now rewrite E2, (has_char_split_hd r Hlf E2).
    - destruct addr as [|c r]; [reflexivity|].
      destruct (Ascii.eqb_spec c "[") as [->|n]; [|reflexivity].
      simpl in E. simpl. now rewrite E. }
  rewrite H1.
  assert (Hlf1 : has_char LF (unwrap_brackets addr) = false).
  { unfold unwrap_brackets. destruct addr as [|c r]; [reflexivity|].
    destruct ((c =? "[")%char && has_char "]" r); [|exact Hlf].
    apply has_char_hd_split. simpl in Hlf. apply orb_false_elim in Hlf. tauto. }
  rewrite strip_ffff_nocase, length_split_char.
  unfold complete_dots.
  destruct (startswith re ":"); cbn [negb].
  - now rewrite (strip_port_trailing _ Hlf1).
  - rewrite strip_port_trailing; [reflexivity|].
    unfold strip_leading_nocase. destruct (prefix "::ffff:" (lower (unwrap_brackets addr))); [|exact Hlf1].
    now apply has_char_drop.
Qed.

(** C6, the claim as stated fails: the prefix is also stripped when written
    in capitals, so the match succeeds where the algorithm as worded,
    stripping only [::ffff:], does not. *)
Lemma C6_capital_prefix_is_stripped :
  Triggers._matchAddress "10.0.0." "::FFFF:10.0.0.42" = Returned true /\
  address_match_as_stated "10.0.0." "::FFFF:10.0.0.42" = false.
Proof. split; reflexivity. Qed.

Lemma C6_address_match_witness :
  Triggers._matchAddress "10.0.0." "[::ffff:10.0.0.42]:4432" = Returned true.
Proof.
  apply (C6_address_match "10.0.0." "[::ffff:10.0.0.42]:4432").
  - reflexivity.
  - intros _ _. reflexivity.
Defined.

(** ** Witnesses of C8 and C10 *)

Lemma C8_pinger_cadence_witness :
  Ttapi.pingtime 0 = (3 # 10)%Q /\
  Ttapi.pingtime 1 = (1 # 2)%Q /\
  Ttapi.pingtime 60 = (inject_Z 60 * (3 # 4))%Q.
Proof.
  split; [|split].
  - apply (proj1 (C8_pinger_cadence 0)). reflexivity.
  - apply (proj1 (proj2 (C8_pinger_cadence 1))); [discriminate | reflexivity].
  - apply (proj1 (proj2 (proj2 (C8_pinger_cadence 60)))). discriminate.
Defined.

Lemma C10_silent_levels_witness :
  TTComCmd.outputFromEvent parent0 "Connected" false my_srv = (my_srv, Returned tt).
Proof.
  apply (proj1 (proj2 (C10_silent_levels parent0 "Connected" false my_srv)) eq_refl my_other eq_refl).
  discriminate.
Defined.

(** ** Dispatch of inbound lines: C2, C7 and C9 *)

Section ProcessLine.

Local Open Scope list_scope.

Variable fs : Q -> string.
Variable os : string.
Variable other : Ttapi.Handler -> AttrDict.t -> Ttapi.M bool.


Lemma getattr_id (d : AttrDict.t) :
  AttrDict.__getattr__ d "id" = Returned (AttrDict.get d "id" VNone).
Proof.
  unfold AttrDict.__getattr__, AttrDict.__getitem__, AttrDict.get.
  change (lower "id") with "id". change (AttrDict.alias "id") with "id".
  destruct (PyDict.lookup "id" d); reflexivity.
Qed.

Lemma id_is_waitID_spec (p : Parmline.ParmLine) (s : Ttapi.Session) :
  Ttapi.id_is_waitID p s
  = Returned (val_is_str (AttrDict.get (Parmline.parms p) "id" VNone) (of_int (Ttapi.waitID s))).
Proof. unfold Ttapi.id_is_waitID. now rewrite getattr_id. Qed.

(** Removing the underscores keeps every other character. *)
Lemma replace_underscore (s : string) :
  replace "_" EmptyString s
  = string_of_list_ascii (filter (fun c => negb (c =? "_")%char) (list_ascii_of_string s)).
Proof.
  unfold replace. induction s as [|c r IH]; [reflexivity|].
  cbn [replace_from prefix list_ascii_of_string filter String.length Nat.sub].
  destruct (ascii_dec "_" c) as [<-|n].
  - rewrite prefix_nil. cbn. exact IH.
  - assert (E : (c =? "_")%char = false) by (apply Ascii.eqb_neq; congruence).
    rewrite E. cbn. now rewrite IH.
Qed.

Lemma foreign_char_not_alpha (e : string) :
  has_foreign_char e = true -> isalpha (replace "_" EmptyString e) = false.
Proof.
  unfold has_foreign_char, isalpha, all_chars. rewrite replace_underscore.
  rewrite list_ascii_of_string_of_list_ascii.
  intros H. apply negb_true_iff in H. apply andb_false_intro2.
  induction (list_ascii_of_string e) as [|c l IH]; [discriminate|].
  cbn [forallb filter] in *. unfold name_char in H at 1.
  destruct (Ascii.eqb_spec c "_") as [->|n]; cbn [negb].
  - apply IH. cbn in H. exact H.
  - cbn [forallb]. rewrite orb_false_r in H.
    destruct (isalpha_char c); [apply IH; exact H | reflexivity].
Qed.

(** A name that holds a foreign character is none of the names made of
    letters and underscores. *)
Lemma foreign_char_event_is (p : Parmline.ParmLine) (e name : string) :
  Parmline.event p = Some e -> has_foreign_char e = true ->
  has_foreign_char name = false -> Ttapi.event_is p name = false.
Proof.
  intros He Hf Hn. unfold Ttapi.event_is. rewrite He.
  destruct (String.eqb_spec e name) as [->|]; [congruence | reflexivity].
Qed.

Lemma handleCollection_passes (p : Parmline.ParmLine) (s : Ttapi.Session) :
  Ttapi._collecting s = 0%Z \/
  (Ttapi._collecting s = 1%Z /\ Ttapi.event_is p "begin" = false /\ is_connection_event p = false) ->
  Ttapi._handleCollection p s = (s, Returned false).
Proof.
  unfold Ttapi._handleCollection, Ttapi.bind, Ttapi.gets, is_connection_event.
  intros [H | (H & Hb & Hc)]; rewrite H; cbn [Z.eqb]; [reflexivity|].
  now rewrite Hb, Hc.
Qed.

(** C7, as amended.  While the session is not in the middle of collecting
    an answer ([_collecting] is 0 or 1), a line whose event name holds a
    character that is neither a letter nor an underscore is reported as
    invalid and dropped: the whole of what [processLine] does is to write
    [Invalid line:  <line>]; no event method is called and the session is
    otherwise as it was. *)
Theorem C7_foreign_event_name (line : string) (p : Parmline.ParmLine) (e : string)
  (s : Ttapi.Session) :
  Parmline.of_line line = Returned p ->
  Parmline.event p = Some e ->
  has_foreign_char e = true ->
  Ttapi._collecting s = 0%Z \/ Ttapi._collecting s = 1%Z ->
  Ttapi.processLine fs os other line s
  = (Ttapi.emit (written_line ("Invalid line:  " ++ line)%string false s) s, Returned tt).
Proof.
  intros Hp He Hf Hc.
  assert (Hev : forall name, has_foreign_char name = false -> Ttapi.event_is p name = false).
  { intros name. now apply foreign_char_event_is with e. }
  unfold Ttapi.processLine.
  unfold Ttapi.bind at 1. unfold Ttapi.lift at 1. rewrite Hp.
  unfold Ttapi.bind at 1.
  rewrite handleCollection_passes.
  2:{ destruct Hc as [Hc|Hc]; [now left | right].
      unfold is_connection_event. rewrite !Hev by reflexivity. auto. }
  unfold Ttapi.bind at 1. unfold Ttapi.gets at 1.
  rewrite !Hev by reflexivity. rewrite andb_false_r.
  unfold Ttapi.bind at 1. unfold Ttapi.ret at 1.
  unfold Ttapi.bind at 1. unfold Ttapi.hookEvents at 1. unfold Ttapi.ret at 1.
  unfold Ttapi.bind at 1. unfold Ttapi.lift at 1. unfold Ttapi.event_is_alpha. rewrite He.
  rewrite (foreign_char_not_alpha e Hf). cbn [negb].
  unfold Ttapi.errorFromEvent. apply output_event_spec.
Qed.

Lemma handleCollection_collecting (p : Parmline.ParmLine) (s : Ttapi.Session) :
  Ttapi._collecting s = 2%Z -> is_connection_event p = false ->
  Ttapi._handleCollection p s
  = (if is_end_marker p s
     then Ttapi.set_ev_idblockDone true (Ttapi.set_waitID 0 (Ttapi.set_collecting 0 s))
     else Ttapi.set_outputCollection (Ttapi._outputCollection s ++ [p]) s,
     Returned true).
Proof.
  unfold Ttapi._handleCollection, Ttapi.bind, Ttapi.gets, is_connection_event, is_end_marker.
  intros H Hc. rewrite H, Hc. cbn [Z.eqb Pos.eqb].
  destruct (Ttapi.event_is p "end"); cbn [andb]; [|reflexivity].
  unfold Ttapi.lift. rewrite id_is_waitID_spec.
  now destruct (val_is_str _ _).
Qed.

Lemma handleCollection_interrupted (p : Parmline.ParmLine) (s : Ttapi.Session) :
  Ttapi._collecting s = 2%Z -> is_connection_event p = true ->
  Ttapi._handleCollection p s
  = (Ttapi.set_ev_idblockDone true
       (Ttapi.emit (Ttapi.EWriteEvent ("[" ++ Ttapi.shortname s ++ "] " ++ truncated)%string)
          (Ttapi.set_waitID 0 (Ttapi.set_collecting 0 s))),
     Returned false).
Proof.
  unfold Ttapi._handleCollection, Ttapi.bind, Ttapi.gets, is_connection_event.
  intros H Hc. rewrite H, Hc. cbn [Z.eqb Pos.eqb].
  unfold Ttapi.ret, Ttapi.modify, Ttapi.errorFromEvent. rewrite output_event_spec.
  reflexivity.
Qed.

Lemma outputFromEvent_adds (line : string) (raw : bool) (s : Ttapi.Session) :
  exists logs,
    Forall (fun e => exists n d, e = Ttapi.ELog n d) logs /\
    Ttapi.outputFromEvent line raw s
    = (Ttapi.set_effects (Ttapi.effects s ++ logs ++ [written_line line raw s]) s, Returned tt).
Proof.
  destruct (outputFromEvent_written line raw s) as [H1 (logs & HF & H2)].
  exists logs. split; [exact HF|].
  destruct (Ttapi.outputFromEvent line raw s) as [s' o]. cbn in *. now subst.
Qed.

Lemma no_timer_app (a b : list Ttapi.Effect) : no_timer a -> no_timer b -> no_timer (a ++ b).
Proof. intros Ha Hb n x H. apply in_app_or in H. destruct H; [now apply (Ha n x) | now apply (Hb n x)]. Qed.

Lemma no_timer_logs (logs : list Ttapi.Effect) :
  Forall (fun e => exists n d, e = Ttapi.ELog n d) logs -> no_timer logs.
Proof.
  intros HF n b H. rewrite Forall_forall in HF. destruct (HF _ H) as (x & d & E). discriminate.
Qed.

Lemma no_timer_written (line : string) (raw : bool) (s : Ttapi.Session) :
  no_timer [written_line line raw s].
Proof.
  intros n b [H|[]]. unfold written_line in H. destruct (Ttapi.waitID s =? 0)%Z; discriminate.
Qed.

(** What [outputFromEvent] adds holds no timer. *)
Lemma outputFromEvent_effects (line : string) (raw : bool) (s : Ttapi.Session) :
  exists es, no_timer es /\
    Ttapi.outputFromEvent line raw s = (Ttapi.set_effects (Ttapi.effects s ++ es) s, Returned tt).
Proof.
  destruct (outputFromEvent_adds line raw s) as (logs & HF & E).
  exists (logs ++ [written_line line raw s]). split; [|exact E].
  apply no_timer_app; [now apply no_timer_logs | apply no_timer_written].
Qed.

(** [_handleRecycling]: a timer exactly when automatic login is on and not
    suppressed; it is the last of the effects added. *)
Lemma handleRecycling_spec (s : Ttapi.Session) :
  exists es,
    Ttapi._handleRecycling false s = (Ttapi.set_effects (Ttapi.effects s ++ es) s, Returned tt) /\
    (if negb (Ttapi.autoLogin s =? 0)%Z && negb (Ttapi.manualCM s)
     then exists es', no_timer es' /\ es = es' ++ [Ttapi.ETimerLogin 5 true]
     else es = []).
Proof.
  unfold Ttapi._handleRecycling, Ttapi.bind, Ttapi.gets. cbn [orb].
  destruct (negb (Ttapi.autoLogin s =? 0)%Z && negb (Ttapi.manualCM s)).
  - destruct (outputFromEvent_effects "Reconnecting" false s) as (es & Hn & ->).
    exists (es ++ [Ttapi.ETimerLogin 5 true]). split.
    + unfold Ttapi.modify, Ttapi.emit. cbn. now rewrite <- app_assoc.
    + now exists es.
  - exists []. split; [|reflexivity]. unfold Ttapi.ret. now rewrite app_nil_r, set_effects_effects.
Qed.

Lemma event_connected_spec (parms : AttrDict.t) (s : Ttapi.Session) :
  exists es, no_timer es /\
    Ttapi.event__connected_ parms s = (Ttapi.set_effects (Ttapi.effects s ++ es) s, Returned true).
Proof.
  unfold Ttapi.event__connected_, Ttapi.bind.
  destruct (outputFromEvent_effects "Connected" false s) as (es & Hn & ->).
  now exists es.
Qed.

(** [event__disconnected_]: the session is cleared, the correlator state and
    the login settings stay, and the effects added end with a timer exactly
    when automatic login is on and not suppressed. *)
Lemma event_disconnected_spec (parms : AttrDict.t) (s : Ttapi.Session) :
  exists es s',
    Ttapi.event__disconnected_ parms s = (s', Returned true) /\
    Ttapi.effects s' = Ttapi.effects s ++ es /\
    Ttapi._collecting s' = Ttapi._collecting s /\
    Ttapi._outputCollection s' = Ttapi._outputCollection s /\
    (if negb (Ttapi.autoLogin s =? 0)%Z && negb (Ttapi.manualCM s)
     then exists es', no_timer es' /\ es = es' ++ [Ttapi.ETimerLogin 5 true]
     else no_timer es).
Proof.
  unfold Ttapi.event__disconnected_, Ttapi.bind at 1, Ttapi.gets at 1.
  set (buf := if _ =? _ then _ else _).
  unfold Ttapi.bind at 1.
  destruct (outputFromEvent_effects buf false s) as (es1 & Hn1 & ->).
  unfold Ttapi.bind at 1. unfold Ttapi.clear, Ttapi.modify at 1.
  unfold Ttapi.bind at 1.
  match goal with |- context [Ttapi._handleRecycling false ?x] =>
    destruct (handleRecycling_spec x) as (es2 & -> & H2) end.
  eexists. eexists. split; [reflexivity|].
  cbn. split; [now rewrite app_assoc|]. split; [reflexivity|]. split; [reflexivity|].
  cbn in H2.
  destruct (negb (Ttapi.autoLogin s =? 0)%Z && negb (Ttapi.manualCM s)).
  - destruct H2 as (es' & Hn' & ->). exists (es1 ++ es'). split.
    + now apply no_timer_app.
    + now rewrite app_assoc.
  - subst es2. now rewrite app_nil_r.
Qed.

(** The dispatch of [processLine] once the correlator has let the line
    through: the event method found for the name runs, and its state is the
    result when it returns [True]. *)
Lemma processLine_dispatch (line : string) (p : Parmline.ParmLine) (s s1 s2 : Ttapi.Session)
  (e : string) (h : Ttapi.Handler) :
  Parmline.of_line line = Returned p ->
  Ttapi._handleCollection p s = (s1, Returned false) ->
  Parmline.event p = Some e ->
  isalpha (replace "_" EmptyString e) = true ->
  Ttapi.find_handler e = Some h ->
  Ttapi.run_handler fs os other h (Parmline.parms p)
    (Ttapi.emit (Ttapi.EHandler (Ttapi.handler_name h) (Parmline.parms p)) s1)
  = (s2, Returned true) ->
  Ttapi.processLine fs os other line s = (s2, Returned tt).
Proof.
  intros Hp Hc He Ha Hf Hr.
  unfold Ttapi.processLine.
  unfold Ttapi.bind at 1. unfold Ttapi.lift at 1. rewrite Hp.
  unfold Ttapi.bind at 1. rewrite Hc.
  unfold Ttapi.bind at 1. unfold Ttapi.gets at 1.
  unfold Ttapi.bind at 1.
  assert (Hm : exists b,
            (if (0 <? Ttapi.waitID s1)%Z && (Ttapi.event_is p "begin" || Ttapi.event_is p "end")
             then Ttapi.lift (Ttapi.id_is_waitID p s1) else Ttapi.ret false) s1
            = (s1, Returned b)).
  { destruct (_ && _); [|now exists false].
    unfold Ttapi.lift. rewrite id_is_waitID_spec. eauto. }
  destruct Hm as (b & ->).
  assert (Hh : forall a, (if b then Ttapi.ret tt else Ttapi.hookEvents p a) = Ttapi.ret tt)
    by (intros a; now destruct b).
  rewrite !Hh.
  unfold Ttapi.bind at 1. unfold Ttapi.ret at 1.
  unfold Ttapi.bind at 1. unfold Ttapi.lift at 1. unfold Ttapi.event_is_alpha. rewrite He, Ha.
  cbn [negb]. rewrite Hf.
  unfold Ttapi.finally, Ttapi.on_exception, Ttapi.bind, Ttapi.modify. rewrite Hr.
  reflexivity.
Qed.

Lemma connection_event_cases (p : Parmline.ParmLine) :
  is_connection_event p = true ->
  (Parmline.event p = Some "_connected_"%string /\ Ttapi.find_handler "_connected_" = Some Ttapi.h_connected)
  \/ (Parmline.event p = Some "_disconnected_"%string /\ Ttapi.find_handler "_disconnected_" = Some Ttapi.h_disconnected).
Proof.
  unfold is_connection_event, Ttapi.event_is. destruct (Parmline.event p) as [e|]; [|discriminate].
  intros H. apply orb_prop in H. destruct H as [H|H]; apply String.eqb_eq in H; subst e;
    [left | right]; split; reflexivity.
Qed.

(** C2, as amended.  While [_collecting] is 2, a line that does not parse
    makes [processLine] raise with the session untouched; a line that is
    neither [_connected_] nor [_disconnected_] is taken by the correlator
    and reaches no event method: the marker [end id=<waitID>] ends the
    collection, any other line is appended to the buffer, and nothing else
    of the session changes.  The two connection events are let through:
    the collection ends, the buffer is left as it is, the truncation is
    reported and the event's method is called. *)
Theorem C2_collecting_exclusive (line : string) (s : Ttapi.Session) :
  Ttapi._collecting s = 2%Z ->
  match Parmline.of_line line with
  | Raised e => Ttapi.processLine fs os other line s = (s, Raised e)
  | Returned p =>
      (is_connection_event p = false ->
         Ttapi.processLine fs os other line s
         = (if is_end_marker p s
            then Ttapi.set_ev_idblockDone true (Ttapi.set_waitID 0 (Ttapi.set_collecting 0 s))
            else Ttapi.set_outputCollection (Ttapi._outputCollection s ++ [p]) s,
            Returned tt)) /\
      (is_connection_event p = true ->
         exists e es s',
           Parmline.event p = Some e /\
           Ttapi.processLine fs os other line s = (s', Returned tt) /\
           Ttapi._collecting s' = 0%Z /\
           Ttapi._outputCollection s' = Ttapi._outputCollection s /\
           Ttapi.effects s'
           = Ttapi.effects s
             ++ [Ttapi.EWriteEvent ("[" ++ Ttapi.shortname s ++ "] " ++ truncated)%string;
                 Ttapi.EHandler e (Parmline.parms p)]
             ++ es)
  end.
Proof.
  intros Hc. destruct (Parmline.of_line line) as [p|e] eqn:Hp.
  2:{ unfold Ttapi.processLine, Ttapi.bind, Ttapi.lift. now rewrite Hp. }
  split; intros Hk.
  - unfold Ttapi.processLine.
    unfold Ttapi.bind at 1. unfold Ttapi.lift at 1. rewrite Hp.
    unfold Ttapi.bind at 1. now rewrite (handleCollection_collecting p s Hc Hk).
  - pose proof (handleCollection_interrupted p s Hc Hk) as Hh.
    set (s1 := Ttapi.set_ev_idblockDone true _) in Hh.
    destruct (connection_event_cases p Hk) as [[He Hf] | [He Hf]].
    + destruct (event_connected_spec (Parmline.parms p)
                  (Ttapi.emit (Ttapi.EHandler "_connected_" (Parmline.parms p)) s1))
        as (es & _ & Hr).
      exists "_connected_"%string, es. eexists. split; [exact He|]. split.
      * eapply processLine_dispatch; try eassumption; try reflexivity.
      * cbn. split; [reflexivity|]. split; [reflexivity|]. now rewrite <- !app_assoc.
    + destruct (event_disconnected_spec (Parmline.parms p)
                  (Ttapi.emit (Ttapi.EHandler "_disconnected_" (Parmline.parms p)) s1))
        as (es & s' & Hr & He' & Hc' & Ho' & _).
      exists "_disconnected_"%string, es, s'. split; [exact He|]. split.
      * eapply processLine_dispatch; try eassumption; try reflexivity.
      * split; [exact Hc'|]. split; [exact Ho'|]. rewrite He'. cbn. now rewrite <- !app_assoc.
Qed.

(** The correlator lets a connection event through whatever it was doing; it
    may print one line, and it leaves the login settings alone. *)
Lemma handleCollection_connection_event (p : Parmline.ParmLine) (s : Ttapi.Session) :
  is_connection_event p = true ->
  exists es s',
    Ttapi._handleCollection p s = (s', Returned false) /\
    Ttapi.effects s' = Ttapi.effects s ++ es /\
    no_timer es /\
    Ttapi.autoLogin s' = Ttapi.autoLogin s /\
    Ttapi.manualCM s' = Ttapi.manualCM s.
Proof.
  intros Hk.
  assert (Hb : Ttapi.event_is p "begin" = false).
  { unfold Ttapi.event_is. destruct (connection_event_cases p Hk) as [[-> _] | [-> _]]; reflexivity. }
  unfold Ttapi._handleCollection, Ttapi.bind, Ttapi.gets.
  unfold is_connection_event in Hk. rewrite Hk, Hb.
  destruct (Ttapi._collecting s =? 0)%Z.
  - exists [], s. rewrite app_nil_r. repeat split; intros n b [].
  - destruct (Ttapi._collecting s =? 1)%Z;
      unfold Ttapi.ret, Ttapi.modify, Ttapi.errorFromEvent; rewrite output_event_spec;
      eexists [_]; eexists; (split; [reflexivity|]); cbn;
      (split; [reflexivity|]); (split; [|split; reflexivity]);
      intros n b [H|[]]; try discriminate H;
      unfold written_line in H; destruct (Ttapi.waitID s =? 0)%Z; discriminate H.
Qed.

(** When [event_kicked] returns, it returns [True], reconnecting is
    suppressed unless [autoLogin] is 2, and the effects have grown. *)
Lemma event_kicked_returned (parms : AttrDict.t) (s s' : Ttapi.Session) (b : bool) :
  Ttapi.event_kicked fs os parms s = (s', Returned b) ->
  b = true /\
  Ttapi.manualCM s' = negb (Ttapi.autoLogin s =? 2)%Z /\
  Ttapi.autoLogin s' = Ttapi.autoLogin s.
Proof.
  unfold Ttapi.event_kicked.
  unfold Ttapi.bind at 1. unfold Ttapi.lift at 1.
  destruct (AttrDict.__getattr__ parms "kickerid") as [kickerid|]; [|discriminate].
  unfold Ttapi.bind at 1. unfold Ttapi.gets at 1.
  unfold Ttapi.bind at 1. unfold Ttapi.lift at 1.
  destruct (Ttapi.nonEmptyNickname fs os s (Ttapi.UVal kickerid) false false false) as [kicker|];
    [|discriminate].
  unfold Ttapi.bind at 1.
  destruct (outputFromEvent_effects (kicker ++ " has kicked you from the server")%string false s)
    as (es & _ & ->).
  unfold Ttapi.bind, Ttapi.modify, Ttapi.ret.
  intros H. injection H as <- <-. repeat split.
Qed.

Lemma kicked_line_returned (line : string) (p : Parmline.ParmLine) (s s1 : Ttapi.Session) :
  Parmline.of_line line = Returned p ->
  Parmline.event p = Some "kicked"%string ->
  Ttapi._collecting s = 0%Z \/ Ttapi._collecting s = 1%Z ->
  Ttapi.processLine fs os other line s = (s1, Returned tt) ->
  Ttapi.manualCM s1 = negb (Ttapi.autoLogin s =? 2)%Z /\
  Ttapi.autoLogin s1 = Ttapi.autoLogin s.
Proof.
  intros Hp He Hc.
  assert (Hev : forall name, (name =? "kicked")%string = false -> Ttapi.event_is p name = false).
  { intros name Hn. unfold Ttapi.event_is. rewrite He. now rewrite String.eqb_sym. }
  unfold Ttapi.processLine.
  unfold Ttapi.bind at 1. unfold Ttapi.lift at 1. rewrite Hp.
  unfold Ttapi.bind at 1.
  rewrite handleCollection_passes.
  2:{ destruct Hc as [Hc|Hc]; [now left | right].
      unfold is_connection_event. rewrite !Hev by reflexivity. auto. }
  unfold Ttapi.bind at 1. unfold Ttapi.gets at 1.
  rewrite !Hev by reflexivity. rewrite andb_false_r.
  unfold Ttapi.bind at 1. unfold Ttapi.ret at 1.
  unfold Ttapi.bind at 1. unfold Ttapi.hookEvents at 1. unfold Ttapi.ret at 1.
  unfold Ttapi.bind at 1. unfold Ttapi.lift at 1. unfold Ttapi.event_is_alpha. rewrite He.
  change (isalpha (replace "_" EmptyString "kicked")) with true. cbn [negb].
  change (Ttapi.find_handler "kicked") with (Some Ttapi.h_kicked).
  unfold Ttapi.finally, Ttapi.on_exception, Ttapi.bind, Ttapi.modify, Ttapi.run_handler.
  destruct (Ttapi.event_kicked fs os (Parmline.parms p) _) as [sk [b|e]] eqn:Ek.
  - destruct (event_kicked_returned _ _ _ _ Ek) as (-> & Hm & Ha).
    unfold Ttapi.ret, Ttapi.hookEvents. cbn. intros H. injection H as <-.
    split; [exact Hm | exact Ha].
  - unfold Ttapi.errorFromEvent. rewrite output_event_spec. cbn. discriminate.
Qed.

(** What the session does with the line by which the connection reports
    its end. *)
Lemma disconnected_line (s : Ttapi.Session) :
  exists es s',
    Ttapi.processLine fs os other "_disconnected_" s = (s', Returned tt) /\
    Ttapi.effects s' = Ttapi.effects s ++ es /\
    (if negb (Ttapi.autoLogin s =? 0)%Z && negb (Ttapi.manualCM s)
     then exists es', no_timer es' /\ es = es' ++ [Ttapi.ETimerLogin 5 true]
     else no_timer es).
Proof.
  assert (Hp : exists p, Parmline.of_line "_disconnected_" = Returned p
                         /\ Parmline.event p = Some "_disconnected_"%string
                         /\ is_connection_event p = true)
    by (eexists; repeat split).
  destruct Hp as (p & Hp & He & Hk).
  destruct (handleCollection_connection_event p s Hk) as (es1 & s1 & Hc & He1 & Hn1 & Ha1 & Hm1).
  destruct (event_disconnected_spec (Parmline.parms p)
              (Ttapi.emit (Ttapi.EHandler "_disconnected_" (Parmline.parms p)) s1))
    as (es2 & s2 & Hr & He2 & _ & _ & Ht).
  exists (es1 ++ [Ttapi.EHandler "_disconnected_" (Parmline.parms p)] ++ es2), s2.
  split; [|split].
  - apply (processLine_dispatch "_disconnected_" p s s1 s2 "_disconnected_" Ttapi.h_disconnected
             Hp Hc He); [reflexivity | reflexivity | exact Hr].
  - rewrite He2. cbn. rewrite He1. now rewrite <- !app_assoc.
  - cbn in Ht. rewrite Ha1, Hm1 in Ht.
    assert (Hh : no_timer (es1 ++ [Ttapi.EHandler "_disconnected_" (Parmline.parms p)])).
    { apply no_timer_app; [exact Hn1|]. intros n b [H|[]]. discriminate. }
    destruct (negb (Ttapi.autoLogin s =? 0)%Z && negb (Ttapi.manualCM s)).
    + destruct Ht as (es' & Hn' & ->).
      exists (es1 ++ [Ttapi.EHandler "_disconnected_" (Parmline.parms p)] ++ es'). split.
      * rewrite app_assoc. now apply no_timer_app.
      * now rewrite <- !app_assoc.
    + rewrite app_assoc. now apply no_timer_app.
Qed.

(** A kick whose handler returns, followed by the end of the connection:
    with [autoLogin] at 1 no login is scheduled, with [autoLogin] at 2 a
    background login is scheduled 5 seconds later, as the last thing the
    session does. *)
Theorem kick_then_disconnect (line : string) (p : Parmline.ParmLine) (s s1 : Ttapi.Session) :
  Parmline.of_line line = Returned p ->
  Parmline.event p = Some "kicked"%string ->
  Ttapi._collecting s = 0%Z \/ Ttapi._collecting s = 1%Z ->
  Ttapi.processLine fs os other line s = (s1, Returned tt) ->
  exists es s2,
    Ttapi.processLine fs os other "_disconnected_" s1 = (s2, Returned tt) /\
    Ttapi.effects s2 = Ttapi.effects s1 ++ es /\
    (Ttapi.autoLogin s = 1%Z -> no_timer es) /\
    (Ttapi.autoLogin s = 2%Z ->
       exists es', no_timer es' /\ es = es' ++ [Ttapi.ETimerLogin 5 true]).
Proof.
  intros Hp He Hc Hr.
  destruct (kicked_line_returned line p s s1 Hp He Hc Hr) as [Hm Ha].
  destruct (disconnected_line s1) as (es & s2 & H2 & He2 & Ht).
  exists es, s2. split; [exact H2|]. split; [exact He2|].
  rewrite Hm, Ha in Ht.
  split; intros H; rewrite H in Ht; exact Ht.
Qed.

End ProcessLine.

(** ** The statements at concrete sessions *)

(** C7 as stated fails in the middle of a collection: the line [user2 id=5]
    is not reported, it is added to the collected answer. *)
Lemma C7_collected_not_reported :
  Ttapi.processLine float_str0 object_str0 event_other0 "user2 id=5" session_collecting
  = (Ttapi.set_outputCollection
       [Parmline.mkParmLine "user2 id=5" [] (Some "user2") [("id", VStr "5")] (Some "user2 id=5")]
       session_collecting,
     Returned tt)
  /\ has_foreign_char "user2" = true
  /\ Ttapi.effects session_collecting = [].
Proof. repeat split. Qed.

Lemma C7_foreign_event_name_witness :
  Ttapi.processLine float_str0 object_str0 event_other0 "user2 id=5" session0
  = (Ttapi.emit (Ttapi.EWriteEvent "[srv] Invalid line:  user2 id=5") session0, Returned tt).
Proof.
  apply (C7_foreign_event_name float_str0 object_str0 event_other0 "user2 id=5"
           (Parmline.mkParmLine "user2 id=5" [] (Some "user2") [("id", VStr "5")] (Some "user2 id=5"))
           "user2" session0).
  - reflexivity.
  - reflexivity.
  - reflexivity.
  - left. reflexivity.
Defined.

(** C2 as stated fails on the line by which the connection reports its end:
    in the middle of a collection the method [event__disconnected_] is
    called, and the line is not added to the collected answer. *)
Lemma C2_disconnect_is_dispatched :
  Ttapi._collecting session_collecting = 2%Z /\
  In (Ttapi.EHandler "_disconnected_" [])
     (Ttapi.effects
        (fst (Ttapi.processLine float_str0 object_str0 event_other0 "_disconnected_"
                session_collecting))) /\
  Ttapi._outputCollection
    (fst (Ttapi.processLine float_str0 object_str0 event_other0 "_disconnected_"
            session_collecting)) = [].
Proof.
  split; [reflexivity|]. split; [|reflexivity].
  vm_compute. right. left. reflexivity.
Qed.

Lemma C2_collecting_exclusive_witness :
  Ttapi.processLine float_str0 object_str0 event_other0 "adduser userid=5" session_collecting
  = (Ttapi.set_outputCollection
       [Parmline.mkParmLine "adduser userid=5" [] (Some "adduser") [("userid", VStr "5")]
          (Some "adduser userid=5")]
       session_collecting,
     Returned tt).
Proof.
  apply (proj1 (C2_collecting_exclusive float_str0 object_str0 event_other0
                  "adduser userid=5" session_collecting eq_refl) eq_refl).
Defined.

(** C9 at a kick that names no kicker, as a server sends when the same
    account logs in elsewhere: [event_kicked] raises before it sets
    [manualCM], [processLine] reports the failure and raises in turn, and
    with [autoLogin] at 1 the end of the connection that follows schedules
    a background login 5 seconds later. *)
Theorem C9_kick_without_kicker_reconnects :
  Ttapi.autoLogin session_autologin = 1%Z /\
  snd (Ttapi.processLine float_str0 object_str0 event_other0 "kicked" session_autologin)
  = Raised AttributeError /\
  Ttapi.manualCM
    (fst (Ttapi.processLine float_str0 object_str0 event_other0 "kicked" session_autologin))
  = false /\
  Ttapi.effects
    (fst (Ttapi.processLine float_str0 object_str0 event_other0 "_disconnected_"
            (fst (Ttapi.processLine float_str0 object_str0 event_other0 "kicked"
                    session_autologin))))
  = [Ttapi.EHandler "kicked" [];
     Ttapi.EWriteEvent "[srv] Event dispatch failure: kicked";
     Ttapi.EHandler "_disconnected_" [];
     Ttapi.ELog "ttcom" "srv: Disconnected";
     Ttapi.ELog "srv" "Disconnected";
     Ttapi.EWriteEvent "[srv] Disconnected";
     Ttapi.ELog "ttcom" "srv: Reconnecting";
     Ttapi.ELog "srv" "Reconnecting";
     Ttapi.EWriteEvent "[srv] Reconnecting";
     Ttapi.ETimerLogin 5 true].
Proof. repeat split. Qed.

Lemma kick_then_disconnect_witness :
  exists es s2,
    Ttapi.processLine float_str0 object_str0 event_other0 "_disconnected_"
      (fst (Ttapi.processLine float_str0 object_str0 event_other0 "kicked kickerid=5"
              session_autologin))
    = (s2, Returned tt) /\
    Ttapi.effects s2
    = (Ttapi.effects
         (fst (Ttapi.processLine float_str0 object_str0 event_other0 "kicked kickerid=5"
                 session_autologin)) ++ es)%list /\
    no_timer es.
Proof.
  destruct (kick_then_disconnect float_str0 object_str0 event_other0 "kicked kickerid=5"
              (Parmline.mkParmLine "kicked kickerid=5" [] (Some "kicked")
                 [("kickerid", VStr "5")] (Some "kicked kickerid=5"))
              session_autologin
              (fst (Ttapi.processLine float_str0 object_str0 event_other0 "kicked kickerid=5"
                      session_autologin))
              eq_refl eq_refl (or_introl eq_refl) eq_refl)
    as (es & s2 & H1 & H2 & H3 & _).
  exists es, s2. split; [exact H1|]. split; [exact H2|]. apply H3. reflexivity.
Defined.

(** ** The request counter: C3 *)

Section CorrelatedSends.

Local Open Scope list_scope.

Variable fs : Q -> string.
Variable os : string.
Variable other : Ttapi.Handler -> AttrDict.t -> Ttapi.M bool.
(** The event methods left abstract leave the request counter alone. *)
Hypothesis other_quiet : forall h parms, quiet (other h parms).

Lemma keeps_refl (s : Ttapi.Session) : keeps_counter s s.
Proof. split; [reflexivity|]. split; [auto|]. exists []. now rewrite app_nil_r. Qed.

Lemma keeps_trans (a b c : Ttapi.Session) :
  keeps_counter a b -> keeps_counter b c -> keeps_counter a c.
Proof.
  intros (M1 & A1 & e1 & E1) (M2 & A2 & e2 & E2). split; [congruence|]. split.
  - intros H. destruct (A2 H) as [Hb C2]. destruct (A1 Hb) as [Ha C1]. split; [exact Ha | congruence].
  - exists (e1 ++ e2). rewrite E2, E1. now rewrite app_assoc.
Qed.

Lemma quiet_ret (A : Type) (a : A) : quiet (Ttapi.ret a).
Proof. intros s. apply keeps_refl. Qed.

Lemma quiet_raise (A : Type) (e : PyExc) : quiet (@Ttapi.raise A e).
Proof. intros s. apply keeps_refl. Qed.

Lemma quiet_lift (A : Type) (o : Outcome A) : quiet (Ttapi.lift o).
Proof. intros s. apply keeps_refl. Qed.

Lemma quiet_gets (A : Type) (f : Ttapi.Session -> A) : quiet (Ttapi.gets f).
Proof. intros s. apply keeps_refl. Qed.

Lemma quiet_modify (f : Ttapi.Session -> Ttapi.Session) :
  (forall s, keeps_counter s (f s)) -> quiet (Ttapi.modify f).
Proof. intros H s. apply H. Qed.

Lemma quiet_bind (A B : Type) (m : Ttapi.M A) (k : A -> Ttapi.M B) :
  quiet m -> (forall a, quiet (k a)) -> quiet (Ttapi.bind m k).
Proof.
  intros Hm Hk s. unfold Ttapi.bind. specialize (Hm s).
  destruct (m s) as [s' [a|e]]; cbn in Hm |- *; [|exact Hm].
  eapply keeps_trans; [exact Hm | apply Hk].
Qed.

Lemma quiet_on_exception (A : Type) (m : Ttapi.M A) (h : Ttapi.M unit) :
  quiet m -> quiet h -> quiet (Ttapi.on_exception m h).
Proof.
  intros Hm Hh s. unfold Ttapi.on_exception. specialize (Hm s).
  destruct (m s) as [s' [a|e]]; cbn in Hm |- *; [exact Hm|].
  specialize (Hh s'). destruct (h s') as [s'' [u|e']]; cbn in Hh |- *;
    eapply keeps_trans; eassumption.
Qed.

Lemma quiet_finally (A : Type) (m : Ttapi.M A) (f : Ttapi.M unit) :
  quiet m -> quiet f -> quiet (Ttapi.finally m f).
Proof.
  intros Hm Hf s. unfold Ttapi.finally. specialize (Hm s).
  destruct (m s) as [s' o]; cbn in Hm |- *.
  specialize (Hf s'). destruct (f s') as [s'' [u|e']]; cbn in Hf |- *;
    eapply keeps_trans; eassumption.
Qed.

(** A change of fields other than the connection and the counter. *)
Ltac keeps_field :=
  split; [reflexivity|]; split; [intros H; split; [exact H | reflexivity]|];
  (exists []; cbn; now rewrite app_nil_r).

Lemma keeps_emit (e : Ttapi.Effect) (s : Ttapi.Session) : keeps_counter s (Ttapi.emit e s).
Proof.
  split; [reflexivity|]. split; [intros H; split; [exact H | reflexivity]|].
  exists [e]. reflexivity.
Qed.

Lemma quiet_emit (e : Ttapi.Effect) : quiet (Ttapi.modify (Ttapi.emit e)).
Proof. apply quiet_modify, keeps_emit. Qed.

Ltac quiet_step :=
  first
    [ apply quiet_ret | apply quiet_raise | apply quiet_lift | apply quiet_gets
    | apply quiet_emit
    | apply quiet_bind; [|intros ?]
    | apply quiet_on_exception | apply quiet_finally
    | match goal with
      | |- quiet (if ?b then _ else _) => destruct b
      | |- quiet (match ?x with _ => _ end) => destruct x
      end ].

Lemma quiet_log_log (name data : string) : quiet (Ttapi.log_log name data).
Proof. unfold Ttapi.log_log. repeat quiet_step. Qed.

Lemma quiet_output (line : string) (raw fromEvent : bool) : quiet (Ttapi.output line raw fromEvent).
Proof. unfold Ttapi.output. repeat quiet_step. Qed.

Lemma quiet_outputFromEvent (line : string) (raw : bool) : quiet (Ttapi.outputFromEvent line raw).
Proof.
  unfold Ttapi.outputFromEvent.
  repeat first [apply quiet_log_log | apply quiet_output | quiet_step].
Qed.

Lemma quiet_errorFromEvent (line : string) (raw : bool) : quiet (Ttapi.errorFromEvent line raw).
Proof. apply quiet_output. Qed.

Lemma quiet_clear : quiet Ttapi.clear.
Proof.
  apply quiet_modify. intros s. split; [reflexivity|]. split.
  - intros H. exfalso. apply H. reflexivity.
  - exists []. cbn. now rewrite app_nil_r.
Qed.

Lemma quiet_handleRecycling (force : bool) : quiet (Ttapi._handleRecycling force).
Proof.
  unfold Ttapi._handleRecycling.
  repeat first [apply quiet_outputFromEvent | quiet_step].
Qed.

Lemma quiet_handleCollection (p : Parmline.ParmLine) : quiet (Ttapi._handleCollection p).
Proof.
  unfold Ttapi._handleCollection. cbv zeta.
  repeat first [apply quiet_errorFromEvent | quiet_step | apply quiet_modify; intros ?; keeps_field].
Qed.

Lemma quiet_event_disconnected (parms : AttrDict.t) : quiet (Ttapi.event__disconnected_ parms).
Proof.
  unfold Ttapi.event__disconnected_.
  apply quiet_bind; [apply quiet_gets | intros c].
  cbv zeta.
  repeat first [apply quiet_outputFromEvent | apply quiet_clear | apply quiet_handleRecycling
               | apply quiet_ret | apply quiet_bind; [|intros ?]].
Qed.

Lemma quiet_event_kicked (parms : AttrDict.t) : quiet (Ttapi.event_kicked fs os parms).
Proof.
  unfold Ttapi.event_kicked.
  repeat first [apply quiet_outputFromEvent | apply quiet_ret | apply quiet_lift | apply quiet_gets
               | apply quiet_bind; [|intros ?] | apply quiet_modify; intros ?; keeps_field].
Qed.

Lemma quiet_run_handler (h : Ttapi.Handler) (parms : AttrDict.t) :
  quiet (Ttapi.run_handler fs os other h parms).
Proof.
  destruct h; cbn [Ttapi.run_handler]; try apply other_quiet.
  - unfold Ttapi.event__connected_. repeat first [apply quiet_outputFromEvent | quiet_step].
  - apply quiet_event_disconnected.
  - unfold Ttapi.event_begin. repeat quiet_step.
  - unfold Ttapi.event_end.
    repeat first [quiet_step | apply quiet_modify; intros ?; keeps_field].
  - apply quiet_event_kicked.
  - unfold Ttapi.event_pong. apply quiet_ret.
Qed.

Lemma quiet_processLine (line : string) : quiet (Ttapi.processLine fs os other line).
Proof.
  unfold Ttapi.processLine, Ttapi.hookEvents.
  apply quiet_bind; [apply quiet_lift | intros p].
  apply quiet_bind; [apply quiet_handleCollection | intros consumed].
  destruct consumed; [apply quiet_ret|].
  apply quiet_bind; [apply quiet_gets | intros s0].
  apply quiet_bind; [repeat quiet_step | intros marker].
  apply quiet_bind; [repeat quiet_step | intros _].
  apply quiet_bind; [apply quiet_lift | intros alpha].
  destruct (negb alpha); [apply quiet_errorFromEvent|].
  destruct (Ttapi.find_handler _) as [h|]; [|apply quiet_errorFromEvent].
  apply quiet_finally; [|repeat quiet_step].
  apply quiet_on_exception; [|apply quiet_errorFromEvent].
  apply quiet_bind; [apply quiet_emit | intros _].
  apply quiet_bind; [apply quiet_run_handler | intros handled].
  destruct handled; [apply quiet_ret | apply quiet_outputFromEvent].
Qed.

Lemma keeps_set_conn (c c' : Ttapi.Conn) (s : Ttapi.Session) :
  Ttapi.conn s = Some c -> keeps_counter s (Ttapi.set_conn (Some c') s).
Proof.
  intros Hc. split; [reflexivity|]. split.
  - intros _. split; [|reflexivity]. unfold alive. now rewrite Hc.
  - exists []. cbn. now rewrite app_nil_r.
Qed.

Lemma quiet_after_set_conn (A : Type) (c c' : Ttapi.Conn) (k : Ttapi.M A) (s : Ttapi.Session) :
  Ttapi.conn s = Some c -> quiet k ->
  keeps_counter s (fst (Ttapi.bind (Ttapi.modify (Ttapi.set_conn (Some c'))) (fun _ => k) s)).
Proof.
  intros Hc Hk. unfold Ttapi.bind, Ttapi.modify.
  eapply keeps_trans; [apply (keeps_set_conn c c' s Hc) | apply Hk].
Qed.

Lemma quiet_conn_disconnect (reason : string) : quiet (Ttapi.conn_disconnect fs os other reason).
Proof.
  intros s. unfold Ttapi.conn_disconnect, Ttapi.bind at 1, Ttapi.gets at 1.
  destruct (Ttapi.conn s) as [c|] eqn:Hc; [|apply keeps_refl].
  destruct (negb (Ttapi.callback c)); [apply keeps_refl|].
  apply quiet_after_set_conn with (c := c); [exact Hc|].
  repeat first [apply quiet_processLine | quiet_step].
Qed.

Lemma quiet_watcher_line (line : string) : quiet (Ttapi.watcher_line fs os other line).
Proof.
  intros s. unfold Ttapi.watcher_line, Ttapi.bind at 1, Ttapi.gets at 1.
  destruct (Ttapi.conn s) as [c|] eqn:Hc; [|apply keeps_refl].
  destruct (line =? EmptyString); [apply quiet_conn_disconnect|].
  cbv zeta.
  destruct (Ttapi.shuttingDown c); [apply quiet_conn_disconnect|].
  repeat match goal with
         | |- context [if ?b then _ else _] => destruct b
         end;
    first [ apply keeps_refl
          | apply quiet_processLine
          | apply quiet_after_set_conn with (c := c); [exact Hc|];
            first [apply quiet_processLine | apply quiet_ret] ].
Qed.

Lemma quiet_await (arrivals : list string) : quiet (Ttapi.await fs os other arrivals).
Proof.
  induction arrivals as [|line rest IH]; intros s; cbn [Ttapi.await].
  - apply keeps_refl.
  - destruct (Ttapi.ev_idblockDone s); [apply keeps_refl|].
    pose proof (quiet_watcher_line line s) as Hw.
    destruct (Ttapi.watcher_line fs os other line s) as [s' [u|e]]; cbn in Hw |- *.
    + eapply keeps_trans; [exact Hw | apply IH].
    + exact Hw.
Qed.


Lemma quiet_send (line : string) (sock : bool) : quiet (Ttapi.send fs os other line sock).
Proof.
  unfold Ttapi.send.
  repeat first [apply quiet_conn_disconnect | quiet_step].
Qed.

Lemma quiet_disconnect : quiet (Ttapi.disconnect fs os other).
Proof.
  unfold Ttapi.disconnect.
  apply quiet_bind; [apply quiet_gets | intros c].
  apply quiet_bind; [destruct c; [apply quiet_conn_disconnect | apply quiet_ret] | intros _].
  intros s. unfold Ttapi.bind at 1, Ttapi.gets at 1.
  destruct (Ttapi.conn s) as [c'|] eqn:Hc.
  - apply quiet_after_set_conn with (c := c'); [exact Hc | apply quiet_clear].
  - unfold Ttapi.bind, Ttapi.ret. apply quiet_clear.
Qed.

Lemma quiet_stopCollecting : quiet Ttapi._stopCollecting.
Proof.
  unfold Ttapi._stopCollecting.
  repeat first [quiet_step | apply quiet_modify; intros ?; keeps_field].
Qed.


Lemma sendWithWait_step (line : string) (rr sock : bool) (arrivals : list string)
  (s s' : Ttapi.Session) (o : Outcome (option (list Parmline.ParmLine))) :
  Ttapi.sendWithWait fs os other line rr sock arrivals s = (s', o) ->
  Ttapi.maxID s' = Ttapi.maxID s /\
  (forall v, o = Returned v ->
     alive s /\
     (alive s' -> Ttapi.curID s' = next_id s) /\
     exists es,
       Ttapi.effects s'
       = Ttapi.effects s
         ++ Ttapi.ESockSend
              (rstrip (rstrip line ++ " id=" ++ of_int (next_id s))%string ++ Ttapi.CRLF)%string
            :: es).
Proof.
  unfold Ttapi.sendWithWait.
  unfold Ttapi.bind at 1. unfold Ttapi.modify at 1. cbv beta iota.
  unfold Ttapi.bind at 1. unfold Ttapi.modify at 1. cbv beta iota.
  unfold Ttapi.bind at 1. unfold Ttapi.gets at 1. cbv beta iota zeta.
  unfold Ttapi.bind at 1. unfold Ttapi.modify at 1. cbv beta iota.
  set (sp := if (Ttapi.maxID _ <? _)%Z then _ else _).
  assert (Hid : Ttapi.curID sp = next_id s).
  { unfold sp, next_id. cbn. now destruct (Ttapi.maxID s <? Ttapi.curID s + 1)%Z. }
  assert (Hmax : Ttapi.maxID sp = Ttapi.maxID s).
  { unfold sp. cbn. now destruct (Ttapi.maxID s <? Ttapi.curID s + 1)%Z. }
  assert (Hconn : Ttapi.conn sp = Ttapi.conn s).
  { unfold sp. cbn. now destruct (Ttapi.maxID s <? Ttapi.curID s + 1)%Z. }
  assert (Heff : Ttapi.effects sp = Ttapi.effects s).
  { unfold sp. cbn. now destruct (Ttapi.maxID s <? Ttapi.curID s + 1)%Z. }
  rewrite Hid. clearbody sp.
  set (s2 := if rr
             then Ttapi.set_collecting 1
                    (Ttapi.set_outputCollection []
                       (Ttapi.set_waitID (next_id s)
                          (Ttapi.set_ev_idblockDone false (Ttapi.set_ev_idblockDone false sp))))
             else Ttapi.set_waitID (next_id s) (Ttapi.set_ev_idblockDone false sp)).
  assert (H2 : Ttapi.curID s2 = next_id s /\ Ttapi.maxID s2 = Ttapi.maxID s
               /\ Ttapi.conn s2 = Ttapi.conn s /\ Ttapi.effects s2 = Ttapi.effects s).
  { unfold s2. destruct rr; cbn; auto. }
  destruct H2 as (Hid2 & Hmax2 & Hconn2 & Heff2).
  match goal with
  | |- context [Ttapi.bind (if rr then _ else _) ?k ?x] =>
      replace (Ttapi.bind (if rr then _ else _) k x) with (k tt s2)
        by (unfold s2; destruct rr; reflexivity)
  end.
  clearbody s2. cbv beta.
  set (text := (rstrip line ++ " id=" ++ of_int (next_id s))%string).
  unfold Ttapi.bind at 1.
  unfold Ttapi.send at 1. unfold Ttapi.bind at 1, Ttapi.gets at 1. cbv beta iota.
  rewrite Hconn2.
  destruct (Ttapi.conn s) as [c|] eqn:Hc.
  2:{ cbn. intros H. injection H as <- <-. split; [congruence | discriminate]. }
  destruct sock.
  - unfold Ttapi.modify at 1. cbv beta iota.
    match goal with
    | |- context [Ttapi.bind (Ttapi.await fs os other arrivals) ?k] =>
        assert (Hq : quiet (Ttapi.bind (Ttapi.await fs os other arrivals) k))
    end.
    { apply quiet_bind; [apply quiet_await | intros done].
      apply quiet_bind.
      - destruct done; [apply quiet_ret|].
        apply quiet_bind; [apply quiet_errorFromEvent | intros _].
        apply quiet_modify. intros ?. keeps_field.
      - intros _. destruct rr; [|apply quiet_ret].
        apply quiet_bind; [apply quiet_stopCollecting | intros ?; apply quiet_ret]. }
    intros H.
    destruct (Hq (Ttapi.emit (Ttapi.ESockSend (rstrip text ++ Ttapi.CRLF)%string) s2))
      as (M1 & A1 & es & E1).
    rewrite H in M1, A1, E1. cbn [fst] in M1, A1, E1.
    split; [cbn in M1; congruence|].
    intros v _. split; [unfold alive; congruence|]. split.
    + intros Ha. destruct (A1 Ha) as [_ C1]. cbn in C1. congruence.
    + exists es. rewrite E1. cbn. rewrite Heff2. now rewrite <- app_assoc.
  - pose proof (quiet_conn_disconnect "Error during send" s2) as Hd.
    unfold Ttapi.bind at 1.
    destruct (Ttapi.conn_disconnect fs os other "Error during send" s2) as [s3 [u|e]];
      cbn in Hd.
    + unfold Ttapi.raise. cbv beta iota.
      pose proof (quiet_disconnect s3) as Hd2.
      destruct (Ttapi.disconnect fs os other s3) as [s4 [u'|e']]; cbn in Hd2 |- *;
        intros H; injection H as <- <-;
        (split; [|discriminate]);
        destruct (keeps_trans _ _ _ Hd Hd2) as (M1 & _); congruence.
    + cbv beta iota.
      destruct e;
        try (cbn; intros H; injection H as <- <-;
             split; [destruct Hd as (M1 & _); congruence | discriminate]).
      pose proof (quiet_disconnect s3) as Hd2.
      destruct (Ttapi.disconnect fs os other s3) as [s4 [u'|e']]; cbn in Hd2 |- *;
        intros H; injection H as <- <-;
        (split; [|discriminate]);
        destruct (keeps_trans _ _ _ Hd Hd2) as (M1 & _); congruence.
Qed.

Lemma id_at_range (c : Z) (k : nat) : (1 <= id_at c k <= 127)%Z.
Proof.
  unfold id_at. pose proof (Z.mod_pos_bound (c + Z.of_nat k) 127 eq_refl). lia.
Qed.

Lemma id_at_succ (c : Z) (k : nat) :
  id_at c (S k) = if (127 <? id_at c k + 1)%Z then 1%Z else (id_at c k + 1)%Z.
Proof.
  unfold id_at. rewrite Nat2Z.inj_succ.
  replace (c + Z.succ (Z.of_nat k))%Z with ((c + Z.of_nat k) + 1)%Z by lia.
  pose proof (Z.mod_pos_bound (c + Z.of_nat k) 127 eq_refl) as Hb.
  rewrite Z.add_mod by discriminate.
  set (m := ((c + Z.of_nat k) mod 127)%Z) in *.
  change (1 mod 127)%Z with 1%Z.
  destruct (Z.eq_dec m 126) as [->|Hm]; [reflexivity|].
  rewrite Z.mod_small by lia.
  destruct (Z.ltb_spec 127 (m + 1 + 1)); [lia | reflexivity].
Qed.

Lemma id_at_first (s : Ttapi.Session) :
  Ttapi.maxID s = 127%Z -> (0 <= Ttapi.curID s <= 127)%Z ->
  next_id s = id_at (Ttapi.curID s) 0.
Proof.
  intros Hm Hc. unfold next_id, id_at. rewrite Hm. cbn [Z.of_nat]. rewrite Z.add_0_r.
  destruct (Z.ltb_spec 127 (Ttapi.curID s + 1)).
  - replace (Ttapi.curID s) with 127%Z by lia. reflexivity.
  - rewrite Z.mod_small by lia. reflexivity.
Qed.

Lemma rstrip_app (a b : string) :
  rstrip b = b -> b <> EmptyString -> rstrip (a ++ b)%string = (a ++ b)%string.
Proof.
  intros Hb Hn. induction a as [|ch a IH]; [exact Hb|].
  cbn [append rstrip]. rewrite IH.
  destruct (a ++ b)%string eqn:E; [|reflexivity].
  destruct a; [cbn in E; congruence | discriminate].
Qed.

Lemma rstrip_id (n : nat) :
  (n <= 127)%nat ->
  rstrip (" id=" ++ of_int (Z.of_nat n))%string = (" id=" ++ of_int (Z.of_nat n))%string.
Proof.
  intros Hn.
  do 128 (destruct n as [|n]; [vm_compute; reflexivity|]).
  lia.
Qed.

Lemma rstrip_frame (line : string) (id : Z) :
  (1 <= id <= 127)%Z ->
  (rstrip (rstrip line ++ " id=" ++ of_int id) ++ Ttapi.CRLF)%string = frame line id.
Proof.
  intros Hid. unfold frame.
  assert (Hr : rstrip (" id=" ++ of_int id)%string = (" id=" ++ of_int id)%string).
  { rewrite <- (Z2Nat.id id) by lia. apply rstrip_id. lia. }
  rewrite rstrip_app; [|exact Hr|discriminate].
  now rewrite <- !append_assoc.
Qed.

Lemma sends_from (c : Z) (reqs : list Request) :
  forall (k : nat) (s : Ttapi.Session),
    Ttapi.maxID s = 127%Z ->
    (alive s -> next_id s = id_at c k) ->
    snd (sends fs os other reqs s) = Returned tt ->
    exists added,
      Ttapi.effects (fst (sends fs os other reqs s)) = Ttapi.effects s ++ added /\
      sent_in_order c k reqs added.
Proof.
  induction reqs as [|r rest IH]; intros k s Hm Hn Hr.
  - exists []. cbn. rewrite app_nil_r. split; [reflexivity | constructor].
  - cbn [sends] in Hr |- *. unfold Ttapi.bind in Hr |- *.
    destruct (Ttapi.sendWithWait fs os other (req_line r) (req_results r) (req_sock r)
                (req_arrivals r) s) as [s1 o] eqn:E.
    destruct (sendWithWait_step _ _ _ _ _ _ _ E) as [Hm1 Hs].
    destruct o as [v|e]; [|discriminate].
    destruct (Hs v eq_refl) as (Ha & Hc & es & He).
    rewrite (Hn Ha) in Hc, He.
    destruct (IH (S k) s1) as (added & Ea & Hi).
    + congruence.
    + intros Ha1. unfold next_id. rewrite (Hc Ha1), Hm1, Hm. symmetry. apply id_at_succ.
    + exact Hr.
    + exists (Ttapi.ESockSend (frame (req_line r) (id_at c k)) :: es ++ added). split.
      * rewrite Ea, He. rewrite (rstrip_frame _ (id_at c k) (id_at_range c k)).
        rewrite <- app_assoc. reflexivity.
      * now constructor.
Qed.

(** C3.  In a session whose [maxID] is 127 and whose [curID] lies between 0
    and 127, as [__init__] and [clear] leave it, let a client make any
    number of calls of [sendWithWait] that all return, whatever arrives
    during each.  Then the effects hold the frames of the requests in
    their order, and request number [k] carries the id
    [(curID + k) mod 127 + 1]: the first id is [curID + 1], or 1 after 127;
    every id lies between 1 and 127, and each is its predecessor plus 1,
    or 1 after 127. *)
Theorem C3_id_cycling (reqs : list Request) (s : Ttapi.Session) :
  Ttapi.maxID s = 127%Z ->
  (0 <= Ttapi.curID s <= 127)%Z ->
  snd (sends fs os other reqs s) = Returned tt ->
  (exists added,
     Ttapi.effects (fst (sends fs os other reqs s)) = Ttapi.effects s ++ added /\
     sent_in_order (Ttapi.curID s) 0 reqs added) /\
  id_at (Ttapi.curID s) 0 = (if (Ttapi.curID s =? 127)%Z then 1 else Ttapi.curID s + 1)%Z /\
  (forall k,
     (1 <= id_at (Ttapi.curID s) k <= 127)%Z /\
     id_at (Ttapi.curID s) (S k)
     = (if (id_at (Ttapi.curID s) k =? 127)%Z then 1 else id_at (Ttapi.curID s) k + 1)%Z).
Proof.
  intros Hm Hc Hr. split; [|split].
  - apply sends_from; [exact Hm | intros _; now apply id_at_first | exact Hr].
  - rewrite <- (id_at_first s Hm Hc). unfold next_id. rewrite Hm.
    destruct (Z.eqb_spec (Ttapi.curID s) 127) as [->|Hne]; [reflexivity|].
    destruct (Z.ltb_spec 127 (Ttapi.curID s + 1)); [lia | reflexivity].
  - intros k. split; [apply id_at_range|].
    rewrite id_at_succ. pose proof (id_at_range (Ttapi.curID s) k).
    destruct (Z.eqb_spec (id_at (Ttapi.curID s) k) 127) as [->|Hne]; [reflexivity|].
    destruct (Z.ltb_spec 127 (id_at (Ttapi.curID s) k + 1)); [lia | reflexivity].
Qed.

End CorrelatedSends.

Lemma event_other0_quiet (h : Ttapi.Handler) (parms : AttrDict.t) : quiet (event_other0 h parms).
Proof. intros s. split; [reflexivity|]. split; [auto|]. exists []. cbn. now rewrite app_nil_r. Qed.

Lemma C3_id_cycling_witness :
  exists added,
    Ttapi.effects (fst (sends float_str0 object_str0 event_other0 three_hundred session0))
    = (Ttapi.effects session0 ++ added)%list /\
    sent_in_order 0 0 three_hundred added.
Proof.
  apply (C3_id_cycling float_str0 object_str0 event_other0 event_other0_quiet
           three_hundred session0).
  - reflexivity.
  - cbn. lia.
  - vm_compute. reflexivity.
Defined.

(** ** The codec on plain texts *)

Lemma replace_char_step (c : ascii) (new : string) (d : ascii) (r : string) :
  replace_from (chr c) new 0 (String d r)
  = ((if (d =? c)%char then new else chr d) ++ replace_from (chr c) new 0 r)%string.
Proof.
  cbn [replace_from prefix chr String.length Nat.sub].
  destruct (Ascii.ascii_dec c d) as [->|Hne].
  - rewrite Ascii.eqb_refl. destruct r; reflexivity.
  - assert ((d =? c)%char = false) as -> by (apply Ascii.eqb_neq; congruence).
    reflexivity.
Qed.

Lemma replace_pair_step (x : ascii) (new : string) (d : ascii) (r : string) :
  replace_from (String backslash (String x EmptyString)) new 0 (String d r)
  = if (d =? backslash)%char && starts x r
    then (new ++ replace_from (String backslash (String x EmptyString)) new 0 (drop 1 r))%string
    else String d (replace_from (String backslash (String x EmptyString)) new 0 r).
Proof.
  cbn [replace_from prefix String.length Nat.sub].
  destruct (Ascii.ascii_dec backslash d) as [<-|Hne].
  - rewrite Ascii.eqb_refl. cbn [andb]. destruct r as [|e r]; [reflexivity|].
    cbn [starts drop prefix].
    destruct (Ascii.ascii_dec x e) as [<-|Hx].
    + rewrite Ascii.eqb_refl. destruct r; reflexivity.
    + assert ((e =? x)%char = false) as -> by (apply Ascii.eqb_neq; congruence).
      reflexivity.
  - assert ((d =? backslash)%char = false) as -> by (apply Ascii.eqb_neq; congruence).
    reflexivity.
Qed.

Lemma replace_char_app (c : ascii) (new a b : string) :
  replace_from (chr c) new 0 (a ++ b)
  = (replace_from (chr c) new 0 a ++ replace_from (chr c) new 0 b)%string.
Proof.
  induction a as [|d a IH]; [reflexivity|].
  cbn [append]. rewrite !replace_char_step, IH. now rewrite append_assoc.
Qed.

(** The three cases of a character for the codec. *)
Lemma codec_cases (c : ascii) :
  c = backslash \/ c = LF \/ c = CR \/
  ((c =? backslash)%char = false /\ (c =? LF)%char = false /\ (c =? CR)%char = false).
Proof.
  destruct (Ascii.eqb_spec c backslash); [now left|].
  destruct (Ascii.eqb_spec c LF); [now right; left|].
  destruct (Ascii.eqb_spec c CR); [now right; right; left|].
  right; right; right. repeat split.
Qed.

Ltac codec_case c :=
  destruct (codec_cases c) as [-> | [-> | [-> | (Hb & Hl & Hc)]]].

Lemma escape_other (bs lf cr : bool) (c : ascii) :
  (c =? backslash)%char = false -> (c =? LF)%char = false -> (c =? CR)%char = false ->
  escape bs lf cr c = chr c.
Proof.
  intros Hb Hl Hc. unfold escape. rewrite Hb, Hl, Hc. now rewrite !andb_false_r.
Qed.

Lemma encode_each (raw : string) : Parmline.encode raw = each (escape true true true) raw.
Proof.
  unfold Parmline.encode, replace, chr.
  assert (H1 : forall s, replace_from (chr backslash) (String backslash (chr backslash)) 0 s
                         = each (escape true false false) s).
  { induction s as [|c s IH]; [reflexivity|].
    rewrite replace_char_step, IH. cbn [each].
    codec_case c; reflexivity. }
  assert (H2 : forall s, replace_from (chr LF) (String backslash "n") 0
                           (each (escape true false false) s)
                         = each (escape true true false) s).
  { induction s as [|c s IH]; [reflexivity|].
    cbn [each]. rewrite replace_char_app, IH.
    codec_case c; try reflexivity.
    rewrite !escape_other by assumption. change (chr c) with (String c EmptyString).
    rewrite replace_char_step, Hl. reflexivity. }
  assert (H3 : forall s, replace_from (chr CR) (String backslash "r") 0
                           (each (escape true true false) s)
                         = each (escape true true true) s).
  { induction s as [|c s IH]; [reflexivity|].
    cbn [each]. rewrite replace_char_app, IH.
    codec_case c; try reflexivity.
    rewrite !escape_other by assumption. change (chr c) with (String c EmptyString).
    rewrite replace_char_step, Hc. reflexivity. }
  change (String backslash EmptyString) with (chr backslash).
  change (String LF EmptyString) with (chr LF).
  change (String CR EmptyString) with (chr CR).
  now rewrite H1, H2, H3.
Qed.

Lemma escape_backslash (bs lf cr : bool) :
  escape bs lf cr backslash = if bs then String backslash (chr backslash) else chr backslash.
Proof. destruct bs, lf, cr; reflexivity. Qed.

Lemma escape_LF (bs lf cr : bool) :
  escape bs lf cr LF = if lf then String backslash "n" else chr LF.
Proof. destruct bs, lf, cr; reflexivity. Qed.

Lemma escape_CR (bs lf cr : bool) :
  escape bs lf cr CR = if cr then String backslash "r" else chr CR.
Proof. destruct bs, lf, cr; reflexivity. Qed.

Lemma starts_each (bs lf cr : bool) (x : ascii) (s : string) :
  (x =? backslash)%char = false -> (x =? LF)%char = false -> (x =? CR)%char = false ->
  starts x (each (escape bs lf cr) s) = starts x s.
Proof.
  intros Hxb Hxl Hxc. destruct s as [|c s]; [reflexivity|]. cbn [each starts].
  codec_case c.
  - rewrite escape_backslash. destruct bs; reflexivity.
  - rewrite escape_LF. destruct lf; [|reflexivity]. cbn [append starts].
    now rewrite (Ascii.eqb_sym backslash x), (Ascii.eqb_sym LF x), Hxb, Hxl.
  - rewrite escape_CR. destruct cr; [|reflexivity]. cbn [append starts].
    now rewrite (Ascii.eqb_sym backslash x), (Ascii.eqb_sym CR x), Hxb, Hxc.
  - rewrite escape_other by assumption. reflexivity.
Qed.

Lemma plain_backslash (r : string) :
  plain (String backslash r) = true ->
  starts "n" r = false /\ starts "r" r = false /\ plain r = true.
Proof.
  cbn [plain]. rewrite Ascii.eqb_refl. intros H. apply andb_prop in H. destruct H as [H1 H2].
  destruct r as [|d r]; [now repeat split|].
  apply negb_true_iff, orb_false_elim in H1. cbn [starts]. tauto.
Qed.

Lemma plain_tail (c : ascii) (r : string) : plain (String c r) = true -> plain r = true.
Proof. cbn [plain]. intros H. apply andb_prop in H. tauto. Qed.

Lemma decode_pass1 (raw : string) :
  replace_from (String backslash (chr backslash)) (chr backslash) 0
    (each (escape true true true) raw)
  = each (escape false true true) raw.
Proof.
  unfold chr. induction raw as [|c raw IH]; [reflexivity|]. cbn [each].
  codec_case c.
  - rewrite !escape_backslash. cbn [append chr].
    rewrite replace_pair_step. cbn [starts drop]. rewrite Ascii.eqb_refl. cbn [andb append].
    now rewrite IH.
  - rewrite !escape_LF. cbn [append chr].
    rewrite replace_pair_step. cbn [starts]. rewrite andb_false_r.
    rewrite replace_pair_step. cbn [andb]. now rewrite IH.
  - rewrite !escape_CR. cbn [append chr].
    rewrite replace_pair_step. cbn [starts]. rewrite andb_false_r.
    rewrite replace_pair_step. cbn [andb]. now rewrite IH.
  - rewrite !escape_other by assumption. cbn [append chr].
    rewrite replace_pair_step, Hb. cbn [andb]. now rewrite IH.
Qed.

Lemma decode_pass2 (raw : string) :
  plain raw = true ->
  replace_from (String backslash "r") (chr CR) 0 (each (escape false true true) raw)
  = each (escape false true false) raw.
Proof.
  unfold chr. induction raw as [|c raw IH]; intros Hp; [reflexivity|]. cbn [each].
  codec_case c.
  - destruct (plain_backslash raw Hp) as (_ & Hr & Hp').
    rewrite !escape_backslash. cbn [append chr].
    rewrite replace_pair_step, starts_each, Hr by reflexivity.
    rewrite andb_false_r. cbn [chr]. now rewrite IH.
  - rewrite !escape_LF. cbn [append chr].
    rewrite replace_pair_step. cbn [starts]. rewrite andb_false_r.
    rewrite replace_pair_step. cbn [andb chr]. rewrite IH; [reflexivity|].
    exact (plain_tail _ _ Hp).
  - rewrite !escape_CR. cbn [append chr].
    rewrite replace_pair_step. cbn [starts drop andb append chr]. rewrite IH; [reflexivity|].
    exact (plain_tail _ _ Hp).
  - rewrite !escape_other by assumption. cbn [append chr].
    rewrite replace_pair_step, Hb. cbn [andb chr]. rewrite IH; [reflexivity|].
    exact (plain_tail _ _ Hp).
Qed.

Lemma decode_pass3 (raw : string) :
  plain raw = true ->
  replace_from (String backslash "n") (chr LF) 0 (each (escape false true false) raw) = raw.
Proof.
  unfold chr. induction raw as [|c raw IH]; intros Hp; [reflexivity|]. cbn [each].
  codec_case c.
  - destruct (plain_backslash raw Hp) as (Hn & _ & Hp').
    rewrite !escape_backslash. cbn [append chr].
    rewrite replace_pair_step, starts_each, Hn by reflexivity.
    rewrite andb_false_r. cbn [chr]. now rewrite IH.
  - rewrite !escape_LF. cbn [append chr].
    rewrite replace_pair_step. cbn [starts drop andb append chr]. rewrite IH; [reflexivity|].
    exact (plain_tail _ _ Hp).
  - rewrite !escape_CR. cbn [append chr].
    rewrite replace_pair_step. cbn [andb chr]. rewrite IH; [reflexivity|].
    exact (plain_tail _ _ Hp).
  - rewrite !escape_other by assumption. cbn [append chr].
    rewrite replace_pair_step, Hb. cbn [andb chr]. rewrite IH; [reflexivity|].
    exact (plain_tail _ _ Hp).
Qed.

(** The codec of string values gives a raw text back when no backslash of
    the text is followed by the letter n or r. *)
Theorem decode_encode (raw : string) :
  plain raw = true -> Parmline.decode (Parmline.encode raw) = raw.
Proof.
  intros Hp. rewrite encode_each. unfold Parmline.decode, replace.
  rewrite decode_pass1.
  rewrite (decode_pass2 raw Hp).
  exact (decode_pass3 raw Hp).
Qed.

Lemma decode_encode_witness :
  Parmline.decode (Parmline.encode ("C:" ++ String backslash ("temp" ++ String LF "done")))
  = "C:" ++ String backslash ("temp" ++ String LF "done").
Proof. apply decode_encode. reflexivity. Defined.

(** ** Records that hold one spelling of the channel id *)

Lemma getitem_channel (d : AttrDict.t) (k : string) :
  lower k = "chanid" \/ lower k = "channelid" ->
  AttrDict.one_channel_key d ->
  AttrDict.__getitem__ d k
  = match PyDict.lookup "chanid" d, PyDict.lookup "channelid" d with
    | Some v, _ => Returned v
    | None, Some v => Returned v
    | None, None => Raised KeyError
    end.
Proof.
  intros Hk H1. unfold AttrDict.__getitem__.
  unfold AttrDict.one_channel_key, AttrDict.mem, PyDict.mem in H1.
  destruct Hk as [-> | ->];
    [change (AttrDict.alias "chanid") with "channelid"
    | change (AttrDict.alias "channelid") with "chanid"];
    destruct (PyDict.lookup "chanid" d), (PyDict.lookup "channelid" d);
    try reflexivity; exfalso; apply H1; split; reflexivity.
Qed.

Lemma channel_no_underscore (k : string) :
  lower k = "chanid" \/ lower k = "channelid" -> startswith k "_" = false.
Proof.
  intros H. destruct k as [|c r]; [destruct H; discriminate|].
  unfold startswith. cbn [prefix].
  destruct (Ascii.ascii_dec "_" c) as [<-|]; [|reflexivity].
  destruct H; discriminate.
Qed.

Lemma getattr_channel (d : AttrDict.t) (k : string) :
  lower k = "chanid" \/ lower k = "channelid" ->
  AttrDict.one_channel_key d ->
  AttrDict.__getattr__ d k
  = match PyDict.lookup "chanid" d, PyDict.lookup "channelid" d with
    | Some v, _ => Returned v
    | None, Some v => Returned v
    | None, None => Returned VNone
    end.
Proof.
  intros Hk H1. unfold AttrDict.__getattr__.
  rewrite (getitem_channel d k Hk H1), (channel_no_underscore k Hk).
  rewrite (getitem_channel d "chanid" (or_introl eq_refl) H1).
  rewrite (getitem_channel d "channelid" (or_intror eq_refl) H1).
  destruct (PyDict.lookup "chanid" d), (PyDict.lookup "channelid" d); try reflexivity.
  destruct (k =? "channelid"); [reflexivity|]. destruct (k =? "chanid"); reflexivity.
Qed.

Lemma get_channel (d : AttrDict.t) (k : string) (v0 : PyVal) :
  lower k = "chanid" \/ lower k = "channelid" ->
  AttrDict.one_channel_key d ->
  AttrDict.get d k v0
  = match PyDict.lookup "chanid" d, PyDict.lookup "channelid" d with
    | Some v, _ => v
    | None, Some v => v
    | None, None => v0
    end.
Proof.
  intros Hk H1. unfold AttrDict.get. cbv zeta.
  unfold AttrDict.one_channel_key, AttrDict.mem, PyDict.mem in H1.
  destruct Hk as [-> | ->];
    [change (AttrDict.alias "chanid") with "channelid"
    | change (AttrDict.alias "channelid") with "chanid"];
    destruct (PyDict.lookup "chanid" d), (PyDict.lookup "channelid" d);
    try reflexivity; exfalso; apply H1; split; reflexivity.
Qed.

(** In a record that does not hold both spellings, the two read alike, by
    item, by attribute and by [get], in any letter case. *)
Theorem alias_reads_agree (d : AttrDict.t) (k1 k2 : string) :
  AttrDict.one_channel_key d ->
  lower k1 = "chanid" -> lower k2 = "channelid" ->
  AttrDict.__getitem__ d k1 = AttrDict.__getitem__ d k2 /\
  AttrDict.__getattr__ d k1 = AttrDict.__getattr__ d k2 /\
  (forall v0, AttrDict.get d k1 v0 = AttrDict.get d k2 v0).
Proof.
  intros H1 Hk1 Hk2. split; [|split].
  - now rewrite (getitem_channel d k1), (getitem_channel d k2) by auto.
  - now rewrite (getattr_channel d k1), (getattr_channel d k2) by auto.
  - intros v0. now rewrite (get_channel d k1), (get_channel d k2) by auto.
Qed.

Lemma mem_remove_true (k k' : string) (d : AttrDict.t) :
  PyDict.mem k' (PyDict.remove k d) = true -> PyDict.mem k' d = true.
Proof.
  unfold PyDict.mem. destruct (String.eqb_spec k k') as [->|Hne].
  - now rewrite lookup_remove_eq.
  - now rewrite lookup_remove_ne.
Qed.

(** Attribute assignment under either spelling as the code writes it, or
    under any other field name, never makes a record hold both. *)
Theorem setattr_one_key (d : AttrDict.t) (k : string) (v : PyVal) :
  AttrDict.one_channel_key d ->
  k = "chanid" \/ k = "channelid" \/ (lower k <> "chanid" /\ lower k <> "channelid") ->
  AttrDict.one_channel_key (AttrDict.__setattr__ d k v).
Proof.
  intros H1 Hk. unfold AttrDict.__setattr__.
  destruct (startswith k "_"); [exact H1|].
  assert (Hdel : AttrDict.one_channel_key
                   match AttrDict.__delitem__ d k with Returned d' => d' | Raised _ => d end).
  { unfold AttrDict.__delitem__. cbv zeta.
    destruct (PyDict.mem (lower k) d).
    - intros [A B]. apply H1. split; eapply mem_remove_true; eassumption.
    - destruct (PyDict.mem (AttrDict.alias (lower k)) d); [|exact H1].
      intros [A B]. apply H1. split; eapply mem_remove_true; eassumption. }
  assert (Hset : AttrDict.one_channel_key
                   (AttrDict.__setitem__ d
                      (if (k =? "channelid") && AttrDict.mem "chanid" d then "chanid"
                       else if (k =? "chanid") && AttrDict.mem "channelid" d then "channelid"
                       else k) v)).
  { unfold AttrDict.__setitem__, AttrDict.one_channel_key, AttrDict.mem in *.
    destruct Hk as [-> | [-> | [Hn1 Hn2]]].
    - cbn [String.eqb Ascii.eqb Bool.eqb andb].
      destruct (PyDict.mem "channelid" d) eqn:E2; cbn [andb].
      + change (lower "channelid") with "channelid".
        rewrite mem_store_eq, mem_store_ne by discriminate.
        intros [A B]. apply H1. now split.
      + change (lower "chanid") with "chanid".
        rewrite mem_store_eq, mem_store_ne by discriminate.
        intros [A B]. congruence.
    - cbn [String.eqb Ascii.eqb Bool.eqb andb].
      destruct (PyDict.mem "chanid" d) eqn:E2; cbn [andb].
      + change (lower "chanid") with "chanid".
        rewrite mem_store_eq, mem_store_ne by discriminate.
        intros [A B]. apply H1. now split.
      + change (lower "channelid") with "channelid".
        rewrite mem_store_eq, mem_store_ne by discriminate.
        intros [A B]. congruence.
    - assert (E1 : (k =? "channelid") = false).
      { apply String.eqb_neq. intros ->. now apply Hn2. }
      assert (E2 : (k =? "chanid") = false).
      { apply String.eqb_neq. intros ->. now apply Hn1. }
      rewrite E1, E2. cbn [andb].
      rewrite !mem_store_ne by assumption. exact H1. }
  destruct v; try exact Hset. exact Hdel.
Qed.

Lemma alias_reads_agree_witness :
  AttrDict.__getitem__ [("userid", VStr "7"); ("chanid", VStr "3")] "ChanID"
  = AttrDict.__getitem__ [("userid", VStr "7"); ("chanid", VStr "3")] "channelid".
Proof.
  apply (alias_reads_agree [("userid", VStr "7"); ("chanid", VStr "3")] "ChanID" "channelid").
  - intros [_ H]. discriminate H.
  - reflexivity.
  - reflexivity.
Defined.

Lemma setattr_one_key_witness :
  AttrDict.one_channel_key
    (AttrDict.__setattr__ [("userid", VStr "7"); ("chanid", VStr "3")] "channelid" (VStr "4")).
Proof.
  apply setattr_one_key.
  - intros [_ H]. discriminate H.
  - right. left. reflexivity.
Defined.

(** ** When [updateParms] returns *)

Lemma keep_preserved_returns (preserve : list string) (old : AttrDict.t) :
  Forall (fun k => PyDict.mem k old = true) preserve ->
  forall acc, snd (Ttapi.keep_preserved preserve old acc) = Returned tt.
Proof.
  induction 1 as [|k rest Hk _ IH]; intros acc; cbn [Ttapi.keep_preserved]; [reflexivity|].
  unfold PyDict.mem in Hk. destruct (PyDict.lookup k old); [apply IH | discriminate].
Qed.

(** [updateParms] returns when the record exists, every preserved key is in
    it, and the update does not call for the channel path. *)
Theorem updateParms_returns fs os fuel now t newParms preserve s old :
  Ttapi.read_target t s = Returned old ->
  Forall (fun k => PyDict.mem k old = true) preserve ->
  (AttrDict.mem "parentid" newParms && AttrDict.mem "chanid" old)
  || AttrDict.mem "name" newParms = false ->
  snd (Ttapi.updateParms_silent fs os fuel now t newParms preserve s) = Returned tt.
Proof.
  intros Hold Hp Hb. unfold Ttapi.updateParms_silent.
  unfold Ttapi.bind at 1. unfold Ttapi.gets at 1.
  unfold Ttapi.bind at 1. unfold Ttapi.lift at 1. rewrite Hold, Hb.
  unfold Ttapi.bind at 1.
  assert (H1 : exists kept,
             match preserve with
             | [] => Ttapi.ret tt
             | _ :: _ =>
                 let (kept, o) := Ttapi.keep_preserved preserve old AttrDict.empty in
                 Ttapi.bind (Ttapi.modify (Ttapi.write_target t kept))
                   (fun _ : unit => Ttapi.lift o)
             end s = (Ttapi.write_target t kept s, Returned tt)
             \/ match preserve with
                | [] => Ttapi.ret tt
                | _ :: _ =>
                    let (kept, o) := Ttapi.keep_preserved preserve old AttrDict.empty in
                    Ttapi.bind (Ttapi.modify (Ttapi.write_target t kept))
                      (fun _ : unit => Ttapi.lift o)
                end s = (s, Returned tt)).
  { destruct preserve as [|k rest]; [exists old; now right|].
    pose proof (keep_preserved_returns (k :: rest) old Hp AttrDict.empty) as Hk.
    destruct (Ttapi.keep_preserved (k :: rest) old AttrDict.empty) as [kept o].
    cbn in Hk. subst o. exists kept. now left. }
  destruct H1 as (kept & [-> | ->]).
  - unfold Ttapi.bind, Ttapi.gets, Ttapi.lift, Ttapi.modify, Ttapi.ret.
    rewrite read_write_target. rewrite read_write_target. reflexivity.
  - unfold Ttapi.bind, Ttapi.gets, Ttapi.lift, Ttapi.modify, Ttapi.ret.
    rewrite Hold. rewrite read_write_target. reflexivity.
Qed.

Lemma updateParms_returns_witness :
  snd (Ttapi.updateParms_silent float_str0 object_str0 0 (inject_Z 1000)
         (Ttapi.T_users "5") [("statusmode", VStr "1")] ["userid"] session_with_user5)
  = Returned tt.
Proof.
  apply updateParms_returns with (old := [("userid", VStr "5"); ("statusmode", VStr "0")]).
  - reflexivity.
  - repeat constructor.
  - reflexivity.
Defined.

(** ** Numbers and their texts *)

Lemma digits_of_uint_acc (d : Decimal.uint) (acc : positive) :
  digits_value (Zpos acc) (NilEmpty.string_of_uint d) = Zpos (Pos.of_uint_acc d acc).
Proof.
  revert acc.
  induction d; intros acc; cbn [NilEmpty.string_of_uint digits_value Pos.of_uint_acc];
    [reflexivity | ..]; rewrite <- IHd; f_equal;
    match goal with
    | |- context [digit_value ?c] =>
        let v := eval vm_compute in (digit_value c) in change (digit_value c) with v
    end; lia.
Qed.

Lemma digits_of_uint (d : Decimal.uint) :
  digits_value 0 (NilEmpty.string_of_uint d) = Z.of_uint d.
Proof.
  unfold Z.of_uint.
  induction d; cbn [NilEmpty.string_of_uint digits_value Pos.of_uint];
    [reflexivity | exact IHd | ..];
    match goal with
    | |- digits_value ?z _ = _ => let z' := eval cbn in z in change z with z'
    end; apply digits_of_uint_acc.
Qed.

Lemma digits_all (d : Decimal.uint) : all_chars re_digit (NilEmpty.string_of_uint d) = true.
Proof.
  unfold all_chars. induction d; cbn [NilEmpty.string_of_uint list_ascii_of_string forallb];
    [reflexivity | ..]; rewrite IHd; reflexivity.
Qed.

Lemma uint_nonempty (d : Decimal.uint) :
  d <> Decimal.Nil -> exists c r, NilEmpty.string_of_uint d = String c r /\ re_digit c = true.
Proof.
  destruct d; [congruence | ..]; intros _; cbn [NilEmpty.string_of_uint]; eauto.
Qed.

(** [int(str(n)) == n]. *)
Lemma to_int_of_int (n : Z) : to_int (of_int n) = Returned n.
Proof.
  unfold of_int. destruct n as [|p|p]; [reflexivity | |].
  - cbn [Z.to_int NilEmpty.string_of_int].
    destruct (uint_nonempty (Pos.to_uint p) (DecimalPos.Unsigned.to_uint_nonnil p))
      as (c & r & E & Hc).
    pose proof (digits_all (Pos.to_uint p)) as Ha.
    pose proof (digits_of_uint (Pos.to_uint p)) as Hv.
    rewrite E in Ha, Hv |- *. unfold to_int.
    assert ((c =? "-")%char = false) as ->.
    { apply Ascii.eqb_neq. intros ->. discriminate Hc. }
    rewrite Ha, Hv. unfold Z.of_uint. now rewrite DecimalPos.Unsigned.of_to.
  - cbn [Z.to_int NilEmpty.string_of_int]. unfold to_int. rewrite Ascii.eqb_refl.
    destruct (uint_nonempty (Pos.to_uint p) (DecimalPos.Unsigned.to_uint_nonnil p))
      as (c & r & E & Hc).
    pose proof (digits_all (Pos.to_uint p)) as Ha.
    pose proof (digits_of_uint (Pos.to_uint p)) as Hv.
    rewrite Ha, Hv. rewrite E. cbn [String.eqb negb andb].
    unfold Z.of_uint. now rewrite DecimalPos.Unsigned.of_to.
Qed.

(** [str(n)] of a number that is not negative: digits, at least one. *)
Lemma of_int_digits (n : Z) :
  (0 <= n)%Z -> all_chars re_digit (of_int n) = true /\ of_int n <> EmptyString.
Proof.
  intros Hn. unfold of_int. destruct n as [|p|p]; [split; [reflexivity | discriminate] | | lia].
  cbn [Z.to_int NilEmpty.string_of_int]. split; [apply digits_all|].
  destruct (uint_nonempty (Pos.to_uint p) (DecimalPos.Unsigned.to_uint_nonnil p))
    as (c & r & E & _). rewrite E. discriminate.
Qed.

(** ** Durations *)

Lemma of_int_nonempty (n : Z) : of_int n <> EmptyString.
Proof.
  destruct (Z_lt_le_dec n 0) as [Hn|Hn]; [|exact (proj2 (of_int_digits n Hn))].
  unfold of_int. destruct n; try lia. discriminate.
Qed.

Lemma digits_value_of_int (n : Z) : (0 <= n)%Z -> digits_value 0 (of_int n) = n.
Proof.
  intros Hn. pose proof (to_int_of_int n) as H.
  destruct (of_int_digits n Hn) as [Ha Hne].
  unfold to_int in H. destruct (of_int n) as [|c r] eqn:E; [congruence|].
  destruct (c =? "-")%char eqn:Ec.
  - apply Ascii.eqb_eq in Ec. subst c. discriminate Ha.
  - rewrite Ha in H. congruence.
Qed.

Lemma short_of_int (n : Z) : (String.length (of_int n) < 2)%nat -> (0 <= n)%Z.
Proof.
  intros H. destruct n as [|p|p]; try lia. exfalso.
  unfold of_int in H. cbn [Z.to_int NilEmpty.string_of_int] in H.
  destruct (uint_nonempty (Pos.to_uint p) (DecimalPos.Unsigned.to_uint_nonnil p))
    as (c & r & E & _). rewrite E in H. cbn in H. lia.
Qed.

Lemma to_int_format_02d (n : Z) : to_int (TeamtalkServer.format_02d n) = Returned n.
Proof.
  unfold TeamtalkServer.format_02d. cbv zeta.
  destruct (Nat.ltb_spec (String.length (of_int n)) 2) as [Hl|Hl]; [|apply to_int_of_int].
  pose proof (short_of_int n Hl) as Hn.
  destruct (of_int_digits n Hn) as [Ha _].
  pose proof (digits_value_of_int n Hn) as Hv.
  unfold to_int. cbn [append Ascii.eqb Bool.eqb].
  unfold all_chars in *. cbn [list_ascii_of_string forallb]. rewrite Ha.
  cbn [digits_value]. exact (f_equal _ Hv).
Qed.

Lemma length_format_02d (n : Z) : (2 <= String.length (TeamtalkServer.format_02d n))%nat.
Proof.
  unfold TeamtalkServer.format_02d. cbv zeta.
  destruct (Nat.ltb_spec (String.length (of_int n)) 2) as [Hl|Hl]; [|exact Hl].
  pose proof (of_int_nonempty n). destruct (of_int n); [congruence | cbn; lia].
Qed.

Lemma length_format_02d_small (n : Z) :
  (0 <= n < 60)%Z -> String.length (TeamtalkServer.format_02d n) = 2%nat.
Proof.
  intros Hn. rewrite <- (Z2Nat.id n) by lia.
  assert (H : (Z.to_nat n < 60)%nat) by lia.
  revert H. generalize (Z.to_nat n) as k. intros k Hk.
  do 60 (destruct k as [|k]; [reflexivity|]). lia.
Qed.

(** The text of a duration reads back as the duration: three fields, the
    minutes and the seconds of two digits each and below 60. *)
Theorem secsToTime_reads_back (round_half : Q -> Z) (n : Z) :
  exists hh mm ss h m s,
    TeamtalkServer.secsToTime round_half (VInt n) = Returned (hh ++ ":" ++ mm ++ ":" ++ ss) /\
    to_int hh = Returned h /\ to_int mm = Returned m /\ to_int ss = Returned s /\
    (2 <= String.length hh)%nat /\ String.length mm = 2%nat /\ String.length ss = 2%nat /\
    (0 <= m < 60)%Z /\ (0 <= s < 60)%Z /\
    (h * 3600 + m * 60 + s)%Z = n.
Proof.
  exists (TeamtalkServer.format_02d (n / 60 / 60)), (TeamtalkServer.format_02d (n / 60 mod 60)),
    (TeamtalkServer.format_02d (n mod 60)), (n / 60 / 60)%Z, (n / 60 mod 60)%Z, (n mod 60)%Z.
  pose proof (Z.mod_pos_bound n 60 eq_refl) as Hs.
  pose proof (Z.mod_pos_bound (n / 60) 60 eq_refl) as Hm.
  repeat split; try apply to_int_format_02d; try apply length_format_02d;
    try (apply length_format_02d_small; assumption); try lia.
  pose proof (Z.div_mod n 60). pose proof (Z.div_mod (n / 60) 60). lia.
Qed.

(** ** Addresses *)

Lemma partition_char_app (a b : string) :
  has_char ":" a = false -> partition_char ":" (a ++ String ":" b) = (a, b).
Proof.
  induction a as [|c a IH]; intros H; cbn [append partition_char].
  - reflexivity.
  - cbn [has_char] in H. apply orb_false_elim in H. destruct H as [Hc Ha].
    rewrite Hc, (IH Ha). reflexivity.
Qed.

Lemma has_char_app (c : ascii) (a b : string) :
  has_char c (a ++ b) = has_char c a || has_char c b.
Proof. induction a as [|d a IH]; cbn [append has_char]; [reflexivity|]. now rewrite IH, orb_assoc. Qed.

Lemma partition_str_bracket (a b : string) :
  has_char "]" a = false ->
  TeamtalkServer.partition_str "]:" (a ++ "]:" ++ b) = (a, b).
Proof.
  induction a as [|c a IH]; intros H.
  - cbn [append TeamtalkServer.partition_str prefix].
    destruct (Ascii.ascii_dec "]" "]") as [_|n]; [|congruence].
    destruct (Ascii.ascii_dec ":" ":") as [_|n]; [|congruence].
    now rewrite prefix_nil.
  - cbn [has_char] in H. apply orb_false_elim in H. destruct H as [Hc Ha].
    cbn [append TeamtalkServer.partition_str prefix].
    destruct (Ascii.ascii_dec "]" c) as [<-|_]; [discriminate Hc|].
    cbn [append] in IH. rewrite (IH Ha). reflexivity.
Qed.

Lemma contains_bracket (a b : string) : contains "]:" (a ++ "]:" ++ b) = true.
Proof.
  induction a as [|c a IH].
  - cbn [append contains prefix].
    destruct (Ascii.ascii_dec "]" "]") as [_|n]; [|congruence].
    destruct (Ascii.ascii_dec ":" ":") as [_|n]; [|congruence].
    now rewrite prefix_nil.
  - cbn [append contains]. cbn [append] in IH. rewrite IH. apply orb_true_r.
Qed.

Lemma replace_absent_char (c : ascii) (new s : string) :
  has_char c s = false -> replace (String c EmptyString) new s = s.
Proof.
  unfold replace. induction s as [|d s IH]; intros H; [reflexivity|].
  cbn [has_char] in H. apply orb_false_elim in H. destruct H as [Hd Hs].
  cbn [replace_from prefix String.length Nat.sub].
  destruct (Ascii.ascii_dec c d) as [->|_]; [now rewrite Ascii.eqb_refl in Hd|].
  now rewrite (IH Hs).
Qed.

Lemma no_colon_no_bracket (s : string) :
  has_char ":" s = false -> contains "]:" s = false.
Proof.
  induction s as [|c s IH]; intros H; [reflexivity|].
  cbn [has_char] in H. apply orb_false_elim in H. destruct H as [Hc Hs].
  cbn [contains]. rewrite (IH Hs), orb_false_r. cbn [prefix].
  destruct (Ascii.ascii_dec "]" c) as [_|_]; [|reflexivity].
  destruct s as [|d s]; [reflexivity|]. cbn [prefix].
  destruct (Ascii.ascii_dec ":" d) as [<-|_]; [|reflexivity].
  cbn [has_char] in Hs. now rewrite Ascii.eqb_refl in Hs.
Qed.

(** [addrAndPort] splits what was put together: an address without a
    colon and its port; a bracketed address and its port.  A text without
    any colon cannot be split, and nothing gives two empty texts. *)
Theorem addrAndPort_splits (addr port : string) :
  (has_char ":" addr = false -> contains "]:" (addr ++ ":" ++ port) = false ->
     TeamtalkServer.addrAndPort (VStr (addr ++ ":" ++ port)) = Returned (addr, port)) /\
  (has_char "]" addr = false -> has_char "[" addr = false ->
     TeamtalkServer.addrAndPort (VStr ("[" ++ addr ++ "]:" ++ port)) = Returned (addr, port)) /\
  (has_char ":" addr = false -> addr <> EmptyString ->
     TeamtalkServer.addrAndPort (VStr addr) = Raised ValueError) /\
  TeamtalkServer.addrAndPort (VStr EmptyString) = Returned (EmptyString, EmptyString) /\
  TeamtalkServer.addrAndPort VNone = Returned (EmptyString, EmptyString).
Proof.
  split; [|split; [|split; [|split; reflexivity]]].
  - intros Ha Hb. unfold TeamtalkServer.addrAndPort.
    assert (Ht : truthy (VStr (addr ++ ":" ++ port)) = true).
    { cbn [truthy]. destruct addr; reflexivity. }
    rewrite Ht. cbn [negb]. rewrite Hb.
    rewrite has_char_app. cbn [append has_char]. rewrite Ascii.eqb_refl, orb_true_r.
    now rewrite partition_char_app.
  - intros Ha Hb. unfold TeamtalkServer.addrAndPort. cbn [truthy append String.eqb negb].
    change (String "[" (addr ++ String "]" (String ":" port)))
      with (String "[" addr ++ "]:" ++ port).
    rewrite contains_bracket, partition_str_bracket.
    + change (String "[" addr) with ("[" ++ addr).
      f_equal. f_equal. unfold replace. cbn [append replace_from prefix String.length Nat.sub].
      destruct (Ascii.ascii_dec "[" "[") as [_|n]; [|congruence].
      destruct addr; [reflexivity|]. cbn [append].
      exact (replace_absent_char "[" EmptyString _ Hb).
    + cbn [has_char]. now rewrite Ha.
  - intros Ha Hne. unfold TeamtalkServer.addrAndPort. cbn [truthy].
    assert ((addr =? EmptyString) = false) as -> by now apply String.eqb_neq.
    cbn [negb]. rewrite Ha.
    rewrite (no_colon_no_bracket addr Ha). reflexivity.
Qed.

(** ** Names for printing *)

(** [channelname] of a channel id never gives an empty name, and gives the
    root channel its long name: it raises [KeyError] for an id that is not
    in [channels], [TypeError] for a channel without a path, and otherwise
    returns the path, [/] becoming [the root channel] unless the caller
    keeps it. *)
Theorem channelname_result (s : Ttapi.Session) (id : PyVal) (keep : bool) (v : PyVal) :
  TeamtalkServer.channelname s id false keep = Returned v ->
  truthy v = true /\
  (keep = false -> v <> VStr "/") /\
  exists k ch c,
    id = VStr k /\ PyDict.lookup k (Ttapi.channels s) = Some ch /\
    AttrDict.get ch "channel" VNone = c /\
    v = (if val_is_str c "/" && negb keep then VStr "the root channel" else c).
Proof.
  unfold TeamtalkServer.channelname.
  destruct id as [|k| | | |]; try discriminate.
  destruct (PyDict.lookup k (Ttapi.channels s)) as [ch|] eqn:Hl; [|discriminate].
  cbn [obind].
  assert (Hg : match AttrDict.__getattr__ ch "channel" with
               | Returned v => v
               | Raised _ => VNone
               end = AttrDict.get ch "channel" VNone).
  { unfold AttrDict.__getattr__, AttrDict.__getitem__, AttrDict.get.
    change (lower "channel") with "channel". change (AttrDict.alias "channel") with "channel".
    destruct (PyDict.lookup "channel" ch); reflexivity. }
  rewrite Hg. set (c := AttrDict.get ch "channel" VNone).
  destruct (truthy c) eqn:Ht; [|discriminate]. cbn [negb obind].
  intros H.
  assert (Hv : v = if val_is_str c "/" && negb keep then VStr "the root channel" else c).
  { destruct (val_is_str c "/" && negb keep); now injection H as <-. }
  split; [|split].
  - rewrite Hv. destruct (val_is_str c "/" && negb keep); [reflexivity | exact Ht].
  - intros -> Hs. rewrite Hv in Hs. cbn [negb] in Hs. rewrite andb_true_r in Hs.
    destruct (val_is_str c "/") eqn:Hc; [discriminate Hs|]. subst c. rewrite Hs in Hc.
    discriminate Hc.
  - exists k, ch, c. repeat split; [exact Hl | exact Hv].
Qed.

(** The errors of [channelname]. *)
Lemma channelname_errors (s : Ttapi.Session) (k : string) (keep : bool) :
  (PyDict.lookup k (Ttapi.channels s) = None ->
     TeamtalkServer.channelname s (VStr k) false keep = Raised KeyError) /\
  (forall ch, PyDict.lookup k (Ttapi.channels s) = Some ch ->
     truthy (AttrDict.get ch "channel" VNone) = false ->
     TeamtalkServer.channelname s (VStr k) false keep = Raised TypeError).
Proof.
  unfold TeamtalkServer.channelname. split.
  - intros ->. reflexivity.
  - intros ch -> Ht. cbn [obind].
    assert (Hg : match AttrDict.__getattr__ ch "channel" with
                 | Returned v => v
                 | Raised _ => VNone
                 end = AttrDict.get ch "channel" VNone).
    { unfold AttrDict.__getattr__, AttrDict.__getitem__, AttrDict.get.
      change (lower "channel") with "channel". change (AttrDict.alias "channel") with "channel".
      destruct (PyDict.lookup "channel" ch); reflexivity. }
    rewrite Hg, Ht. reflexivity.
Qed.

Lemma append_nonempty_l (a b : string) : a <> EmptyString -> (a ++ b)%string <> EmptyString.
Proof. destruct a; [congruence | discriminate]. Qed.

Lemma append_nonempty_r (a b : string) : b <> EmptyString -> (a ++ b)%string <> EmptyString.
Proof. destruct a; [now cbn | discriminate]. Qed.

Ltac nonempty :=
  repeat first
    [ discriminate
    | match goal with |- (if ?b then _ else _) <> EmptyString => destruct b end
    | apply append_nonempty_l; (discriminate || assumption)
    | apply append_nonempty_r
    | assumption ].

Lemma nickname_of_record_nonempty (fs : Q -> string) (os : string) (s : Ttapi.Session)
  (user : AttrDict.t) (f i sf : bool) (name : string) :
  Ttapi.nickname_of_record fs os s user f i sf = Returned name -> name <> EmptyString.
Proof.
  unfold Ttapi.nickname_of_record. cbv zeta.
  match goal with |- obind ?m _ = _ -> _ => destruct m as [username|e]; [|discriminate] end.
  cbn [obind].
  destruct (AttrDict.__getattr__ user "userid") as [userid|e]; [|discriminate]. cbn [obind].
  match goal with |- obind ?m _ = _ -> _ => 
    assert (Hn : forall r, m = Returned r -> fst (fst r) <> EmptyString) end.
  { intros r.
    destruct (truthy (AttrDict.get user "nickname" VNone)).
    - destruct (Ttapi.as_str (AttrDict.get user "nickname" VNone)) as [n|e]; [|discriminate].
      cbn [obind]. destruct (truthy username).
      + destruct (Ttapi.as_str username) as [u|e]; [|discriminate]. cbn [obind].
        intros H. injection H as <-. cbn [fst]. discriminate.
      + intros H. injection H as <-. cbn [fst]. discriminate.
    - destruct (truthy username).
      + destruct (Ttapi.as_str username) as [u|e]; [|discriminate]. cbn [obind].
        intros H. injection H as <-. cbn [fst]. discriminate.
      + intros H. injection H as <-. cbn [fst]. discriminate. }
  match goal with |- obind ?m _ = _ -> _ => destruct m as [[[base fd] idInc]|e]; [|discriminate] end.
  specialize (Hn _ eq_refl). cbn [fst] in Hn. cbn [obind].
  match goal with |- obind ?m _ = _ -> _ => 
    assert (Hn2 : forall r, m = Returned r -> r <> EmptyString) end.
  { intros r. destruct i.
    - destruct (AttrDict.__getattr__ user "usertype") as [ut|e]; [|discriminate]. cbn [obind].
      intros H. injection H as <-. apply append_nonempty_r. discriminate.
    - intros H. injection H as <-. exact Hn. }
  match goal with |- obind ?m _ = _ -> _ => destruct m as [nm|e]; [|discriminate] end.
  specialize (Hn2 _ eq_refl). cbn [obind].
  destruct (negb fd); [intros H; now injection H as <-|].
  match goal with |- obind ?m _ = _ -> _ => destruct m as [null1|e]; [|discriminate] end.
  cbn [obind].
  match goal with |- obind ?m _ = _ -> _ => destruct m as [ip|e]; [|discriminate] end.
  cbn [obind]. intros H. injection H as <-.
  destruct idInc; destruct (ip =? EmptyString); nonempty.
Qed.

(** [nonEmptyNickname] keeps its promise: whatever it returns is not the
    empty text; and an id that is not in [users] is shown as
    [<userid id>]. *)
Theorem nonEmptyNickname_nonempty (fs : Q -> string) (os : string) (s : Ttapi.Session)
  (user : Ttapi.UserArg) (f i sf : bool) (name : string) :
  Ttapi.nonEmptyNickname fs os s user f i sf = Returned name ->
  name <> EmptyString /\
  (forall id, user = Ttapi.UVal (VStr id) -> PyDict.lookup id (Ttapi.users s) = None ->
     name = "<userid " ++ id ++ ">").
Proof.
  intros H. split.
  - unfold Ttapi.nonEmptyNickname in H. cbv zeta in H.
    destruct user as [[|id|n|b| |]|u]; try discriminate;
      try (destruct (PyDict.lookup _ (Ttapi.users s));
           [now apply nickname_of_record_nonempty in H | injection H as <-; discriminate]).
    now apply nickname_of_record_nonempty in H.
  - intros id -> Hl. unfold Ttapi.nonEmptyNickname in H. cbv zeta in H. rewrite Hl in H.
    now injection H as <-.
Qed.

Lemma nonEmptyNickname_nonempty_witness : "<nameless user 5>" <> EmptyString.
Proof.
  exact (proj1 (nonEmptyNickname_nonempty float_str0 object_str0 session_with_user5
                  (Ttapi.UVal (VStr "5")) false false false "<nameless user 5>" eq_refl)).
Defined.

(** ** Store, read, delete and pop on an [AttrDict] *)

(** A value stored under a name is read back under that name in any
    letter case, by item, by attribute and by [get]; reading a name that
    is neither that one nor its alias is not affected. *)
Theorem setitem_then_read (d : AttrDict.t) (k k' : string) (v : PyVal) :
  lower k' = lower k ->
  AttrDict.__getitem__ (AttrDict.__setitem__ d k v) k' = Returned v /\
  AttrDict.__getattr__ (AttrDict.__setitem__ d k v) k' = Returned v /\
  (forall default, AttrDict.get (AttrDict.__setitem__ d k v) k' default = v) /\
  (forall other, lower other <> lower k -> AttrDict.alias (lower other) <> lower k ->
     AttrDict.__getitem__ (AttrDict.__setitem__ d k v) other = AttrDict.__getitem__ d other).
Proof.
  intros Hk.
  assert (Hi : AttrDict.__getitem__ (AttrDict.__setitem__ d k v) k' = Returned v).
  { unfold AttrDict.__getitem__, AttrDict.__setitem__. rewrite Hk.
    now rewrite lookup_store_eq. }
  split; [exact Hi|]. split; [|split].
  - unfold AttrDict.__getattr__. now rewrite Hi.
  - intros default. unfold AttrDict.get, AttrDict.__setitem__. cbv zeta. rewrite Hk.
    now rewrite lookup_store_eq.
  - intros other H1 H2. unfold AttrDict.__getitem__, AttrDict.__setitem__.
    rewrite !lookup_store_ne by congruence. reflexivity.
Qed.

Lemma setitem_then_read_witness :
  AttrDict.__getattr__ (AttrDict.__setitem__ AttrDict.empty "NickName" (VStr "bob")) "nickname"
  = Returned (VStr "bob").
Proof.
  exact (proj1 (proj2 (setitem_then_read AttrDict.empty "NickName" "nickname" (VStr "bob")
                         eq_refl))).
Defined.

Lemma mem_lookup (k : string) (d : AttrDict.t) :
  PyDict.mem k d = match PyDict.lookup k d with Some _ => true | None => false end.
Proof. reflexivity. Qed.

(** [get], [pop] and deletion agree with item access: [get] returns what
    [d[k]] does, or the default when [d[k]] raises; [pop] returns what
    [get] does and leaves what [del d[k]] leaves; and [del d[k]] raises
    exactly when [d[k]] does.  After a deletion that succeeded, the key that
    was read is gone. *)
Theorem read_delete_pop_agree (d : AttrDict.t) (k : string) (default : PyVal) :
  AttrDict.get d k default
  = match AttrDict.__getitem__ d k with
    | Returned v => v
    | Raised _ => default
    end /\
  AttrDict.pop d k default
  = (AttrDict.get d k default,
     match AttrDict.__delitem__ d k with
     | Returned d' => d'
     | Raised _ => d
     end) /\
  (AttrDict.__delitem__ d k = Raised KeyError <-> AttrDict.__getitem__ d k = Raised KeyError) /\
  (forall d', AttrDict.__delitem__ d k = Returned d' ->
     PyDict.lookup (if PyDict.mem (lower k) d then lower k else AttrDict.alias (lower k)) d'
     = None).
Proof.
  unfold AttrDict.get, AttrDict.pop, AttrDict.__getitem__, AttrDict.__delitem__. cbv zeta.
  rewrite !mem_lookup.
  destruct (PyDict.lookup (lower k) d) as [v|] eqn:E1.
  - split; [reflexivity|]. split; [reflexivity|]. split; [split; discriminate|].
    intros d' H. injection H as <-. apply lookup_remove_eq.
  - destruct (PyDict.lookup (AttrDict.alias (lower k)) d) as [v|] eqn:E2.
    + split; [reflexivity|]. split; [reflexivity|]. split; [split; discriminate|].
      intros d' H. injection H as <-. apply lookup_remove_eq.
    + split; [reflexivity|]. split; [reflexivity|]. split; [split; reflexivity|].
      discriminate.
Qed.

(** ** Flag words *)

Local Open Scope Z_scope.

Lemma land_1_odd (x : Z) : negb (Z.land x 1 =? 0) = Z.odd x.
Proof.
  change 1 with (Z.ones 1). rewrite Z.land_ones by lia. change (2 ^ 1) with 2.
  rewrite Zmod_odd. now destruct (Z.odd x).
Qed.

Lemma shiftr_1_div (x : Z) : Z.shiftr x 1 = x / 2.
Proof. rewrite Z.shiftr_div_pow2 by lia. reflexivity. Qed.

Lemma lor_pow2 (a c : Z) : 0 <= c -> 0 <= a < 2 ^ c -> Z.lor a (2 ^ c) = a + 2 ^ c.
Proof.
  intros Hc Ha. rewrite <- Z.add_lor_land.
  assert (H : Z.land a (2 ^ c) = 0); [|lia].
  apply Z.bits_inj'. intros n Hn. rewrite Z.land_spec, Z.bits_0, Z.pow2_bits_eqb by lia.
  destruct (Z.eqb_spec c n) as [<-|_]; [|apply andb_false_r].
  rewrite andb_true_r. destruct (Z.eq_dec a 0) as [->|Hne]; [apply Z.bits_0|].
  apply Z.bits_above_log2; [lia|]. apply Z.log2_lt_pow2; lia.
Qed.

Lemma land_split (a c b : Z) :
  Z.land a b = Z.land c b <->
  (Z.odd b = true -> Z.odd a = Z.odd c) /\ Z.land (a / 2) (b / 2) = Z.land (c / 2) (b / 2).
Proof.
  assert (Hd : forall x n, 0 <= n -> Z.testbit (x / 2) n = Z.testbit x (n + 1)).
  { intros x n Hn. change 2 with (2 ^ 1). apply Z.div_pow2_bits; lia. }
  split.
  - intros H. split.
    + intros Hb. pose proof (f_equal (fun z => Z.testbit z 0) H) as H0. cbv beta in H0.
      rewrite !Z.land_spec, !Z.bit0_odd, Hb, !andb_true_r in H0. exact H0.
    + apply Z.bits_inj'. intros n Hn. rewrite !Z.land_spec, !Hd by lia.
      pose proof (f_equal (fun z => Z.testbit z (n + 1)) H) as H1. cbv beta in H1.
      now rewrite !Z.land_spec in H1.
  - intros [H0 H1]. apply Z.bits_inj'. intros n Hn. rewrite !Z.land_spec.
    destruct (Z.eq_dec n 0) as [->|Hne].
    + rewrite !Z.bit0_odd. destruct (Z.odd b); [now rewrite H0 | now rewrite !andb_false_r].
    + pose proof (f_equal (fun z => Z.testbit z (n - 1)) H1) as H2. cbv beta in H2.
      rewrite !Z.land_spec, !Hd in H2 by lia.
      now replace (n - 1 + 1) with n in H2 by lia.
Qed.

Lemma collectBits_loop_S (fuel : nat) (bits0 oldval0 newval0 bits oldval newval newbit cnt : Z) :
  TeamtalkServer.collectBits_loop (S fuel) bits0 oldval0 newval0 bits oldval newval newbit cnt
  = if bits0 =? 0 then Returned (bits, oldval, newval, cnt)
    else if Z.odd bits0 then
      TeamtalkServer.collectBits_loop fuel (bits0 / 2) (oldval0 / 2) (newval0 / 2)
        (Z.lor bits newbit)
        (if Z.odd oldval0 then Z.lor oldval newbit else oldval)
        (if Z.odd newval0 then Z.lor newval newbit else newval)
        (Z.shiftl newbit 1) (cnt + 1)
    else
      TeamtalkServer.collectBits_loop fuel (bits0 / 2) (oldval0 / 2) (newval0 / 2)
        bits oldval newval newbit cnt.
Proof.
  cbn [TeamtalkServer.collectBits_loop]. now rewrite !land_1_odd, !shiftr_1_div.
Qed.

Lemma collectBits_loop_spec (n : nat) :
  forall bits0 oldval0 newval0 oldval newval cnt,
    0 <= bits0 < 2 ^ Z.of_nat n -> 0 <= cnt ->
    0 <= oldval < 2 ^ cnt -> 0 <= newval < 2 ^ cnt ->
    exists oldval' newval' cnt',
      TeamtalkServer.collectBits_loop (S n) bits0 oldval0 newval0
        (2 ^ cnt - 1) oldval newval (2 ^ cnt) cnt
      = Returned (2 ^ cnt' - 1, oldval', newval', cnt') /\
      cnt <= cnt' <= cnt + Z.of_nat n /\
      0 <= oldval' < 2 ^ cnt' /\ 0 <= newval' < 2 ^ cnt' /\
      (oldval' = newval' <->
       oldval = newval /\ Z.land oldval0 bits0 = Z.land newval0 bits0).
Proof.
  induction n as [|n IH]; intros bits0 oldval0 newval0 oldval newval cnt Hb Hc Ho Hn.
  - assert (bits0 = 0) as -> by (cbn in Hb; lia).
    exists oldval, newval, cnt. cbn. rewrite !Z.land_0_r. repeat split; try lia; tauto.
  - rewrite collectBits_loop_S.
    destruct (Z.eqb_spec bits0 0) as [->|Hz].
    + exists oldval, newval, cnt. rewrite !Z.land_0_r. repeat split; try lia; tauto.
    + assert (Hb2 : 0 <= bits0 / 2 < 2 ^ Z.of_nat n).
      { rewrite Nat2Z.inj_succ, Z.pow_succ_r in Hb by lia.
        split; [apply Z.div_pos; lia | apply Z.div_lt_upper_bound; lia]. }
      destruct (Z.odd bits0) eqn:Eb.
      * assert (Hp : 2 ^ (cnt + 1) = 2 * 2 ^ cnt) by (rewrite Z.pow_add_r by lia; lia).
        assert (Hbits : Z.lor (2 ^ cnt - 1) (2 ^ cnt) = 2 ^ (cnt + 1) - 1).
        { rewrite lor_pow2 by lia. lia. }
        assert (Hnb : Z.shiftl (2 ^ cnt) 1 = 2 ^ (cnt + 1)).
        { rewrite Z.shiftl_mul_pow2 by lia. lia. }
        rewrite Hbits, Hnb.
        set (o1 := if Z.odd oldval0 then Z.lor oldval (2 ^ cnt) else oldval).
        set (n1 := if Z.odd newval0 then Z.lor newval (2 ^ cnt) else newval).
        assert (Ho1 : o1 = oldval + (if Z.odd oldval0 then 2 ^ cnt else 0)).
        { unfold o1. destruct (Z.odd oldval0); [apply lor_pow2; lia | lia]. }
        assert (Hn1 : n1 = newval + (if Z.odd newval0 then 2 ^ cnt else 0)).
        { unfold n1. destruct (Z.odd newval0); [apply lor_pow2; lia | lia]. }
        destruct (IH (bits0 / 2) (oldval0 / 2) (newval0 / 2) o1 n1 (cnt + 1) Hb2)
          as (o' & n' & c' & E & Hc' & Ho' & Hn' & Hiff).
        { lia. }
        { rewrite Ho1, Hp. destruct (Z.odd oldval0); lia. }
        { rewrite Hn1, Hp. destruct (Z.odd newval0); lia. }
        exists o', n', c'. split; [exact E|]. split; [lia|]. split; [exact Ho'|].
        split; [exact Hn'|]. rewrite Hiff, (land_split oldval0 newval0 bits0), Eb.
        rewrite Ho1, Hn1.
        destruct (Z.odd oldval0), (Z.odd newval0); intuition (try congruence; try lia).
      * destruct (IH (bits0 / 2) (oldval0 / 2) (newval0 / 2) oldval newval cnt Hb2 Hc Ho Hn)
          as (o' & n' & c' & E & Hc' & Ho' & Hn' & Hiff).
        exists o', n', c'. split; [exact E|]. split; [lia|]. split; [exact Ho'|].
        split; [exact Hn'|]. rewrite Hiff, (land_split oldval0 newval0 bits0), Eb.
        intuition congruence.
Qed.

Lemma collectBits_negative (fuel : nat) :
  forall bits0 oldval0 newval0 bits oldval newval newbit cnt,
    bits0 < 0 ->
    TeamtalkServer.collectBits_loop fuel bits0 oldval0 newval0 bits oldval newval newbit cnt
    = Raised OutOfFuel.
Proof.
  induction fuel as [|fuel IH]; intros bits0 oldval0 newval0 bits oldval newval newbit cnt Hb;
    [reflexivity|].
  rewrite collectBits_loop_S.
  destruct (Z.eqb_spec bits0 0) as [->|_]; [lia|].
  assert (bits0 / 2 < 0) by (apply Z.div_lt_upper_bound; lia).
  destruct (Z.odd bits0); now apply IH.
Qed.

(** [collectBits] gathers the masked bits at the low end: for a mask that
    is not negative it returns, [n + 1] rounds being enough for a mask
    below [2 ^ n]; the new mask is [cnt] ones, both values fit in it, and
    the gathered values are equal exactly when the old and new values agree
    on the masked bits.  With a negative mask the loop never ends. *)
Theorem collectBits_gathers (n : nat) (bits0 oldval0 newval0 : Z) :
  (0 <= bits0 < 2 ^ Z.of_nat n ->
   exists bits oldval newval cnt,
     TeamtalkServer.collectBits (S n) bits0 oldval0 newval0
     = Returned (bits, oldval, newval, cnt) /\
     0 <= cnt <= Z.of_nat n /\ bits = 2 ^ cnt - 1 /\
     0 <= oldval <= bits /\ 0 <= newval <= bits /\
     (oldval = newval <-> Z.land oldval0 bits0 = Z.land newval0 bits0)) /\
  (bits0 < 0 ->
   forall fuel, TeamtalkServer.collectBits fuel bits0 oldval0 newval0 = Raised OutOfFuel).
Proof.
  split.
  - intros Hb.
    destruct (collectBits_loop_spec n bits0 oldval0 newval0 0 0 0 Hb)
      as (o' & n' & c' & E & Hc' & Ho' & Hn' & Hiff); try (cbn; lia).
    exists (2 ^ c' - 1), o', n', c'. split; [exact E|].
    repeat split; try lia; intros H; apply Hiff; tauto.
  - intros Hb fuel. now apply collectBits_negative.
Qed.

Lemma collectBits_gathers_witness :
  exists bits oldval newval cnt,
    TeamtalkServer.collectBits 5 10 6 12 = Returned (bits, oldval, newval, cnt) /\
    0 <= cnt <= 4 /\ bits = 2 ^ cnt - 1 /\
    0 <= oldval <= bits /\ 0 <= newval <= bits /\
    (oldval = newval <-> Z.land 6 10 = Z.land 12 10).
Proof.
  apply (proj1 (collectBits_gathers 4 10 6 12)). cbn. lia.
Defined.

Local Close Scope Z_scope.

Lemma index_in_range (A : Type) (lst : list A) (i : nat) :
  (i < length lst)%nat ->
  exists a, nth_error lst i = Some a /\ TeamtalkServer.index lst (Z.of_nat i) = Returned a.
Proof.
  intros Hi. destruct (nth_error lst i) as [a|] eqn:E.
  - exists a. split; [reflexivity|]. unfold TeamtalkServer.index. cbv zeta.
    destruct (Z.ltb_spec (Z.of_nat i) 0); [lia|].
    destruct (Z.leb_spec 0 (Z.of_nat i)); [|lia].
    destruct (Z.ltb_spec (Z.of_nat i) (Z.of_nat (length lst))); [|lia].
    cbn [andb]. now rewrite Nat2Z.id, E.
  - apply nth_error_None in E. lia.
Qed.

Lemma index_default (i : nat) :
  (i < 32)%nat ->
  TeamtalkServer.index TeamtalkServer.default_bitnames (Z.of_nat i)
  = Returned (TeamtalkServer.OffOn ("off" ++ of_int (Z.of_nat i + 1))
                ("on" ++ of_int (Z.of_nat i + 1))).
Proof.
  intros Hi.
  destruct (index_in_range _ TeamtalkServer.default_bitnames i) as (a & Hn & ->).
  { unfold TeamtalkServer.default_bitnames. now rewrite length_map, length_seq. }
  unfold TeamtalkServer.default_bitnames in Hn.
  rewrite nth_error_map, nth_error_seq in Hn.
  destruct (Nat.ltb_spec i 32); [|lia]. cbn in Hn. now injection Hn as <-.
Qed.

Lemma doFlagBits_loop_S (rounds i : nat) (names : list TeamtalkServer.BitName)
  (oldval newval : Z) (changes : list TeamtalkServer.BitName) :
  TeamtalkServer.doFlagBits_loop (S rounds) i names oldval newval changes
  = obind (if (i <? length names)%nat then TeamtalkServer.index names (Z.of_nat i)
           else TeamtalkServer.index TeamtalkServer.default_bitnames (Z.of_nat i))
      (fun name =>
         let (off, on) := match name with
                          | TeamtalkServer.Name n => (EmptyString, n)
                          | TeamtalkServer.OffOn off on => (off, on)
                          end in
         let text := if Z.odd newval && negb (Z.odd oldval) then on
                     else if Z.odd oldval && negb (Z.odd newval) then off
                     else EmptyString in
         TeamtalkServer.doFlagBits_loop rounds (S i) names (oldval / 2) (newval / 2)
           (if text =? EmptyString then changes else (changes ++ [TeamtalkServer.Name text])%list)).
Proof.
  cbn [TeamtalkServer.doFlagBits_loop]. now rewrite !land_1_odd, !shiftr_1_div.
Qed.

Lemma shiftr_succ (x : Z) (i : nat) :
  (Z.shiftr x (Z.of_nat i) / 2)%Z = Z.shiftr x (Z.of_nat (S i)).
Proof.
  rewrite <- shiftr_1_div, Z.shiftr_shiftr by lia. f_equal. lia.
Qed.

Lemma doFlagBits_loop_default (rounds : nat) :
  forall (i : nat) (oldval newval : Z) (changes : list TeamtalkServer.BitName),
    (i + rounds <= 32)%nat ->
    TeamtalkServer.doFlagBits_loop rounds i [] (Z.shiftr oldval (Z.of_nat i))
      (Z.shiftr newval (Z.of_nat i)) changes
    = Returned (changes ++ flat_map (bit_change oldval newval) (seq i rounds))%list.
Proof.
  induction rounds as [|rounds IH]; intros i oldval newval changes Hi.
  - cbn. now rewrite app_nil_r.
  - rewrite doFlagBits_loop_S. cbn [length Nat.ltb Nat.leb].
    rewrite index_default by lia. cbn [obind]. cbv zeta.
    rewrite !shiftr_succ, IH by lia.
    cbn [seq flat_map]. unfold bit_change at 2. cbv zeta.
    rewrite <- !Z.testbit_odd.
    destruct (Z.testbit newval (Z.of_nat i)), (Z.testbit oldval (Z.of_nat i));
      cbn [andb negb append String.eqb Ascii.eqb Bool.eqb];
      now rewrite <- ?app_assoc.
Qed.

(** With the default names and all 32 bits, [doFlagBits] lists the bits
    that differ, lowest first: [on<i>] for a bit that came on and [off<i>]
    for one that went off, [i] counting from 1. *)
Theorem doFlagBits_default (fuel : nat) (oldval newval : Z) :
  TeamtalkServer.doFlagBits fuel oldval newval None []
  = Returned (flat_map (bit_change oldval newval) (seq 0 32)) /\
  TeamtalkServer.doFlagBits fuel oldval newval (Some 0%Z) []
  = Returned (flat_map (bit_change oldval newval) (seq 0 32)).
Proof.
  pose proof (doFlagBits_loop_default 32 0 oldval newval [] (Nat.le_refl _)) as H.
  rewrite !Z.shiftr_0_r in H.
  split; exact H.
Qed.

Lemma collectBits_loop_more (fuel : nat) :
  forall bits0 oldval0 newval0 bits oldval newval newbit cnt r,
    TeamtalkServer.collectBits_loop fuel bits0 oldval0 newval0 bits oldval newval newbit cnt
    = Returned r ->
    TeamtalkServer.collectBits_loop (S fuel) bits0 oldval0 newval0 bits oldval newval newbit cnt
    = Returned r.
Proof.
  induction fuel as [|fuel IH]; intros bits0 oldval0 newval0 bits oldval newval newbit cnt r;
    [discriminate|].
  rewrite (collectBits_loop_S (S fuel)), (collectBits_loop_S fuel).
  destruct (bits0 =? 0)%Z; [trivial|]. destruct (Z.odd bits0); apply IH.
Qed.

Lemma collectBits_enough (n fuel : nat) (bits0 oldval0 newval0 : Z) (r : Z * Z * Z * Z) :
  (S n <= fuel)%nat ->
  TeamtalkServer.collectBits (S n) bits0 oldval0 newval0 = Returned r ->
  TeamtalkServer.collectBits fuel bits0 oldval0 newval0 = Returned r.
Proof.
  unfold TeamtalkServer.collectBits. intros Hf H.
  induction Hf as [|fuel _ IH]; [exact H|]. now apply collectBits_loop_more.
Qed.

Lemma doFlagBits_loop_same (rounds : nat) :
  forall (i : nat) (names : list TeamtalkServer.BitName) (v : Z)
         (changes : list TeamtalkServer.BitName),
    (i + rounds <= 32)%nat ->
    TeamtalkServer.doFlagBits_loop rounds i names v v changes = Returned changes.
Proof.
  induction rounds as [|rounds IH]; intros i names v changes Hi; [reflexivity|].
  rewrite doFlagBits_loop_S.
  assert (Hx : exists a, (if (i <? length names)%nat
                          then TeamtalkServer.index names (Z.of_nat i)
                          else TeamtalkServer.index TeamtalkServer.default_bitnames (Z.of_nat i))
                         = Returned a).
  { destruct (Nat.ltb_spec i (length names)) as [Hl|Hl].
    - destruct (index_in_range _ names i Hl) as (a & _ & E). now exists a.
    - eexists. apply index_default. lia. }
  destruct Hx as (a & ->). cbn [obind]. cbv zeta.
  destruct a as [nm|off on];
    (destruct (Z.odd v); cbn [andb negb String.eqb]; apply IH; lia).
Qed.

(** When the old and the new value are the same, [doFlagBits] reports no
    change, whatever the names, for all bits or for any mask of 32 bits. *)
Theorem doFlagBits_no_change (fuel : nat) (v : Z) (bits : option Z)
  (names : list TeamtalkServer.BitName) :
  (33 <= fuel)%nat ->
  match bits with
  | Some b => (0 <= b < 2 ^ 32)%Z
  | None => True
  end ->
  TeamtalkServer.doFlagBits fuel v v bits names = Returned [].
Proof.
  intros Hf Hb. unfold TeamtalkServer.doFlagBits. cbv zeta.
  assert (Hd : forall c : Z * Z * Z * Z,
             (let '(bits, oldval, newval, cnt) := c in
              oldval = newval /\ (0 <= cnt <= 32)%Z) ->
             (let '(bits, oldval, newval, cnt) := c in
              if (Z.of_nat (length names) =? bits + 1)%Z
              then if negb (Z.land oldval bits =? Z.land newval bits)%Z
                   then obind (TeamtalkServer.index names newval) (fun name => Returned [name])
                   else Returned []
              else TeamtalkServer.doFlagBits_loop (Z.to_nat cnt) 0 names oldval newval [])
             = Returned []).
  { intros [[[b o] n] c] [-> Hc].
    destruct (Z.of_nat (length names) =? b + 1)%Z.
    - now rewrite Z.eqb_refl.
    - apply doFlagBits_loop_same. lia. }
  destruct bits as [b|].
  - destruct (Z.eqb_spec b 0) as [->|Hne].
    + cbn [obind]. apply (Hd (4294967295, v, v, 32)%Z). split; [reflexivity | lia].
    + destruct (proj1 (collectBits_gathers 32 b v v) Hb)
        as (b' & o & n & c & E & Hc & _ & _ & _ & Hiff).
      rewrite (collectBits_enough 32 fuel b v v _ Hf E). cbn [obind].
      apply (Hd (b', o, n, c)). split; [now apply Hiff | exact Hc].
  - cbn [obind]. apply (Hd (4294967295, v, v, 32)%Z). split; [reflexivity | lia].
Qed.

Lemma doFlagBits_no_change_witness :
  TeamtalkServer.doFlagBits 40 5 5 (Some 6%Z) [TeamtalkServer.Name "audio"] = Returned [].
Proof.
  apply doFlagBits_no_change; [lia | cbn; lia].
Defined.

Lemma addrAndPort_splits_witness :
  TeamtalkServer.addrAndPort (VStr "[2001:db8::1]:10333") = Returned ("2001:db8::1", "10333").
Proof.
  exact (proj1 (proj2 (addrAndPort_splits "2001:db8::1" "10333")) eq_refl eq_refl).
Defined.

Lemma channelname_result_witness :
  truthy (VStr "the root channel") = true /\
  (false = false -> VStr "the root channel" <> VStr "/") /\
  exists k ch c,
    VStr "1" = VStr k /\
    PyDict.lookup k (Ttapi.channels session_with_root) = Some ch /\
    AttrDict.get ch "channel" VNone = c /\
    VStr "the root channel"
    = (if val_is_str c "/" && negb false then VStr "the root channel" else c).
Proof.
  exact (channelname_result session_with_root (VStr "1") false (VStr "the root channel") eq_refl).
Defined.

(** ** Requests and their answers *)

Lemma block_line_facts (k : nat) :
  (k <= 127)%nat ->
  let id := Z.of_nat k in
  (forall word, word = "begin" \/ word = "end" ->
     Parmline.of_line (block_line word id)
     = Returned (Parmline.mkParmLine (block_line word id) [] (Some word)
                   [("id", VStr (of_int id))] (Some (block_line word id))) /\
     lower (rstrip (block_line word id)) = block_line word id /\
     startswith (block_line word id) "teamtalk " = false /\
     (block_line word id =? EmptyString) = false) /\
  nth 1 (split_char "=" (block_line "begin" id)) EmptyString = of_int id /\
  (of_int id =? EmptyString) = false.
Proof.
  intros Hk. cbv zeta.
  assert (H : forall w, w = "begin" \/ w = "end" -> w = "begin" \/ w = "end") by auto.
  do 128 (destruct k as [|k];
          [split; [intros word [-> | ->]; repeat split; vm_compute; reflexivity
                  | split; vm_compute; reflexivity]|]).
  lia.
Qed.

Lemma block_line_starts (k : nat) :
  (k <= 127)%nat ->
  let id := Z.of_nat k in
  startswith (block_line "begin" id) "begin id=" = true /\
  startswith (block_line "end" id) "begin id=" = false /\
  startswith (block_line "end" id) "end id=" = true.
Proof.
  intros Hk. cbv zeta.
  do 128 (destruct k as [|k]; [repeat split; vm_compute; reflexivity|]).
  lia.
Qed.

Lemma block_line_id (id : Z) :
  (0 <= id <= 127)%Z ->
  (forall word, word = "begin" \/ word = "end" ->
     Parmline.of_line (block_line word id)
     = Returned (Parmline.mkParmLine (block_line word id) [] (Some word)
                   [("id", VStr (of_int id))] (Some (block_line word id))) /\
     lower (rstrip (block_line word id)) = block_line word id /\
     startswith (block_line word id) "teamtalk " = false /\
     (block_line word id =? EmptyString) = false) /\
  nth 1 (split_char "=" (block_line "begin" id)) EmptyString = of_int id /\
  (of_int id =? EmptyString) = false /\
  startswith (block_line "begin" id) "begin id=" = true /\
  startswith (block_line "end" id) "begin id=" = false /\
  startswith (block_line "end" id) "end id=" = true.
Proof.
  intros H. rewrite <- (Z2Nat.id id) by lia.
  assert (Hk : (Z.to_nat id <= 127)%nat) by lia.
  destruct (block_line_facts _ Hk) as (A & B & C).
  destruct (block_line_starts _ Hk) as (D & E & F).
  repeat split; try assumption; now apply A.
Qed.

Section Answers.

Local Open Scope list_scope.

Variable fs : Q -> string.
Variable os : string.
Variable other : Ttapi.Handler -> AttrDict.t -> Ttapi.M bool.

(** A line that is neither empty nor the frame of an id block goes from
    [watcher] to [processLine], a bare pong included while an id block is
    open. *)
Lemma watcher_line_passes (line : string) (c : Ttapi.Conn) (st : Ttapi.Session) :
  Ttapi.conn st = Some c -> Ttapi.shuttingDown c = false -> Ttapi.callback c = true ->
  line <> EmptyString ->
  startswith (lower (rstrip (normalise line))) "begin id=" = false ->
  startswith (lower (rstrip (normalise line))) "end id=" = false ->
  (exists i, Ttapi.curid c = Some i /\ (i =? EmptyString)%string = false) ->
  Ttapi.watcher_line fs os other line st = Ttapi.processLine fs os other (normalise line) st.
Proof.
  intros Hc Hs Hcb Hne Hb He (i & Hi & Hi').
  unfold Ttapi.watcher_line, Ttapi.bind at 1, Ttapi.gets at 1. rewrite Hc.
  assert ((line =? EmptyString)%string = false) as -> by now apply String.eqb_neq.
  cbv zeta. fold (normalise line). rewrite Hs, Hb, He, Hi, Hi', Hcb. reflexivity.
Qed.

Lemma processLine_collects (line : string) (p : Parmline.ParmLine) (st : Ttapi.Session) :
  Ttapi._collecting st = 2%Z ->
  Parmline.of_line line = Returned p ->
  is_connection_event p = false ->
  is_end_marker p st = false ->
  Ttapi.processLine fs os other line st
  = (Ttapi.set_outputCollection (Ttapi._outputCollection st ++ [p]) st, Returned tt).
Proof.
  intros Hc Hp Hk He. unfold Ttapi.processLine.
  unfold Ttapi.bind at 1. unfold Ttapi.lift at 1. rewrite Hp.
  unfold Ttapi.bind at 1. rewrite (handleCollection_collecting p st Hc Hk), He.
  reflexivity.
Qed.

(** The line [begin id=N] while the answer to request [N] is awaited. *)
Lemma watcher_line_begin (id : Z) (c : Ttapi.Conn) (st : Ttapi.Session) :
  (0 <= id <= 127)%Z ->
  Ttapi.conn st = Some c -> Ttapi.shuttingDown c = false -> Ttapi.callback c = true ->
  Ttapi._collecting st = 1%Z -> Ttapi.waitID st = id ->
  Ttapi.watcher_line fs os other (block_line "begin" id) st
  = (Ttapi.set_ev_idblockDone false (Ttapi.set_collecting 2 (Ttapi.set_outputCollection []
       (Ttapi.set_conn (Some (Ttapi.mkConn false true (Ttapi.disconnectReason c)
                                (Ttapi.usertimeout c) (Some (of_int id)))) st))),
     Returned tt).
Proof.
  intros Hk Hc Hs Hcb Hcol Hw.
  destruct (block_line_id id Hk) as (Hf & Hn & _ & Hb & _).
  destruct (Hf "begin" (or_introl eq_refl)) as (Hp & Hl & Ht & He).
  unfold Ttapi.watcher_line, Ttapi.bind at 1, Ttapi.gets at 1. rewrite Hc, He, Ht, Hs, Hl, Hb, Hcb, Hn.
  unfold Ttapi.bind at 1, Ttapi.modify at 1.
  unfold Ttapi.processLine, Ttapi.bind at 1, Ttapi.lift at 1. rewrite Hp.
  unfold Ttapi.bind at 1.
  unfold Ttapi._handleCollection, Ttapi.bind at 1, Ttapi.gets at 1.
  cbn [Ttapi._collecting Ttapi.set_conn]. rewrite Hcol. cbn [Z.eqb Pos.eqb].
  unfold Ttapi.event_is at 3. cbn [Parmline.event]. cbn [String.eqb Ascii.eqb Bool.eqb].
  unfold Ttapi.bind at 1, Ttapi.lift at 1. rewrite id_is_waitID_spec.
  cbn [Parmline.parms Ttapi.waitID Ttapi.set_conn]. rewrite Hw.
  change (AttrDict.get [("id", VStr (of_int id))] "id" VNone) with (VStr (of_int id)).
  cbn [val_is_str]. rewrite String.eqb_refl.
  reflexivity.
Qed.

(** The line [end id=N] while the answer to request [N] is collected. *)
Lemma watcher_line_end (id : Z) (c : Ttapi.Conn) (st : Ttapi.Session) :
  (0 <= id <= 127)%Z ->
  Ttapi.conn st = Some c -> Ttapi.shuttingDown c = false -> Ttapi.callback c = true ->
  Ttapi._collecting st = 2%Z -> Ttapi.waitID st = id ->
  Ttapi.watcher_line fs os other (block_line "end" id) st
  = (Ttapi.set_ev_idblockDone true (Ttapi.set_waitID 0 (Ttapi.set_collecting 0
       (Ttapi.set_conn (Some (Ttapi.mkConn false true (Ttapi.disconnectReason c)
                                (Ttapi.usertimeout c) None)) st))),
     Returned tt).
Proof.
  intros Hk Hc Hs Hcb Hcol Hw.
  destruct (block_line_id id Hk) as (Hf & _ & _ & _ & Hb & Hb').
  destruct (Hf "end" (or_intror eq_refl)) as (Hp & Hl & Ht & He).
  unfold Ttapi.watcher_line, Ttapi.bind at 1, Ttapi.gets at 1.
  rewrite Hc, He, Ht, Hs, Hl, Hb, Hb', Hcb.
  unfold Ttapi.bind at 1, Ttapi.modify at 1.
  unfold Ttapi.processLine, Ttapi.bind at 1, Ttapi.lift at 1. rewrite Hp.
  unfold Ttapi.bind at 1.
  rewrite handleCollection_collecting; [|exact Hcol|reflexivity].
  unfold is_end_marker, Ttapi.event_is. cbn [Parmline.event Parmline.parms Ttapi.waitID Ttapi.set_conn].
  rewrite Hw.
  change (AttrDict.get [("id", VStr (of_int id))] "id" VNone) with (VStr (of_int id)).
  cbn [val_is_str]. rewrite !String.eqb_refl.
  reflexivity.
Qed.

(** The lines between the two: each is parsed and kept, in order. *)
Lemma await_collects (id : Z) (body : list string) (ps : list Parmline.ParmLine) :
  Forall2 (collectable id) body ps ->
  forall (rest : list string) (c : Ttapi.Conn) (i : string) (st : Ttapi.Session),
  Ttapi.conn st = Some c -> Ttapi.shuttingDown c = false -> Ttapi.callback c = true ->
  Ttapi.curid c = Some i -> (i =? EmptyString) = false ->
  Ttapi._collecting st = 2%Z -> Ttapi.waitID st = id -> Ttapi.ev_idblockDone st = false ->
  Ttapi.await fs os other (body ++ rest) st
  = Ttapi.await fs os other rest
      (Ttapi.set_outputCollection (Ttapi._outputCollection st ++ ps) st).
Proof.
  induction 1 as [|line p body ps (Hne & Hb & He & Hp & Hk & Hm) _ IH];
    intros rest c i st Hc Hs Hcb Hi Hi' Hcol Hw Hev.
  - rewrite app_nil_r. destruct st; reflexivity.
  - cbn [app Ttapi.await]. rewrite Hev.
    rewrite (watcher_line_passes line c st Hc Hs Hcb Hne Hb He (ex_intro _ i (conj Hi Hi'))).
    rewrite (processLine_collects (normalise line) p st Hcol Hp Hk)
      by (unfold is_end_marker; now rewrite Hw).
    rewrite (IH rest c i (Ttapi.set_outputCollection (Ttapi._outputCollection st ++ [p]) st)
               Hc Hs Hcb Hi Hi' Hcol Hw Hev).
    cbn [Ttapi._outputCollection Ttapi.set_outputCollection].
    rewrite <- app_assoc. reflexivity.
Qed.

Lemma next_id_range (s : Ttapi.Session) :
  Ttapi.maxID s = 127%Z -> (0 <= Ttapi.curID s <= 127)%Z -> (1 <= next_id s <= 127)%Z.
Proof.
  intros Hm Hc. unfold next_id. rewrite Hm. destruct (Z.ltb_spec 127 (Ttapi.curID s + 1)); lia.
Qed.

(** What [sendWithWait] does before it waits, when the socket takes the
    bytes. *)
Lemma sendWithWait_sends (line : string) (rr : bool) (arrivals : list string)
  (c : Ttapi.Conn) (s : Ttapi.Session) :
  Ttapi.conn s = Some c -> Ttapi.maxID s = 127%Z -> (0 <= Ttapi.curID s <= 127)%Z ->
  Ttapi.sendWithWait fs os other line rr true arrivals s
  = Ttapi.bind (Ttapi.await fs os other arrivals)
      (fun done =>
         Ttapi.bind
           (if (done : bool) then Ttapi.ret tt
            else Ttapi.bind
                   (Ttapi.errorFromEvent
                      ("Timeout on "
                       ++ Ttapi.first_word (rstrip line ++ " id=" ++ of_int (next_id s))
                       ++ " command") false)
                   (fun _ => Ttapi.modify (Ttapi.set_waitID 0)))
           (fun _ => if rr then Ttapi.bind Ttapi._stopCollecting (fun lines => Ttapi.ret (Some lines))
                     else Ttapi.ret None))
      (Ttapi.emit (Ttapi.ESockSend (frame line (next_id s)))
         (if rr
          then Ttapi.set_collecting 1 (Ttapi.set_outputCollection []
                 (Ttapi.set_waitID (next_id s) (Ttapi.set_ev_idblockDone false
                    (Ttapi.set_curID (next_id s) s))))
          else Ttapi.set_waitID (next_id s) (Ttapi.set_ev_idblockDone false
                 (Ttapi.set_curID (next_id s) s)))).
Proof.
  intros Hc Hm Hcur.
  pose proof (next_id_range s Hm Hcur) as Hr.
  unfold Ttapi.sendWithWait.
  unfold Ttapi.bind at 1, Ttapi.modify at 1.
  unfold Ttapi.bind at 1, Ttapi.modify at 1.
  cbn [Ttapi.maxID Ttapi.curID Ttapi.set_curID].
  replace (if (Ttapi.maxID s <? Ttapi.curID s + 1)%Z
           then Ttapi.set_curID 1 (Ttapi.set_curID (Ttapi.curID s + 1) s)
           else Ttapi.set_curID (Ttapi.curID s + 1) s)
    with (Ttapi.set_curID (next_id s) s)
    by (unfold next_id; destruct (Ttapi.maxID s <? Ttapi.curID s + 1)%Z; reflexivity).
  unfold Ttapi.bind at 1, Ttapi.gets at 1. cbn [Ttapi.curID Ttapi.set_curID].
  unfold Ttapi.bind at 1, Ttapi.modify at 1.
  unfold Ttapi.bind at 1.
  destruct rr.
  - unfold Ttapi._startCollecting, Ttapi.modify at 1.
    unfold Ttapi.bind at 1.
    unfold Ttapi.send, Ttapi.bind at 1, Ttapi.gets at 1.
    cbn [Ttapi.conn Ttapi.set_collecting Ttapi.set_outputCollection Ttapi.set_waitID
         Ttapi.set_ev_idblockDone Ttapi.set_curID].
    rewrite Hc. unfold Ttapi.modify at 1. rewrite (rstrip_frame line (next_id s) Hr).
    destruct s; reflexivity.
  - unfold Ttapi.modify at 1.
    unfold Ttapi.bind at 1.
    unfold Ttapi.send, Ttapi.bind at 1, Ttapi.gets at 1.
    cbn [Ttapi.conn Ttapi.set_collecting Ttapi.set_outputCollection Ttapi.set_waitID
         Ttapi.set_ev_idblockDone Ttapi.set_curID].
    rewrite Hc. unfold Ttapi.modify at 1. rewrite (rstrip_frame line (next_id s) Hr).
    reflexivity.
Qed.

(** A collecting request whose answer arrives whole: [sendWithWait] sends
    the line under the next id and returns the lines between [begin id=N]
    and [end id=N], parsed and in order; no event method has run and nothing
    was written. *)
Theorem sendWithWait_collects (line : string) (body : list string)
  (ps : list Parmline.ParmLine) (s : Ttapi.Session) :
  ready s ->
  Forall2 (collectable (next_id s)) body ps ->
  Ttapi.sendWithWait fs os other line true true
    (block_line "begin" (next_id s) :: body ++ [block_line "end" (next_id s)]) s
  = (after_answer line s, Returned (Some ps)).
Proof.
  intros ((c & Hc & Hcb & Hs) & Hm & Hcur) Hbody.
  pose proof (next_id_range s Hm Hcur) as Hr.
  assert (Hr' : (0 <= next_id s <= 127)%Z) by lia.
  rewrite (sendWithWait_sends line true _ c s Hc Hm Hcur).
  unfold Ttapi.bind at 1.
  cbn [Ttapi.await]. cbn [Ttapi.ev_idblockDone Ttapi.emit Ttapi.set_effects Ttapi.set_collecting
                          Ttapi.set_outputCollection Ttapi.set_waitID Ttapi.set_ev_idblockDone].
  erewrite (watcher_line_begin (next_id s) c);
    [|exact Hr'|exact Hc|exact Hs|exact Hcb|reflexivity|reflexivity].
  erewrite (await_collects (next_id s) body ps Hbody [block_line "end" (next_id s)]);
    [|reflexivity|reflexivity|reflexivity|reflexivity
     |exact (proj1 (proj2 (proj2 (block_line_id _ Hr'))))|reflexivity|reflexivity|reflexivity].
  cbn [Ttapi.await]. cbn [Ttapi.ev_idblockDone Ttapi.set_outputCollection Ttapi.set_ev_idblockDone].
  erewrite (watcher_line_end (next_id s));
    [|exact Hr'|reflexivity|reflexivity|reflexivity|reflexivity|reflexivity].
  unfold after_answer. rewrite Hc.
  destruct c as [sd cb dr ut ci]. cbn in Hcb, Hs. subst sd cb.
  reflexivity.
Qed.

(** A request that gets no answer: [sendWithWait] writes the timeout as
    ordinary output, stops waiting, and returns an empty list when it was
    to collect, [None] otherwise. *)
Theorem sendWithWait_times_out (line : string) (returnResults : bool) (s : Ttapi.Session) :
  alive s -> Ttapi.maxID s = 127%Z -> (0 <= Ttapi.curID s <= 127)%Z ->
  Ttapi.sendWithWait fs os other line returnResults true [] s
  = (after_timeout line returnResults s,
     Returned (if returnResults then Some [] else None)).
Proof.
  intros Ha Hm Hcur. unfold alive in Ha.
  destruct (Ttapi.conn s) as [c|] eqn:Hc; [clear Ha|congruence].
  pose proof (next_id_range s Hm Hcur) as Hr.
  rewrite (sendWithWait_sends line returnResults _ c s Hc Hm Hcur).
  unfold Ttapi.bind at 1. cbn [Ttapi.await]. unfold Ttapi.gets at 1.
  assert (Hz : (next_id s =? 0)%Z = false) by (apply Z.eqb_neq; lia).
  destruct returnResults;
    cbn [Ttapi.ev_idblockDone Ttapi.emit Ttapi.set_effects Ttapi.set_collecting
         Ttapi.set_outputCollection Ttapi.set_waitID Ttapi.set_ev_idblockDone];
    unfold Ttapi.bind at 1; unfold Ttapi.bind at 1;
    unfold Ttapi.errorFromEvent; rewrite output_event_spec;
    unfold written_line;
    cbn [Ttapi.waitID Ttapi.shortname Ttapi.emit Ttapi.set_effects Ttapi.set_collecting
         Ttapi.set_outputCollection Ttapi.set_waitID Ttapi.set_ev_idblockDone Ttapi.set_curID];
    rewrite Hz; reflexivity.
Qed.

(** The two lines of an id block while the session waits for it without
    collecting: [event_begin] and [event_end] take them. *)
Lemma watcher_line_begin_plain (id : Z) (c : Ttapi.Conn) (st : Ttapi.Session) :
  (1 <= id <= 127)%Z ->
  Ttapi.conn st = Some c -> Ttapi.shuttingDown c = false -> Ttapi.callback c = true ->
  Ttapi._collecting st = 0%Z -> Ttapi.waitID st = id ->
  Ttapi.watcher_line fs os other (block_line "begin" id) st
  = (Ttapi.emit (Ttapi.EHandler "begin" [("id", VStr (of_int id))])
       (Ttapi.set_conn (Some (Ttapi.mkConn false true (Ttapi.disconnectReason c)
                                (Ttapi.usertimeout c) (Some (of_int id)))) st),
     Returned tt).
Proof.
  intros Hk Hc Hs Hcb Hcol Hw.
  assert (Hk' : (0 <= id <= 127)%Z) by lia.
  assert (Hpos : (0 <? id)%Z = true) by (apply Z.ltb_lt; lia).
  assert (Hz : (id =? 0)%Z = false) by (apply Z.eqb_neq; lia).
  destruct (block_line_id id Hk') as (Hf & Hn & _ & Hb & _).
  destruct (Hf "begin" (or_introl eq_refl)) as (Hp & Hl & Ht & He).
  unfold Ttapi.watcher_line, Ttapi.bind at 1, Ttapi.gets at 1. rewrite Hc, He, Ht, Hs, Hl, Hb, Hcb, Hn.
  unfold Ttapi.bind at 1, Ttapi.modify at 1.
  unfold Ttapi.processLine, Ttapi.bind at 1, Ttapi.lift at 1. rewrite Hp.
  unfold Ttapi.bind at 1.
  rewrite handleCollection_passes by (left; exact Hcol).
  unfold Ttapi.bind at 1, Ttapi.gets at 1.
  cbn [Ttapi.waitID Ttapi.set_conn]. rewrite Hw, Hpos.
  unfold Ttapi.event_is at 1. cbn [Parmline.event]. rewrite String.eqb_refl. cbn [andb orb].
  unfold Ttapi.bind at 1, Ttapi.lift at 1. rewrite id_is_waitID_spec.
  cbn [Parmline.parms Ttapi.waitID Ttapi.set_conn]. rewrite Hw.
  change (AttrDict.get [("id", VStr (of_int id))] "id" VNone) with (VStr (of_int id)).
  cbn [val_is_str]. rewrite String.eqb_refl.
  unfold Ttapi.bind at 1, Ttapi.ret at 1.
  unfold Ttapi.bind at 1, Ttapi.lift at 1.
  change (Ttapi.event_is_alpha _) with (Returned true).
  cbn [negb Parmline.event].
  change (Ttapi.find_handler "begin") with (Some Ttapi.h_begin).
  unfold Ttapi.finally, Ttapi.on_exception.
  unfold Ttapi.bind at 1, Ttapi.modify at 1.
  unfold Ttapi.bind at 1. cbn [Ttapi.run_handler Parmline.parms].
  unfold Ttapi.event_begin, Ttapi.bind at 1, Ttapi.gets at 1, Ttapi.ret at 1.
  unfold Ttapi.is_waited_id.
  cbn [Ttapi.waitID Ttapi.emit Ttapi.set_effects Ttapi.set_conn]. rewrite Hw, Hz.
  change (AttrDict.get [("id", VStr (of_int id))] "id" VNone) with (VStr (of_int id)).
  cbn [val_is_str negb andb]. rewrite String.eqb_refl.
  reflexivity.
Qed.

Lemma watcher_line_end_plain (id : Z) (c : Ttapi.Conn) (st : Ttapi.Session) :
  (1 <= id <= 127)%Z ->
  Ttapi.conn st = Some c -> Ttapi.shuttingDown c = false -> Ttapi.callback c = true ->
  Ttapi._collecting st = 0%Z -> Ttapi.waitID st = id ->
  Ttapi.watcher_line fs os other (block_line "end" id) st
  = (Ttapi.set_ev_idblockDone true (Ttapi.set_waitID 0
       (Ttapi.emit (Ttapi.EHandler "end" [("id", VStr (of_int id))])
          (Ttapi.set_conn (Some (Ttapi.mkConn false true (Ttapi.disconnectReason c)
                                   (Ttapi.usertimeout c) None)) st))),
     Returned tt).
Proof.
  intros Hk Hc Hs Hcb Hcol Hw.
  assert (Hk' : (0 <= id <= 127)%Z) by lia.
  assert (Hpos : (0 <? id)%Z = true) by (apply Z.ltb_lt; lia).
  assert (Hz : (id =? 0)%Z = false) by (apply Z.eqb_neq; lia).
  destruct (block_line_id id Hk') as (Hf & _ & _ & _ & Hb & Hb').
  destruct (Hf "end" (or_intror eq_refl)) as (Hp & Hl & Ht & He).
  unfold Ttapi.watcher_line, Ttapi.bind at 1, Ttapi.gets at 1.
  rewrite Hc, He, Ht, Hs, Hl, Hb, Hb', Hcb.
  unfold Ttapi.bind at 1, Ttapi.modify at 1.
  unfold Ttapi.processLine, Ttapi.bind at 1, Ttapi.lift at 1. rewrite Hp.
  unfold Ttapi.bind at 1.
  rewrite handleCollection_passes by (left; exact Hcol).
  unfold Ttapi.bind at 1, Ttapi.gets at 1.
  cbn [Ttapi.waitID Ttapi.set_conn]. rewrite Hw, Hpos.
  unfold Ttapi.event_is at 1 2. cbn [Parmline.event]. rewrite String.eqb_refl.
  rewrite orb_true_r. cbn [andb].
  unfold Ttapi.bind at 1, Ttapi.lift at 1. rewrite id_is_waitID_spec.
  cbn [Parmline.parms Ttapi.waitID Ttapi.set_conn]. rewrite Hw.
  change (AttrDict.get [("id", VStr (of_int id))] "id" VNone) with (VStr (of_int id)).
  cbn [val_is_str]. rewrite String.eqb_refl.
  unfold Ttapi.bind at 1, Ttapi.ret at 1.
  unfold Ttapi.bind at 1, Ttapi.lift at 1.
  change (Ttapi.event_is_alpha _) with (Returned true).
  cbn [negb Parmline.event].
  change (Ttapi.find_handler "end") with (Some Ttapi.h_end).
  unfold Ttapi.finally, Ttapi.on_exception.
  unfold Ttapi.bind at 1, Ttapi.modify at 1.
  unfold Ttapi.bind at 1. cbn [Ttapi.run_handler Parmline.parms].
  unfold Ttapi.event_end, Ttapi.bind at 1, Ttapi.gets at 1.
  unfold Ttapi.is_waited_id.
  cbn [Ttapi.waitID Ttapi.emit Ttapi.set_effects Ttapi.set_conn]. rewrite Hw, Hz.
  change (AttrDict.get [("id", VStr (of_int id))] "id" VNone) with (VStr (of_int id)).
  cbn [val_is_str negb andb]. rewrite String.eqb_refl.
  reflexivity.
Qed.

(** A request that does not collect, answered by the two lines of its id
    block: [event_begin] and [event_end] take them, the second ends the
    wait, and [sendWithWait] returns [None]. *)
Theorem sendWithWait_block (line : string) (s : Ttapi.Session) :
  ready s -> Ttapi._collecting s = 0%Z ->
  Ttapi.sendWithWait fs os other line false true
    [block_line "begin" (next_id s); block_line "end" (next_id s)] s
  = (after_block line s, Returned None).
Proof.
  intros ((c & Hc & Hcb & Hs) & Hm & Hcur) Hcol.
  pose proof (next_id_range s Hm Hcur) as Hr.
  rewrite (sendWithWait_sends line false _ c s Hc Hm Hcur).
  unfold Ttapi.bind at 1.
  cbn [Ttapi.await]. cbn [Ttapi.ev_idblockDone Ttapi.emit Ttapi.set_effects Ttapi.set_collecting
                          Ttapi.set_outputCollection Ttapi.set_waitID Ttapi.set_ev_idblockDone].
  erewrite (watcher_line_begin_plain (next_id s) c);
    [|exact Hr|exact Hc|exact Hs|exact Hcb|exact Hcol|reflexivity].
  cbn [Ttapi.ev_idblockDone Ttapi.emit Ttapi.set_effects Ttapi.set_conn].
  erewrite (watcher_line_end_plain (next_id s));
    [|exact Hr|reflexivity|reflexivity|reflexivity|exact Hcol|reflexivity].
  unfold after_block. rewrite Hc.
  destruct c as [sd cb dr ut ci]. cbn in Hcb, Hs. subst sd cb.
  reflexivity.
Qed.

(** A line whose event is a word that no event method is named after: while
    no answer is being collected, [processLine] reports it as unrecognized
    and does nothing else. *)
Theorem processLine_unrecognized (line : string) (p : Parmline.ParmLine) (e : string)
  (s : Ttapi.Session) :
  Parmline.of_line line = Returned p ->
  Parmline.event p = Some e ->
  isalpha (replace "_" EmptyString e) = true ->
  Ttapi.find_handler e = None ->
  Ttapi._collecting s = 0%Z \/ Ttapi._collecting s = 1%Z ->
  Ttapi.processLine fs os other line s
  = (Ttapi.emit (written_line ("Unrecognized line:  " ++ line) false s) s, Returned tt).
Proof.
  intros Hp He Ha Hf Hcol.
  assert (Hno : forall h, Ttapi.event_is p (Ttapi.handler_name h) = false).
  { intros h. unfold Ttapi.event_is. rewrite He.
    destruct (String.eqb_spec e (Ttapi.handler_name h)) as [->|]; [|reflexivity].
    destruct h; vm_compute in Hf; discriminate Hf. }
  pose proof (Hno Ttapi.h_begin) as Hb. pose proof (Hno Ttapi.h_end) as Hend.
  pose proof (Hno Ttapi.h_connected) as Hco. pose proof (Hno Ttapi.h_disconnected) as Hdi.
  cbn [Ttapi.handler_name] in Hb, Hend, Hco, Hdi.
  unfold Ttapi.processLine, Ttapi.bind at 1, Ttapi.lift at 1. rewrite Hp.
  unfold Ttapi.bind at 1.
  rewrite handleCollection_passes.
  2:{ destruct Hcol as [H|H]; [now left|right]. unfold is_connection_event.
      now rewrite Hb, Hco, Hdi. }
  unfold Ttapi.bind at 1, Ttapi.gets at 1. rewrite Hb, Hend. rewrite andb_false_r.
  unfold Ttapi.bind at 1, Ttapi.ret at 1.
  unfold Ttapi.bind at 1, Ttapi.hookEvents, Ttapi.ret at 1.
  unfold Ttapi.bind at 1, Ttapi.lift at 1, Ttapi.event_is_alpha. rewrite He, Ha.
  cbn [negb]. rewrite Hf.
  unfold Ttapi.errorFromEvent. apply output_event_spec.
Qed.

End Answers.

Lemma sendWithWait_collects_witness :
  Ttapi.sendWithWait float_str0 object_str0 event_other0 "list" true true
    ["begin id=1"; "pong"; "adduser userid=7"; "end id=1"] session0
  = (after_answer "list" session0,
     Returned (Some [Parmline.mkParmLine "pong" [] (Some "pong") [] (Some "pong");
                     Parmline.mkParmLine "adduser userid=7" [] (Some "adduser")
                       [("userid", VStr "7")] (Some "adduser userid=7")])).
Proof.
  apply (sendWithWait_collects float_str0 object_str0 event_other0 "list"
           ["pong"; "adduser userid=7"]).
  - split; [exists (Ttapi.mkConn false true EmptyString 60 None); repeat split|];
      vm_compute; intuition discriminate.
  - repeat constructor; try discriminate; vm_compute; reflexivity.
Defined.

Lemma sendWithWait_times_out_witness :
  Ttapi.sendWithWait float_str0 object_str0 event_other0 "ping" true true [] session0
  = (after_timeout "ping" true session0, Returned (Some [])).
Proof.
  apply (sendWithWait_times_out float_str0 object_str0 event_other0 "ping" true session0).
  - discriminate.
  - reflexivity.
  - vm_compute. intuition discriminate.
Defined.

Lemma sendWithWait_block_witness :
  Ttapi.sendWithWait float_str0 object_str0 event_other0 "ping" false true
    ["begin id=1"; "end id=1"] session0
  = (after_block "ping" session0, Returned None).
Proof.
  apply (sendWithWait_block float_str0 object_str0 event_other0 "ping" session0).
  - split; [exists (Ttapi.mkConn false true EmptyString 60 None); repeat split|];
      vm_compute; intuition discriminate.
  - reflexivity.
Defined.

Lemma processLine_unrecognized_witness :
  Ttapi.processLine float_str0 object_str0 event_other0 "hello" session0
  = (Ttapi.emit (Ttapi.EWriteEvent "[srv] Unrecognized line:  hello") session0,
     Returned tt).
Proof.
  apply (processLine_unrecognized float_str0 object_str0 event_other0 "hello"
           (Parmline.mkParmLine "hello" [] (Some "hello") [] (Some "hello")) "hello" session0);
    try (vm_compute; reflexivity).
  now left.
Defined.

(** ** Lines that read back *)

Lemma word_char_facts (c : ascii) :
  word_char c = true ->
  isspace_char c = false /\ Shlex.is_whitespace c = false /\
  Shlex.is_quote c = false /\ Shlex.is_escape c = false.
Proof.
  destruct c as [[] [] [] [] [] [] [] []]; vm_compute; intros H;
    repeat split; try reflexivity; discriminate H.
Qed.

Lemma digit_is_word_char (c : ascii) : isdigit_char c = true -> word_char c = true.
Proof.
  destruct c as [[] [] [] [] [] [] [] []]; vm_compute; intros H;
    try reflexivity; discriminate H.
Qed.

Lemma all_chars_cons (p : ascii -> bool) (c : ascii) (s : string) :
  all_chars p (String c s) = p c && all_chars p s.
Proof. reflexivity. Qed.

Lemma all_chars_weaken (p q : ascii -> bool) (s : string) :
  (forall c, p c = true -> q c = true) -> all_chars p s = true -> all_chars q s = true.
Proof.
  intros Hpq. induction s as [|c s IH]; [reflexivity|].
  rewrite !all_chars_cons. intros H. apply andb_prop in H. destruct H as [Hc Hs].
  now rewrite (Hpq c Hc), (IH Hs).
Qed.

Lemma all_chars_no_char (p : ascii -> bool) (x : ascii) (s : string) :
  p x = false -> all_chars p s = true -> has_char x s = false.
Proof.
  intros Hx. induction s as [|c s IH]; [reflexivity|].
  rewrite all_chars_cons. intros H. apply andb_prop in H. destruct H as [Hc Hs].
  cbn [has_char]. rewrite (IH Hs), orb_false_r.
  apply Ascii.eqb_neq. intros ->. congruence.
Qed.

Lemma replace_absent_first (c : ascii) (old new s : string) :
  has_char c s = false -> replace (String c old) new s = s.
Proof.
  unfold replace. induction s as [|d s IH]; intros H; [reflexivity|].
  cbn [has_char] in H. apply orb_false_elim in H. destruct H as [Hd Hs].
  cbn [replace_from prefix].
  destruct (Ascii.ascii_dec c d) as [->|_]; [now rewrite Ascii.eqb_refl in Hd|].
  now rewrite (IH Hs).
Qed.

Lemma partition_char_sep (sep : ascii) (a b : string) :
  has_char sep a = false -> partition_char sep (a ++ String sep b) = (a, b).
Proof.
  induction a as [|c a IH]; intros H; cbn [append partition_char].
  - now rewrite Ascii.eqb_refl.
  - cbn [has_char] in H. apply orb_false_elim in H. destruct H as [Hc Ha].
    rewrite Hc, (IH Ha). reflexivity.
Qed.

Lemma lower_fixed (k : string) :
  all_chars (fun c => (lower_char c =? c)%char) k = true -> lower k = k.
Proof.
  induction k as [|c k IH]; [reflexivity|].
  rewrite all_chars_cons. intros H. apply andb_prop in H. destruct H as [Hc Hk].
  cbn [lower]. apply Ascii.eqb_eq in Hc. now rewrite Hc, (IH Hk).
Qed.

Lemma rstrip_word (w : string) :
  all_chars (fun c => negb (isspace_char c)) w = true -> rstrip w = w.
Proof.
  induction w as [|c w IH]; [reflexivity|].
  rewrite all_chars_cons. intros H. apply andb_prop in H. destruct H as [Hc Hw].
  cbn [rstrip]. rewrite (IH Hw). apply negb_true_iff in Hc. rewrite Hc.
  now destruct w.
Qed.

Lemma fixParm_plain (v : string) :
  plain_value v = true -> Parmline._fixParm (VStr v) true = Returned (quoted v).
Proof.
  intros H. unfold Parmline._fixParm, quoted.
  destruct (isdigit v && negb (has_char " " v)); [reflexivity|].
  assert (Hq : has_char dquote v = false)
    by (apply (all_chars_no_char _ dquote v) in H; [exact H | reflexivity]).
  assert (Hb : has_char backslash v = false)
    by (apply (all_chars_no_char _ backslash v) in H; [exact H | reflexivity]).
  unfold chr at 2. rewrite (replace_absent_first dquote EmptyString _ v Hq).
  now rewrite (replace_absent_first backslash _ _ v Hb).
Qed.

Lemma quoted_ends (v : string) :
  rstrip (quoted v) = quoted v /\ quoted v <> EmptyString.
Proof.
  unfold quoted. destruct (isdigit v && negb (has_char " " v)) eqn:E.
  - apply andb_prop in E. destruct E as [E _]. unfold isdigit in E.
    apply andb_prop in E. destruct E as [Hne Hd]. split.
    + apply rstrip_word. revert Hd. apply all_chars_weaken. intros c Hc.
      apply digit_is_word_char in Hc. apply word_char_facts in Hc. destruct Hc as [-> _].
      reflexivity.
    + intros ->. discriminate Hne.
  - split; [|discriminate].
    change (chr dquote ++ v ++ chr dquote) with (String dquote (v ++ chr dquote)).
    replace (String dquote (v ++ chr dquote)) with ((String dquote v) ++ chr dquote)
      by reflexivity.
    apply rstrip_app; [reflexivity | discriminate].
Qed.

Lemma makeline_loop_plain (parms : AttrDict.t) :
  Forall (fun kv => plain_key (fst kv) = true /\
                    exists v, snd kv = VStr v /\ plain_value v = true) parms ->
  forall l, Parmline.makeline_loop (Some l) parms = Returned (Some (l ++ items_text parms)).
Proof.
  induction 1 as [|[k v] parms (_ & x & Hv & Hx) _ IH]; intros l.
  - cbn [Parmline.makeline_loop items_text]. now rewrite append_nil_r.
  - cbn [snd] in Hv. subst v. cbn [Parmline.makeline_loop items_text text_of].
    rewrite (fixParm_plain x Hx). cbn [obind]. rewrite IH.
    now rewrite !append_assoc.
Qed.

Lemma rstrip_items (parms : AttrDict.t) :
  forall x, rstrip x = x -> x <> EmptyString ->
  rstrip (x ++ items_text parms) = x ++ items_text parms.
Proof.
  induction parms as [|[k v] parms IH]; intros x Hx Hne.
  - cbn [items_text]. now rewrite append_nil_r.
  - cbn [items_text].
    replace (x ++ " " ++ k ++ "=" ++ quoted (text_of v) ++ items_text parms)
      with ((x ++ " " ++ k ++ "=" ++ quoted (text_of v)) ++ items_text parms)
      by now rewrite !append_assoc.
    destruct (quoted_ends (text_of v)) as [Hq Hn].
    apply IH.
    + replace (x ++ " " ++ k ++ "=" ++ quoted (text_of v))
        with ((x ++ " " ++ k ++ "=") ++ quoted (text_of v)) by now rewrite !append_assoc.
      now apply rstrip_app.
    + now apply append_nonempty_l.
Qed.

Lemma tokens_word (w : string) :
  all_chars word_char w = true ->
  forall tok rest, Shlex.tokens Shlex.Word tok (w ++ rest) = Shlex.tokens Shlex.Word (tok ++ w) rest.
Proof.
  induction w as [|c w IH]; intros H tok rest.
  - now rewrite append_nil_r.
  - rewrite all_chars_cons in H. apply andb_prop in H. destruct H as [Hc Hw].
    destruct (word_char_facts c Hc) as (_ & H1 & H2 & H3).
    cbn [append Shlex.tokens]. rewrite H1, H2, H3. rewrite (IH Hw).
    unfold Shlex.snoc, chr. now rewrite append_assoc.
Qed.

Lemma tokens_first (c : ascii) (w rest : string) :
  all_chars word_char (String c w) = true ->
  Shlex.tokens Shlex.Blank EmptyString (String c w ++ rest)
  = Shlex.tokens Shlex.Word (String c w) rest.
Proof.
  intros H. rewrite all_chars_cons in H. apply andb_prop in H. destruct H as [Hc Hw].
  destruct (word_char_facts c Hc) as (_ & H1 & H2 & H3).
  cbn [append Shlex.tokens]. rewrite H1, H2, H3. now rewrite (tokens_word w Hw).
Qed.

Lemma tokens_quoted (v : string) :
  plain_value v = true ->
  forall tok rest,
    Shlex.tokens (Shlex.Quoted dquote) tok (v ++ String dquote rest)
    = Shlex.tokens Shlex.Word (tok ++ v) rest.
Proof.
  unfold plain_value. induction v as [|c v IH]; intros H tok rest.
  - cbn [append Shlex.tokens]. rewrite Ascii.eqb_refl. now rewrite append_nil_r.
  - rewrite all_chars_cons in H. apply andb_prop in H. destruct H as [Hc Hv].
    apply andb_prop in Hc. destruct Hc as [Hq Hb].
    apply negb_true_iff in Hq, Hb.
    cbn [append Shlex.tokens]. rewrite Hq. unfold Shlex.is_escape. rewrite Hb. cbn [andb].
    rewrite (IH Hv). unfold Shlex.snoc, chr. now rewrite append_assoc.
Qed.

Lemma key_is_word (k : string) :
  plain_key k = true ->
  all_chars word_char (k ++ "=") = true /\ has_char "=" k = false /\ lower k = k.
Proof.
  unfold plain_key. intros H. repeat split.
  - induction k as [|c k IH]; [reflexivity|].
    rewrite all_chars_cons in H. apply andb_prop in H. destruct H as [Hc Hk].
    apply andb_prop in Hc. destruct Hc as [Hc _]. apply andb_prop in Hc. destruct Hc as [Hc _].
    cbn [append]. rewrite all_chars_cons, Hc. exact (IH Hk).
  - apply (all_chars_no_char _ "="%char k) in H; [exact H|].
    now rewrite andb_false_r.
  - apply lower_fixed. revert H. apply all_chars_weaken. intros c Hc.
    apply andb_prop in Hc. now destruct Hc.
Qed.

Lemma tokens_items (parms : AttrDict.t) :
  Forall (fun kv => plain_key (fst kv) = true /\
                    exists v, snd kv = VStr v /\ plain_value v = true) parms ->
  forall tok, Shlex.tokens Shlex.Word tok (items_text parms)
              = Returned (tok :: map part_of parms).
Proof.
  induction 1 as [|[k v] parms (Hk & x & Hv & Hx) _ IH]; intros tok; [reflexivity|].
  cbn [fst snd] in Hk, Hv. subst v.
  destruct (key_is_word k Hk) as (Hw & _ & _).
  cbn [items_text text_of map]. change (part_of (k, VStr x)) with (k ++ "=" ++ x).
  change (" " ++ k ++ "=" ++ quoted x ++ items_text parms)
    with (String " " (k ++ "=" ++ quoted x ++ items_text parms)).
  cbn [Shlex.tokens]. change (Shlex.is_whitespace " ") with true. cbv iota.
  replace (k ++ "=" ++ quoted x ++ items_text parms)
    with ((k ++ "=") ++ quoted x ++ items_text parms) by now rewrite append_assoc.
  destruct (k ++ "=") as [|c w] eqn:E; [destruct k; discriminate E|].
  rewrite (tokens_first c w _ Hw). rewrite <- E. clear E c w Hw.
  assert (Hgo : Shlex.tokens Shlex.Word (k ++ "=") (quoted x ++ items_text parms)
                = Shlex.tokens Shlex.Word (k ++ "=" ++ x) (items_text parms)).
  { unfold quoted. destruct (isdigit x && negb (has_char " " x)) eqn:Ed.
    - apply andb_prop in Ed. destruct Ed as [Ed _]. unfold isdigit in Ed.
      apply andb_prop in Ed. destruct Ed as [_ Ed].
      rewrite tokens_word; [now rewrite append_assoc|].
      revert Ed. apply all_chars_weaken. exact digit_is_word_char.
    - change ((chr dquote ++ x ++ chr dquote) ++ items_text parms)
        with (String dquote ((x ++ chr dquote) ++ items_text parms)).
      rewrite append_assoc. change (chr dquote ++ items_text parms)
        with (String dquote (items_text parms)).
      cbn [Shlex.tokens]. change (Shlex.is_whitespace dquote) with false.
      change (Shlex.is_quote dquote) with true. cbv iota.
      rewrite (tokens_quoted x Hx). now rewrite append_assoc. }
  rewrite Hgo, IH. reflexivity.
Qed.

Lemma store_new (k : string) (v : PyVal) (d : AttrDict.t) :
  ~ In k (map fst d) -> PyDict.store k v d = (d ++ [(k, v)])%list.
Proof.
  induction d as [|[k' v'] d IH]; intros H; [reflexivity|].
  cbn [PyDict.store app]. cbn [map fst In] in H.
  destruct (String.eqb_spec k' k) as [->|_]; [tauto|].
  rewrite IH; [reflexivity | tauto].
Qed.

Lemma split_parts_plain (parms : AttrDict.t) :
  Forall (fun kv => plain_key (fst kv) = true /\
                    exists v, snd kv = VStr v /\ plain_value v = true) parms ->
  forall acc, NoDup (map fst (acc ++ parms)%list) ->
  Parmline.split_parts (map part_of parms) acc = (acc ++ parms)%list.
Proof.
  induction 1 as [|[k v] parms (Hk & x & Hv & Hx) _ IH]; intros acc Hnd.
  - cbn [map Parmline.split_parts]. now rewrite app_nil_r.
  - cbn [fst snd] in Hk, Hv. subst v.
    destruct (key_is_word k Hk) as (_ & He & Hl).
    cbn [map Parmline.split_parts].
    change (part_of (k, VStr x)) with (k ++ String "=" x).
    rewrite has_char_app. cbn [has_char]. rewrite Ascii.eqb_refl, orb_true_r.
    rewrite (partition_char_sep "=" k x He). cbn [fst snd].
    unfold AttrDict.__setitem__. rewrite Hl.
    assert (Hin : ~ In k (map fst acc)).
    { rewrite map_app in Hnd. cbn [map fst] in Hnd.
      apply NoDup_remove_2 in Hnd. intros Hi. apply Hnd. apply in_or_app. now left. }
    rewrite (store_new k (VStr x) acc Hin).
    rewrite IH; [now rewrite <- app_assoc|].
    now rewrite <- app_assoc.
Qed.

(** [makeline] and [splitline] on plain parameters: the line that
    [makeline] writes is split into the event and the parameters it was
    made from, and a [ParmLine] built from that line keeps the line as it
    is. *)
Theorem splitline_makeline (e : string) (parms : AttrDict.t) :
  plain_event e -> plain_parms parms ->
  Parmline.makeline (Some e) parms = Returned (Some (e ++ items_text parms)) /\
  Parmline.splitline (e ++ items_text parms) = Returned (Some e, parms) /\
  Parmline.of_line (e ++ items_text parms)
  = Returned (Parmline.mkParmLine (e ++ items_text parms) [] (Some e) parms
                (Some (e ++ items_text parms))).
Proof.
  intros (Hne & He) (Hnd & Hp).
  assert (Hm : Parmline.makeline (Some e) parms = Returned (Some (e ++ items_text parms)))
    by (apply (makeline_loop_plain parms Hp)).
  assert (Hw : all_chars word_char e = true).
  { revert He. apply all_chars_weaken. intros c Hc. apply andb_prop in Hc. now destruct Hc. }
  assert (Hno : has_char "=" e = false).
  { apply (all_chars_no_char _ "="%char e) in He; [exact He|]. now rewrite andb_false_r. }
  assert (Hs : Parmline.splitline (e ++ items_text parms) = Returned (Some e, parms)).
  { unfold Parmline.splitline, strip.
    destruct e as [|c w]; [congruence|].
    pose proof Hw as Hw'. rewrite all_chars_cons in Hw'. apply andb_prop in Hw'.
    destruct Hw' as [Hc _]. destruct (word_char_facts c Hc) as (Hsp & _).
    assert (Hl : lstrip (String c w ++ items_text parms) = String c w ++ items_text parms)
      by (cbn [append lstrip]; now rewrite Hsp).
    rewrite Hl. rewrite rstrip_items; [|apply rstrip_word|discriminate].
    2:{ revert Hw. apply all_chars_weaken. intros d Hd.
        destruct (word_char_facts d Hd) as (-> & _). reflexivity. }
    unfold Shlex.split. rewrite (tokens_first c w _ Hw), (tokens_items parms Hp).
    cbn [obind]. rewrite Hno.
    unfold AttrDict.empty. now rewrite (split_parts_plain parms Hp [] Hnd). }
  split; [exact Hm|]. split; [exact Hs|].
  unfold Parmline.of_line, Parmline.new. rewrite Hs. cbn [obind]. cbv zeta.
  unfold PyDict.update, AttrDict.empty. cbn [fst snd fold_left].
  rewrite Hm. reflexivity.
Qed.

Lemma splitline_makeline_witness :
  Parmline.splitline ("login username=" ++ chr dquote ++ "Ann Lee" ++ chr dquote ++ " userid=7")
  = Returned (Some "login", [("username", VStr "Ann Lee"); ("userid", VStr "7")]).
Proof.
  apply (splitline_makeline "login" [("username", VStr "Ann Lee"); ("userid", VStr "7")]).
  - split; [discriminate | reflexivity].
  - split.
    + repeat constructor; cbn; intuition discriminate.
    + repeat constructor; cbn [fst snd]; eauto.
Defined.

(** ** The parser always moves on *)

Lemma span_length (p : ascii -> bool) (s : string) :
  (String.length (snd (Parmline.span p s)) <= String.length s)%nat.
Proof.
  induction s as [|c s IH]; [cbn; lia|].
  cbn [Parmline.span]. destruct (p c); [|cbn; lia].
  destruct (Parmline.span p s) as [a b]. cbn [snd String.length] in *. lia.
Qed.

Lemma lstrip_length (s : string) : (String.length (lstrip s) <= String.length s)%nat.
Proof.
  induction s as [|c s IH]; [cbn; lia|].
  cbn [lstrip]. destruct (isspace_char c); cbn [String.length] in *; lia.
Qed.

Lemma rstrip_length (s : string) : (String.length (rstrip s) <= String.length s)%nat.
Proof.
  induction s as [|c s IH]; [cbn; lia|].
  cbn [rstrip]. revert IH. destruct (rstrip s); intros IH;
    [destruct (isspace_char c)|]; unfold chr; cbn [String.length] in *; lia.
Qed.

Lemma strip_length (s : string) : (String.length (strip s) <= String.length s)%nat.
Proof.
  unfold strip. pose proof (rstrip_length (lstrip s)). pose proof (lstrip_length s). lia.
Qed.

Lemma lstrip_first (s : string) (c : ascii) (r : string) :
  lstrip s = String c r -> isspace_char c = false.
Proof.
  induction s as [|d s IH]; [discriminate|].
  cbn [lstrip]. destruct (isspace_char d) eqn:E; [exact IH|].
  intros H. injection H as -> _. exact E.
Qed.

Lemma strip_first (s : string) (c : ascii) (r : string) :
  strip s = String c r -> isspace_char c = false.
Proof.
  unfold strip. destruct (lstrip s) as [|d t] eqn:E; [discriminate|].
  apply lstrip_first in E. cbn [rstrip]. rewrite E.
  destruct (rstrip t); intros H; injection H as <- _; exact E.
Qed.

Lemma whitespace_is_space (c : ascii) : Shlex.is_whitespace c = true -> isspace_char c = true.
Proof.
  destruct c as [[] [] [] [] [] [] [] []]; vm_compute; intros H;
    try reflexivity; discriminate H.
Qed.

Lemma nextString_loop_length (n : nat) :
  forall (q : bool) (val l v r : string),
    (String.length l <= n)%nat ->
    Parmline._nextString_loop q val l = Returned (v, r) ->
    (String.length r <= String.length l)%nat.
Proof.
  induction n as [|n IH]; intros q val l v r Hn H.
  - destruct l; [|cbn in Hn; lia]. cbn in H. injection H as _ <-. cbn. lia.
  - destruct l as [|ch rest]; [cbn in H; injection H as _ <-; cbn; lia|].
    cbn [String.length] in Hn. cbn [Parmline._nextString_loop] in H.
    destruct (ch =? backslash)%char.
    + destruct rest as [|c2 rest2]; [discriminate|].
      cbn [String.length] in *. apply IH in H; [lia|lia].
    + destruct q.
      * destruct (ch =? dquote)%char.
        -- injection H as _ <-. cbn [String.length]. lia.
        -- apply IH in H; [cbn [String.length]; lia | lia].
      * destruct (Shlex.is_whitespace ch).
        -- injection H as _ <-. lia.
        -- apply IH in H; [cbn [String.length]; lia | lia].
Qed.

Lemma nextString_length (l v r : string) :
  Parmline._nextString l = Returned (v, r) ->
  (String.length r <= String.length l)%nat /\
  (forall c t, l = String c t -> isspace_char c = false ->
     (String.length r < String.length l)%nat).
Proof.
  unfold Parmline._nextString. destruct l as [|c t]; [discriminate|].
  destruct (c =? dquote)%char.
  - intros H. apply (nextString_loop_length (String.length t)) in H; [|lia].
    cbn [String.length]. split; [lia|]. intros; lia.
  - intros H. split.
    + now apply (nextString_loop_length (String.length (String c t))) in H.
    + intros c' t' E Hsp. injection E as <- <-.
      cbn [Parmline._nextString_loop] in H.
      destruct (c =? backslash)%char.
      * destruct t as [|c2 t2]; [discriminate|].
        apply (nextString_loop_length (String.length t2)) in H; [|lia].
        cbn [String.length]. lia.
      * destruct (Shlex.is_whitespace c) eqn:W.
        -- apply whitespace_is_space in W. congruence.
        -- apply (nextString_loop_length (String.length t)) in H; [|lia].
           cbn [String.length]. lia.
Qed.

Lemma upto_bracket_length (s a b : string) :
  Parmline.upto_bracket s = Some (a, b) -> (String.length b < String.length s)%nat.
Proof.
  revert a b. induction s as [|c s IH]; intros a b; [discriminate|].
  cbn [Parmline.upto_bracket]. destruct (c =? "]")%char.
  - intros H. injection H as _ <-. cbn [String.length]. lia.
  - destruct (Parmline.upto_bracket s) as [[a' b']|]; [|discriminate].
    intros H. injection H as _ <-. specialize (IH a' b' eq_refl). cbn [String.length]. lia.
Qed.

Lemma next_consumes (relaxed : bool) (line : string) (p : Parmline.TTParm) (rest : string) :
  Parmline.next relaxed line = Returned (p, rest) ->
  (String.length rest < String.length line)%nat.
Proof.
  unfold Parmline.next. pose proof (strip_length line) as Hs.
  destruct (strip line) as [|c t] eqn:E; [discriminate|].
  apply strip_first in E. cbn [String.eqb].
  set (l := String c t) in *.
  assert (Hk : forall kw l1,
             match Parmline.match_keyword l with
             | Some r => Returned r
             | None => if relaxed then Parmline._nextString l else Raised ValueError
             end = Returned (kw, l1) -> (String.length l1 < String.length l)%nat).
  { intros kw l1. subst l. cbn [Parmline.match_keyword].
    destruct (Parmline.kw_start c).
    - pose proof (span_length Parmline.kw_char t) as Hsp.
      destruct (Parmline.span Parmline.kw_char t) as [a b]. cbn [snd] in Hsp.
      intros H. injection H as _ <-. cbn [String.length]. lia.
    - destruct relaxed; [|discriminate]. intros H.
      apply nextString_length in H. destruct H as [_ H]. exact (H c t eq_refl E). }
  destruct (match Parmline.match_keyword l with
            | Some r => Returned r
            | None => if relaxed then Parmline._nextString l else Raised ValueError
            end) as [[kw l1]|] eqn:Ek; [|discriminate].
  specialize (Hk kw l1 eq_refl). cbn [obind].
  destruct l1 as [|c1 l2].
  - intros H. injection H as _ <-. cbn [String.length] in *. lia.
  - destruct (c1 =? "=")%char; cbn [negb].
    2:{ intros H. injection H as _ <-. lia. }
    cbn [String.length] in Hk.
    destruct l2 as [|c2 l3]; [discriminate|].
    destruct (c2 =? "[")%char.
    + destruct (Parmline.upto_bracket (String c2 l3)) as [[val r]|] eqn:Eu; [|discriminate].
      apply upto_bracket_length in Eu. intros H. injection H as _ <-. lia.
    + destruct ((c2 =? "-")%char || between 48 57 c2).
      * pose proof (span_length re_digit l3) as Hsp.
        destruct (Parmline.span re_digit l3) as [a b]. cbn [snd] in Hsp.
        destruct (Parmline.IntParm kw (String c2 a)); [|discriminate].
        cbn [obind]. intros H. injection H as _ <-. cbn [String.length] in *. lia.
      * destruct (Parmline._nextString (String c2 l3)) as [[v r]|] eqn:En; [|discriminate].
        apply nextString_length in En. destruct En as [En _].
        cbn [obind snd]. intros H. injection H as _ <-. lia.
Qed.

Lemma getParms_loop_enough (relaxed : bool) (fuel : nat) :
  forall (line : string) (fuel' : nat),
    (String.length line < fuel)%nat -> (String.length line < fuel')%nat ->
    Parmline.getParms_loop fuel relaxed line = Parmline.getParms_loop fuel' relaxed line.
Proof.
  induction fuel as [|fuel IH]; intros line fuel' H H'; [lia|].
  destruct fuel' as [|fuel']; [lia|].
  cbn [Parmline.getParms_loop].
  destruct (line =? EmptyString); [reflexivity|].
  destruct (Parmline.next relaxed line) as [[p rest]|] eqn:E; [|reflexivity].
  apply next_consumes in E. cbn [obind snd fst].
  rewrite (IH rest fuel'); [reflexivity | lia | lia].
Qed.

(** [Parser.next] takes at least one character off the line whenever it
    returns, so the loop of [getParms] ends: no bound above the length of
    the line changes what it returns. *)
Theorem getParms_ends (relaxed : bool) (line : string) :
  (forall p rest, Parmline.next relaxed line = Returned (p, rest) ->
     (String.length rest < String.length line)%nat) /\
  (forall fuel, (String.length line < fuel)%nat ->
     Parmline.getParms_loop fuel relaxed line = Parmline.getParms relaxed line).
Proof.
  split.
  - intros p rest. apply next_consumes.
  - intros fuel H. unfold Parmline.getParms. apply getParms_loop_enough; [exact H | lia].
Qed.

Lemma getParms_ends_witness :
  (String.length " userid=7" < String.length "login userid=7")%nat.
Proof.
  apply (proj1 (getParms_ends false "login userid=7") (Parmline.KeywordParm "login")).
  reflexivity.
Defined.

(** ** The end of a connection *)

Section Disconnect.

Local Open Scope list_scope.

Variable fs : Q -> string.
Variable os : string.
Variable other : Ttapi.Handler -> AttrDict.t -> Ttapi.M bool.

Lemma cleared_effects (es : list Ttapi.Effect) (s : Ttapi.Session) :
  cleared s -> cleared (Ttapi.set_effects es s).
Proof. exact (fun H => H). Qed.

Lemma clear_cleared (s : Ttapi.Session) : cleared (fst (Ttapi.clear s)).
Proof. repeat split. Qed.

Lemma event_disconnected_cleared (parms : AttrDict.t) (s : Ttapi.Session) :
  cleared (fst (Ttapi.event__disconnected_ parms s)).
Proof.
  unfold Ttapi.event__disconnected_, Ttapi.bind at 1, Ttapi.gets at 1.
  set (buf := if _ =? _ then _ else _).
  unfold Ttapi.bind at 1.
  destruct (outputFromEvent_effects buf false s) as (es1 & Hn1 & ->).
  unfold Ttapi.bind at 1. unfold Ttapi.clear, Ttapi.modify at 1.
  unfold Ttapi.bind at 1.
  match goal with |- context [Ttapi._handleRecycling false ?x] =>
    destruct (handleRecycling_spec x) as (es2 & -> & H2) end.
  repeat split.
Qed.

Lemma disconnected_line_cleared (s : Ttapi.Session) :
  cleared (fst (Ttapi.processLine fs os other "_disconnected_" s)).
Proof.
  assert (Hp : exists p, Parmline.of_line "_disconnected_" = Returned p
                         /\ Parmline.event p = Some "_disconnected_"%string
                         /\ is_connection_event p = true)
    by (eexists; repeat split).
  destruct Hp as (p & Hp & He & Hk).
  destruct (handleCollection_connection_event p s Hk) as (es1 & s1 & Hc & _).
  pose proof (event_disconnected_cleared (Parmline.parms p)
                (Ttapi.emit (Ttapi.EHandler "_disconnected_" (Parmline.parms p)) s1)) as Hcl.
  destruct (event_disconnected_spec (Parmline.parms p)
              (Ttapi.emit (Ttapi.EHandler "_disconnected_" (Parmline.parms p)) s1))
    as (es2 & s2 & Hr & _).
  rewrite Hr in Hcl.
  rewrite (processLine_dispatch fs os other "_disconnected_" p s s1 s2 "_disconnected_"
             Ttapi.h_disconnected Hp Hc He eq_refl eq_refl Hr).
  exact Hcl.
Qed.

(** [disconnect()] always leaves the session cleared.  With a connection
    that still reports to the session it raises [AttributeError]: the
    connection tells the session, which clears itself and, with automatic
    login on, schedules a login; it closes the socket; then it asks itself
    for [play], which it does not have.  [terminate()] of the connection and
    the final [clear()] are not reached. *)
Theorem disconnect_clears (s : Ttapi.Session) :
  exists s' es,
    Ttapi.disconnect fs os other s = (s', disconnect_outcome s) /\
    cleared s' /\
    Ttapi.effects s' = Ttapi.effects s ++ es /\
    match disconnect_outcome s with
    | Returned _ => es = []
    | Raised _ =>
        exists es1, es = es1 ++ [Ttapi.ESockClose] /\
          if negb (Ttapi.autoLogin s =? 0)%Z && negb (Ttapi.manualCM s)
          then exists es', no_timer es' /\ es1 = es' ++ [Ttapi.ETimerLogin 5 true]
          else no_timer es1
    end.
Proof.
  unfold Ttapi.disconnect, disconnect_outcome.
  unfold Ttapi.bind at 1, Ttapi.gets at 1.
  destruct (Ttapi.conn s) as [c|] eqn:Hc.
  - unfold Ttapi.bind at 1.
    unfold Ttapi.conn_disconnect, Ttapi.bind at 1, Ttapi.gets at 1. rewrite Hc.
    destruct (Ttapi.callback c) eqn:Hcb; cbn [negb].
    + unfold Ttapi.bind at 1, Ttapi.modify at 1.
      unfold Ttapi.bind at 1.
      set (s0 := Ttapi.set_conn _ s).
      pose proof (disconnected_line_cleared s0) as Hcl.
      destruct (disconnected_line fs os other s0) as (es & s2 & H2 & He2 & Ht).
      rewrite H2 in Hcl |- *. cbn [fst] in Hcl.
      unfold Ttapi.bind at 1, Ttapi.modify at 1. unfold Ttapi.raise.
      exists (Ttapi.emit Ttapi.ESockClose s2), (es ++ [Ttapi.ESockClose]).
      split; [reflexivity|]. split; [exact Hcl|]. split.
      * cbn. rewrite He2. now rewrite <- app_assoc.
      * exists es. split; [reflexivity | exact Ht].
    + unfold Ttapi.ret at 1. unfold Ttapi.bind at 1, Ttapi.gets at 1. rewrite Hc.
      unfold Ttapi.bind at 1, Ttapi.modify at 1.
      eexists. exists []. split; [reflexivity|]. split; [repeat split|].
      split; [cbn; now rewrite app_nil_r | reflexivity].
  - unfold Ttapi.bind at 1, Ttapi.ret at 1.
    unfold Ttapi.bind at 1, Ttapi.gets at 1. rewrite Hc.
    unfold Ttapi.bind at 1, Ttapi.ret at 1.
    eexists. exists []. split; [reflexivity|]. split; [repeat split|].
    split; [cbn; now rewrite app_nil_r | reflexivity].
Qed.

(** What the connection does when it gives up: the session is told and
    clears itself, the socket is closed, and the missing [play] raises. *)
Lemma conn_disconnect_live (reason : string) (c : Ttapi.Conn) (s : Ttapi.Session) :
  Ttapi.conn s = Some c -> Ttapi.callback c = true ->
  exists s2 es,
    Ttapi.conn_disconnect fs os other reason s
    = (Ttapi.emit Ttapi.ESockClose s2, Raised AttributeError) /\
    cleared s2 /\
    Ttapi.effects s2 = Ttapi.effects s ++ es.
Proof.
  intros Hc Hcb.
  unfold Ttapi.conn_disconnect, Ttapi.bind at 1, Ttapi.gets at 1. rewrite Hc, Hcb. cbn [negb].
  unfold Ttapi.bind at 1, Ttapi.modify at 1.
  unfold Ttapi.bind at 1.
  set (s0 := Ttapi.set_conn _ s).
  pose proof (disconnected_line_cleared s0) as Hcl.
  destruct (disconnected_line fs os other s0) as (es & s2 & H2 & He & _).
  rewrite H2 in Hcl |- *. cbn [fst] in Hcl.
  exists s2, es. split; [reflexivity|]. split; [exact Hcl | exact He].
Qed.

(** A request on a socket that does not take the bytes: the connection
    gives up, and what reaches the caller of [sendWithWait] is the
    [AttributeError] of the connection, not an [IOError]; the session is
    cleared, and the last thing done is the closing of the socket. *)
Theorem sendWithWait_broken_socket (line : string) (returnResults : bool)
  (arrivals : list string) (c : Ttapi.Conn) (s : Ttapi.Session) :
  Ttapi.conn s = Some c -> Ttapi.callback c = true ->
  exists s' es,
    Ttapi.sendWithWait fs os other line returnResults false arrivals s
    = (s', Raised AttributeError) /\
    cleared s' /\
    Ttapi.effects s' = Ttapi.effects s ++ es ++ [Ttapi.ESockClose].
Proof.
  intros Hc Hcb.
  unfold Ttapi.sendWithWait.
  unfold Ttapi.bind at 1, Ttapi.modify at 1.
  unfold Ttapi.bind at 1, Ttapi.modify at 1.
  unfold Ttapi.bind at 1, Ttapi.gets at 1.
  unfold Ttapi.bind at 1, Ttapi.modify at 1.
  unfold Ttapi.bind at 1.
  match goal with
  | |- context [(if returnResults then ?a else ?b) ?st] =>
      assert (H1 : exists s2, (if returnResults then a else b) st = (s2, Returned tt) /\
                              Ttapi.conn s2 = Some c /\ Ttapi.effects s2 = Ttapi.effects s)
  end.
  { destruct returnResults; eexists; (split; [reflexivity|]);
      cbn; (split; [|now destruct (Ttapi.maxID s <? Ttapi.curID s + 1)%Z]);
      destruct (Ttapi.maxID s <? Ttapi.curID s + 1)%Z; exact Hc. }
  destruct H1 as (s2 & -> & Hc2 & He2).
  unfold Ttapi.bind at 1.
  unfold Ttapi.send, Ttapi.bind at 1, Ttapi.gets at 1. rewrite Hc2.
  unfold Ttapi.bind at 1.
  destruct (conn_disconnect_live "Error during send" c s2 Hc2 Hcb) as (s3 & es & -> & Hcl & He).
  exists (Ttapi.emit Ttapi.ESockClose s3), es. split; [reflexivity|]. split; [exact Hcl|].
  cbn. rewrite He, He2. now rewrite <- app_assoc.
Qed.

(** The reason the connection gives for its end reaches the user: the
    session writes it after the word [Disconnected], between parentheses,
    before it clears itself. *)
Theorem conn_disconnect_reports (reason : string) (c : Ttapi.Conn) (s : Ttapi.Session) :
  Ttapi.conn s = Some c -> Ttapi.callback c = true -> Ttapi._collecting s = 0%Z ->
  exists s',
    Ttapi.conn_disconnect fs os other reason s = (s', Raised AttributeError) /\
    cleared s' /\
    In (written_line (if reason =? EmptyString then "Disconnected"
                      else ("Disconnected (" ++ reason ++ ")")%string) false s)
       (Ttapi.effects s').
Proof.
  intros Hc Hcb Hcol.
  unfold Ttapi.conn_disconnect, Ttapi.bind at 1, Ttapi.gets at 1. rewrite Hc, Hcb. cbn [negb].
  unfold Ttapi.bind at 1, Ttapi.modify at 1.
  unfold Ttapi.bind at 1.
  set (c0 := Ttapi.mkConn _ _ _ _ _).
  set (s0 := Ttapi.set_conn (Some c0) s).
  assert (Hp : exists p, Parmline.of_line "_disconnected_" = Returned p
                         /\ Parmline.event p = Some "_disconnected_"%string)
    by (eexists; repeat split).
  destruct Hp as (p & Hp & He).
  pose proof (handleCollection_passes p s0 (or_introl Hcol)) as Hh.
  set (s1 := Ttapi.emit (Ttapi.EHandler "_disconnected_" (Parmline.parms p)) s0).
  set (buf := if reason =? EmptyString then "Disconnected"
              else ("Disconnected (" ++ reason ++ ")")%string).
  assert (Hr : exists s2,
            Ttapi.event__disconnected_ (Parmline.parms p) s1 = (s2, Returned true) /\
            cleared s2 /\ In (written_line buf false s) (Ttapi.effects s2)).
  { unfold Ttapi.event__disconnected_, Ttapi.bind at 1, Ttapi.gets at 1.
    change (Ttapi.conn s1) with (Some c0).
    unfold Ttapi.bind at 1.
    change (Ttapi.outputFromEvent _ false s1) with (Ttapi.outputFromEvent buf false s1).
    destruct (outputFromEvent_adds buf false s1) as (logs & _ & ->).
    unfold Ttapi.bind at 1. unfold Ttapi.clear, Ttapi.modify at 1.
    unfold Ttapi.bind at 1.
    match goal with |- context [Ttapi._handleRecycling false ?x] =>
      destruct (handleRecycling_spec x) as (es2 & -> & _) end.
    eexists. split; [reflexivity|]. split; [repeat split|].
    cbn. apply in_or_app. left. apply in_or_app. right. apply in_or_app. right. now left. }
  destruct Hr as (s2 & Hr & Hcl & Hin).
  rewrite (processLine_dispatch fs os other "_disconnected_" p s0 s0 s2 "_disconnected_"
             Ttapi.h_disconnected Hp Hh He eq_refl eq_refl Hr).
  exists (Ttapi.emit Ttapi.ESockClose s2). split; [reflexivity|]. split; [exact Hcl|].
  cbn. apply in_or_app. now left.
Qed.

End Disconnect.

Lemma sendWithWait_broken_socket_witness :
  exists s' es,
    Ttapi.sendWithWait float_str0 object_str0 event_other0 "ping" true false [] session0
    = (s', Raised AttributeError) /\
    cleared s' /\
    Ttapi.effects s' = (Ttapi.effects session0 ++ es ++ [Ttapi.ESockClose])%list.
Proof.
  apply (sendWithWait_broken_socket float_str0 object_str0 event_other0 "ping" true []
           (Ttapi.mkConn false true EmptyString 60 None) session0); reflexivity.
Defined.

Lemma conn_disconnect_reports_witness :
  exists s',
    Ttapi.conn_disconnect float_str0 object_str0 event_other0 "Error during send" session0
    = (s', Raised AttributeError) /\
    cleared s' /\
    In (Ttapi.EWriteEvent "[srv] Disconnected (Error during send)") (Ttapi.effects s').
Proof.
  apply (conn_disconnect_reports float_str0 object_str0 event_other0 "Error during send"
           (Ttapi.mkConn false true EmptyString 60 None) session0); reflexivity.
Defined.

(** ** Typed parameters that read back *)

Lemma kw_start_facts (c : ascii) :
  Parmline.kw_start c = true -> isspace_char c = false /\ Parmline.kw_char c = true.
Proof.
  destruct c as [[] [] [] [] [] [] [] []]; vm_compute; intros H;
    try discriminate H; split; reflexivity.
Qed.

Lemma span_stops (p : ascii -> bool) (a : string) (c : ascii) (b : string) :
  all_chars p a = true -> p c = false ->
  Parmline.span p (a ++ String c b) = (a, String c b).
Proof.
  intros Ha Hc. induction a as [|d a IH].
  - cbn [append Parmline.span]. now rewrite Hc.
  - change (all_chars p (String d a)) with (p d && all_chars p a) in Ha.
    apply andb_prop in Ha. destruct Ha as [Hd Ha].
    cbn [append Parmline.span]. now rewrite Hd, (IH Ha).
Qed.

Lemma span_all (p : ascii -> bool) (a : string) :
  all_chars p a = true -> Parmline.span p a = (a, EmptyString).
Proof.
  intros Ha. induction a as [|d a IH]; [reflexivity|].
  change (all_chars p (String d a)) with (p d && all_chars p a) in Ha.
  apply andb_prop in Ha. destruct Ha as [Hd Ha].
  cbn [Parmline.span]. now rewrite Hd, (IH Ha).
Qed.

Lemma match_keyword_identifier (kw rest : string) :
  identifier kw = true ->
  Parmline.match_keyword (kw ++ String "=" rest) = Some (kw, String "=" rest).
Proof.
  destruct kw as [|c r]; [discriminate|]. cbn [identifier]. intros H.
  apply andb_prop in H. destruct H as [Hc Hr].
  cbn [append Parmline.match_keyword]. rewrite Hc.
  now rewrite (span_stops Parmline.kw_char r "=" rest Hr eq_refl).
Qed.

Lemma strip_parm (kw tail : string) :
  identifier kw = true -> rstrip tail = tail -> tail <> EmptyString ->
  strip (kw ++ String "=" tail) = kw ++ String "=" tail.
Proof.
  intros Hk Ht Hne. unfold strip.
  destruct kw as [|c r]; [discriminate|]. cbn [identifier] in Hk.
  apply andb_prop in Hk. destruct Hk as [Hc _].
  destruct (kw_start_facts c Hc) as [Hsp _].
  cbn [append lstrip]. rewrite Hsp.
  replace (String c (r ++ String "=" tail)) with ((String c r ++ "=") ++ tail)
    by (now rewrite append_assoc).
  now apply rstrip_app.
Qed.

(** The shape of [str(n)]: a minus sign or a digit, then digits. *)
Lemma of_int_shape (n : Z) :
  exists c r, of_int n = String c r /\
    ((c =? "-")%char || between 48 57 c) = true /\ (c =? "[")%char = false /\
    all_chars re_digit r = true /\ isspace_char c = false.
Proof.
  pose proof (to_int_of_int n) as H. unfold to_int in H.
  destruct (of_int n) as [|c r]; [discriminate|].
  exists c, r. split; [reflexivity|].
  destruct (c =? "-")%char eqn:Ec.
  - apply Ascii.eqb_eq in Ec. subst c.
    destruct (negb (r =? EmptyString) && all_chars re_digit r) eqn:E; [|discriminate].
    apply andb_prop in E. destruct E as [_ E]. repeat split; assumption || reflexivity.
  - destruct (all_chars re_digit (String c r)) eqn:E; [|discriminate].
    change (all_chars re_digit (String c r)) with (re_digit c && all_chars re_digit r) in E.
    apply andb_prop in E. destruct E as [Hc Hr]. unfold re_digit in Hc.
    rewrite Hc. repeat split; try assumption; try reflexivity;
      clear - Hc; destruct c as [[] [] [] [] [] [] [] []]; vm_compute in Hc |- *;
      reflexivity || discriminate Hc.
Qed.

Lemma digit_no_space (c : ascii) : re_digit c = true -> negb (isspace_char c) = true.
Proof.
  destruct c as [[] [] [] [] [] [] [] []]; vm_compute; intros H;
    reflexivity || discriminate H.
Qed.

(** An integer parameter written as [name=N] is read back by [Parser.next]
    as the parameter [IntParm(name, N)], whose value is [N]; nothing of the
    line is left. *)
Theorem next_reads_int (relaxed : bool) (kw : string) (n : Z) :
  identifier kw = true ->
  Parmline.next relaxed (kw ++ "=" ++ of_int n)
  = Returned (Parmline.mkParm Parmline.Int (kw ++ "=" ++ of_int n) kw (Parmline.IntValue n),
              EmptyString).
Proof.
  intros Hk. unfold Parmline.next.
  destruct (of_int_shape n) as (c & r & E & Hc & Hb & Hr & Hsp).
  pose proof (to_int_of_int n) as Hn.
  assert (Hs : strip (kw ++ String "=" (of_int n)) = kw ++ String "=" (of_int n)).
  { apply strip_parm; [exact Hk | | rewrite E; discriminate].
    rewrite E. apply rstrip_word.
    change (negb (isspace_char c)
            && all_chars (fun c => negb (isspace_char c)) r = true).
    rewrite Hsp. cbn [negb andb]. revert Hr. apply all_chars_weaken. exact digit_no_space. }
  change (kw ++ "=" ++ of_int n) with (kw ++ String "=" (of_int n)).
  rewrite Hs.
  assert ((kw ++ String "=" (of_int n) =? EmptyString) = false) as ->
    by (destruct kw; [discriminate Hk | reflexivity]).
  rewrite (match_keyword_identifier kw (of_int n) Hk). cbn [obind].
  cbn [Ascii.eqb Bool.eqb negb]. change ("=" =? "=")%char with true. cbn [negb].
  rewrite E. rewrite Hb, Hc. rewrite (span_all re_digit r Hr).
  rewrite <- E. unfold Parmline.IntParm. rewrite Hn. reflexivity.
Qed.

Lemma next_reads_int_witness :
  Parmline.next false "userid=-12"
  = Returned (Parmline.mkParm Parmline.Int "userid=-12" "userid" (Parmline.IntValue (-12)),
              EmptyString).
Proof. apply (next_reads_int false "userid" (-12)). reflexivity. Defined.

Lemma nextString_loop_each (raw : string) :
  has_char dquote raw = false ->
  forall val rest,
    Parmline._nextString_loop true val (each (escape true true true) raw ++ String dquote rest)
    = Returned (val ++ each (escape true true true) raw, rest).
Proof.
  induction raw as [|c raw IH]; intros Hq val rest.
  - cbn [each append Parmline._nextString_loop].
    change (dquote =? backslash)%char with false. cbv iota. rewrite Ascii.eqb_refl.
    now rewrite append_nil_r.
  - cbn [has_char] in Hq. apply orb_false_elim in Hq. destruct Hq as [Hdq Hq].
    cbn [each]. rewrite append_assoc.
    codec_case c.
    + rewrite escape_backslash. cbn [append chr Parmline._nextString_loop].
      rewrite Ascii.eqb_refl. rewrite (IH Hq). now rewrite !append_assoc.
    + rewrite escape_LF. cbn [append chr Parmline._nextString_loop].
      rewrite Ascii.eqb_refl. rewrite (IH Hq). now rewrite !append_assoc.
    + rewrite escape_CR. cbn [append chr Parmline._nextString_loop].
      rewrite Ascii.eqb_refl. rewrite (IH Hq). now rewrite !append_assoc.
    + rewrite escape_other by assumption. cbn [append chr Parmline._nextString_loop].
      rewrite Hb, Hdq. rewrite (IH Hq). now rewrite !append_assoc.
Qed.

(** A text parameter made from a raw value is read back by [Parser.next]
    as that parameter, with the raw value, when the value holds no double
    quote and no backslash followed by the letter n or r. *)
Theorem next_reads_string (relaxed : bool) (kw raw : string) :
  identifier kw = true -> plain raw = true -> has_char dquote raw = false ->
  Parmline.next relaxed (Parmline.txt (Parmline.StringParm kw raw true))
  = Returned (Parmline.StringParm kw raw true, EmptyString).
Proof.
  intros Hk Hp Hq. unfold Parmline.StringParm at 1. cbn [Parmline.txt].
  set (enc := Parmline.encode raw).
  change (kw ++ "=" ++ chr dquote ++ enc ++ chr dquote)
    with (kw ++ String "=" (String dquote (enc ++ chr dquote))).
  unfold Parmline.next.
  rewrite strip_parm; [|exact Hk| |discriminate].
  2:{ change (String dquote (enc ++ chr dquote)) with (String dquote enc ++ chr dquote).
      replace (String dquote (enc ++ chr dquote)) with (String dquote enc ++ chr dquote)
        by reflexivity.
      apply rstrip_app; [reflexivity | discriminate]. }
  assert ((kw ++ String "=" (String dquote (enc ++ chr dquote)) =? EmptyString) = false) as ->
    by (destruct kw; [discriminate Hk | reflexivity]).
  rewrite (match_keyword_identifier kw _ Hk). cbn [obind].
  change ("=" =? "=")%char with true. cbn [negb].
  change (dquote =? "[")%char with false.
  change ((dquote =? "-")%char || between 48 57 dquote) with false. cbv iota.
  cbn [Parmline._nextString]. rewrite Ascii.eqb_refl.
  subst enc. rewrite encode_each.
  unfold chr at 1. rewrite (nextString_loop_each raw Hq). cbn [obind fst snd append].
  unfold Parmline.StringParm. rewrite <- encode_each.
  f_equal. f_equal. f_equal.
  rewrite encode_each. unfold Parmline.decode, replace.
  rewrite decode_pass1, (decode_pass2 raw Hp). now rewrite (decode_pass3 raw Hp).
Qed.

Lemma next_reads_string_witness :
  Parmline.next false
    (Parmline.txt (Parmline.StringParm "msg" ("hi" ++ String LF "there") true))
  = Returned (Parmline.StringParm "msg" ("hi" ++ String LF "there") true, EmptyString).
Proof.
  apply (next_reads_string false "msg" ("hi" ++ String LF "there")); reflexivity.
Defined.

Lemma read_delete_pop_agree_witness :
  PyDict.lookup "chanid" [("name", VStr "Lobby")] = None.
Proof.
  exact (proj2 (proj2 (proj2
           (read_delete_pop_agree [("chanid", VStr "1"); ("name", VStr "Lobby")]
              "channelid" VNone)))
           [("name", VStr "Lobby")] eq_refl).
Defined.
